(** * fableford-health-go: health, liveness, readiness, status and metrics

    A shallow embedding of the package [health] (types.go, server.go,
    client.go) and the properties its specification states about it.

    Part I holds the embedding, Part II the theorems for the claims of the
    specification, Part III further properties of the code. *)

From Stdlib Require Import ZArith String Ascii List Lia.
From Stdlib Require Import DecimalString DecimalZ DecimalPos SpecFloat.
From stdpp Require Import base option list gmap strings sorting.

Local Open Scope Z_scope.

(* ===================================================================== *)
(** * Part I. The embedding                                               *)
(* ===================================================================== *)

(** ** Go values the package passes around *)

(** An [error] is modelled by the text its [Error()] method returns. *)
Definition error := string.

(** A function of one result and an [error]: [Ok] is the [err == nil] return. *)
Inductive Result (A : Type) : Type :=
| Ok (a : A)
| Err (e : error).
Arguments Ok {A} a.
Arguments Err {A} e.

#[global] Instance Result_ret : MRet Result := fun A a => Ok a.

#[global] Instance Result_bind : MBind Result := fun A B k r =>
  match r with
  | Ok a => k a
  | Err e => Err e
  end.

(** A call either returns or panics (nil dereference, call of a nil func). *)
Inductive outcome (A : Type) : Type :=
| Returns (a : A)
| Panics.
Arguments Returns {A} a.
Arguments Panics {A}.

(** [map[string]string]: [None] is the nil map, [Some m] an allocated one. *)
Definition GoMap := option (gmap string string).

Definition GoMap_lookup (m : GoMap) (k : string) : option string :=
  match m with
  | None => None
  | Some g => g !! k
  end.

(** The pairs a [for k, v := range m] loop visits; a nil map has none. *)
Definition GoMap_range (m : GoMap) : list (string * string) :=
  match m with
  | None => []
  | Some g => map_to_list g
  end.

(** [[]T]: [None] is the nil slice. *)
Definition GoSlice (A : Type) := option (list A).

Definition elems {A} (s : GoSlice A) : list A :=
  match s with
  | None => []
  | Some l => l
  end.

(** [context.Context]: carried through to the callbacks and to the
    transport, never inspected by the package itself. *)
Record context_Context := {
  ctx_cancelled : bool;
  ctx_values : gmap string string
}.

Definition context_Background : context_Context :=
  {| ctx_cancelled := false; ctx_values := ∅ |}.

(** ** package time *)

(** [time.Duration] is an int64 count of nanoseconds. *)
Definition Duration := Z.

Definition Nanosecond : Duration := 1.
Definition Second : Duration := 1000000000.

Definition minDuration : Duration := - 2 ^ 63.
Definition maxDuration : Duration := 2 ^ 63 - 1.

(** [time.Time]: an instant, as nanoseconds on the clock's time line. *)
Record Time := mkTime { abs_ns : Z }.

(** [t.Sub(u)]: the difference, held at the ends of the Duration range. *)
Definition Time_Sub (t u : Time) : Duration :=
  let d := abs_ns t - abs_ns u in
  if d <? minDuration then minDuration
  else if maxDuration <? d then maxDuration
  else d.

(** [time.Since(t)] at a moment where the clock reads [now]. *)
Definition time_Since (now t : Time) : Duration := Time_Sub now t.

(** ** types.go *)

Definition HealthStatus := string.

Definition HealthStatusHealthy : HealthStatus := "healthy".
Definition HealthStatusUnhealthy : HealthStatus := "unhealthy".

Module HealthResponse.
Record t := mk {
  Status : HealthStatus;
  Timestamp : Time
}.
End HealthResponse.

Module LivenessResponse.
Record t := mk {
  Alive : bool;
  Timestamp : Time
}.
End LivenessResponse.

Module ReadinessResponse.
Record t := mk {
  Ready : bool;
  Timestamp : Time;
  Checks : GoMap
}.
End ReadinessResponse.

Module Dependency.
Record t := mk {
  Name : string;
  Status : string;
  Version : string
}.
End Dependency.

Module StatusResponse.
Record t := mk {
  ServiceName : string;
  Version : string;
  GitCommit : string;
  BuildTime : option Time;
  StartTime : Time;
  UptimeSeconds : Z;
  Environment : string;
  Hostname : string;
  Dependencies : GoSlice Dependency.t
}.
End StatusResponse.

(** ** server.go: BaseServer *)

Module BaseServer.
Record t := mk {
  ServiceName : string;
  Version : string;
  GitCommit : string;
  BuildTime : option Time;
  StartTime : Time;
  Environment : string;
  Hostname : string;
  CheckFunc : option (context_Context -> GoMap);
  MetricsFunc : option (context_Context -> string * option error);
  Dependencies : GoSlice Dependency.t
}.
End BaseServer.

(** [NewBaseServer], called when the clock reads [now]. *)
Definition NewBaseServer (serviceName version environment : string) (now : Time)
  : BaseServer.t :=
  {| BaseServer.ServiceName := serviceName;
     BaseServer.Version := version;
     BaseServer.GitCommit := "";
     BaseServer.BuildTime := None;
     BaseServer.StartTime := now;
     BaseServer.Environment := environment;
     BaseServer.Hostname := "";
     BaseServer.CheckFunc := None;
     BaseServer.MetricsFunc := None;
     BaseServer.Dependencies := None |}.

Definition BaseServer_GetHealth (s : BaseServer.t) (ctx : context_Context) (now : Time)
  : option HealthResponse.t * option error :=
  (Some {| HealthResponse.Status := HealthStatusHealthy;
           HealthResponse.Timestamp := now |}, None).

Definition BaseServer_GetLiveness (s : BaseServer.t) (ctx : context_Context) (now : Time)
  : option LivenessResponse.t * option error :=
  (Some {| LivenessResponse.Alive := true;
           LivenessResponse.Timestamp := now |}, None).

(** The condition of the [if] in the readiness loop. *)
Definition check_failed (status : string) : bool :=
  negb (String.eqb status "connected") && negb (String.eqb status "available")
  && negb (String.eqb status "reachable") && negb (String.eqb status "healthy").

(** The [for _, status := range checks] loop, entered with [ready]; the
    list is the order in which the runtime hands out the entries. *)
Fixpoint readiness_loop (entries : list (string * string)) (ready : bool) : bool :=
  match entries with
  | [] => ready
  | (_, status) :: rest =>
      if check_failed status then false (* ready = false; break *)
      else readiness_loop rest ready
  end.

Definition BaseServer_GetReadiness (s : BaseServer.t) (ctx : context_Context) (now : Time)
  : option ReadinessResponse.t * option error :=
  let checks0 : GoMap := Some ∅ in
  let ready0 := true in
  let '(checks, ready) :=
    match BaseServer.CheckFunc s with
    | Some f =>
        let checks := f ctx in
        (checks, readiness_loop (GoMap_range checks) ready0)
    | None => (checks0, ready0)
    end in
  (Some {| ReadinessResponse.Ready := ready;
           ReadinessResponse.Timestamp := now;
           ReadinessResponse.Checks := checks |}, None).

(** *** float64, as the status query uses it

    Binary64 values are [spec_float]s with [prec = 53] and [emax = 1024];
    the operations are those of the IEEE 754 specification in [SpecFloat]
    (round to nearest, ties to even). *)

Definition float64 := spec_float.

Definition prec64 : Z := 53.
Definition emax64 : Z := 1024.

(** [float64(x)] for an integer [x]. *)
Definition float64_of_int (x : Z) : float64 :=
  binary_normalize prec64 emax64 x 0 false.

Definition float64_add (x y : float64) : float64 := SFadd prec64 emax64 x y.
Definition float64_div (x y : float64) : float64 := SFdiv prec64 emax64 x y.

(** The constant [1e9]. *)
Definition float64_1e9 : float64 := float64_of_int 1000000000.

Definition minInt64 : Z := - 2 ^ 63.
Definition maxInt64 : Z := 2 ^ 63 - 1.

(** [int64(f)]: the fraction is discarded (truncation towards zero). For a
    value that does not fit, and for NaN and the infinities, Go leaves the
    result to the implementation; amd64 gives the least int64. *)
Definition int64_of_float64 (f : float64) : Z :=
  match f with
  | S754_zero _ => 0
  | S754_finite s m e =>
      let mag := if 0 <=? e then Z.pos m * 2 ^ e else Z.pos m / 2 ^ (- e) in
      let v := if s then - mag else mag in
      if (minInt64 <=? v) && (v <=? maxInt64) then v else minInt64
  | S754_infinity _ | S754_nan => minInt64
  end.

(** [d.Seconds()]:
    [sec := d / Second; nsec := d % Second;
     return float64(sec) + float64(nsec)/1e9].
    Go's [/] and [%] on integers truncate towards zero. *)
Definition Duration_Seconds (d : Duration) : float64 :=
  let sec := Z.quot d Second in
  let nsec := Z.rem d Second in
  float64_add (float64_of_int sec) (float64_div (float64_of_int nsec) float64_1e9).

Definition BaseServer_GetStatus (s : BaseServer.t) (ctx : context_Context) (now : Time)
  : option StatusResponse.t * option error :=
  let uptime := Duration_Seconds (time_Since now (BaseServer.StartTime s)) in
  (Some {| StatusResponse.ServiceName := BaseServer.ServiceName s;
           StatusResponse.Version := BaseServer.Version s;
           StatusResponse.GitCommit := BaseServer.GitCommit s;
           StatusResponse.BuildTime := BaseServer.BuildTime s;
           StatusResponse.StartTime := BaseServer.StartTime s;
           StatusResponse.UptimeSeconds := int64_of_float64 uptime;
           StatusResponse.Environment := BaseServer.Environment s;
           StatusResponse.Hostname := BaseServer.Hostname s;
           StatusResponse.Dependencies := BaseServer.Dependencies s |}, None).

(** The double quote and the line feed, for string constants that hold them. *)
Definition dq : string := String (ascii_of_nat 34) EmptyString.
Definition lf : string := String (ascii_of_nat 10) EmptyString.

(** The raw string literal [defaultMetrics] of [GetMetrics]. *)
Definition defaultMetrics : string :=
  "# HELP http_requests_total Total number of HTTP requests" +:+ lf +:+
  "# TYPE http_requests_total counter" +:+ lf +:+
  "http_requests_total{method=" +:+ dq +:+ "GET" +:+ dq +:+ ",status="
    +:+ dq +:+ "200" +:+ dq +:+ "} 0" +:+ lf +:+
  "# HELP http_request_duration_seconds HTTP request latency" +:+ lf +:+
  "# TYPE http_request_duration_seconds histogram" +:+ lf +:+
  "http_request_duration_seconds_bucket{le=" +:+ dq +:+ "0.005" +:+ dq +:+ "} 0" +:+ lf +:+
  "http_request_duration_seconds_bucket{le=" +:+ dq +:+ "0.01" +:+ dq +:+ "} 0" +:+ lf +:+
  "http_request_duration_seconds_bucket{le=" +:+ dq +:+ "0.025" +:+ dq +:+ "} 0" +:+ lf +:+
  "http_request_duration_seconds_sum 0" +:+ lf +:+
  "http_request_duration_seconds_count 0" +:+ lf.

Definition BaseServer_GetMetrics (s : BaseServer.t) (ctx : context_Context) (now : Time)
  : string * option error :=
  match BaseServer.MetricsFunc s with
  | Some f => f ctx
  | None => (defaultMetrics, None)
  end.

(** ** server.go: the Server interface *)

Record Server := {
  GetHealth : context_Context -> Time -> option HealthResponse.t * option error;
  GetLiveness : context_Context -> Time -> option LivenessResponse.t * option error;
  GetReadiness : context_Context -> Time -> option ReadinessResponse.t * option error;
  GetStatus : context_Context -> Time -> option StatusResponse.t * option error;
  GetMetrics : context_Context -> Time -> string * option error
}.

(** [*BaseServer] implements [Server]. *)
Definition BaseServer_Server (s : BaseServer.t) : Server :=
  {| GetHealth := BaseServer_GetHealth s;
     GetLiveness := BaseServer_GetLiveness s;
     GetReadiness := BaseServer_GetReadiness s;
     GetStatus := BaseServer_GetStatus s;
     GetMetrics := BaseServer_GetMetrics s |}.

(** ** JSON values and net/http records

    What [encoding/json] is handed, and what a reader gets, is kept as a
    JSON value: which members an object has, in which order, and what each
    holds. [JNumber] is a number written as an integer, [JFloat] one
    written with a fraction or an exponent, held by its text. *)

#[warnings="-register-all"]
Inductive json : Type :=
| JNull
| JBool (b : bool)
| JNumber (n : Z)
| JFloat (text : string)
| JString (s : string)
| JArray (l : list json)
| JObject (members : list (string * json)).

(** The value of member [k] of an object: the last one of that name. *)
Definition member (k : string) (j : json) : option json :=
  match j with
  | JObject l => snd <$> last (filter (fun kv => kv.1 = k) l)
  | _ => None
  end.

(** *** Strings on the wire

    [encoding/json] writes a Go string rune by rune. A byte that does not
    start a valid UTF-8 encoding ([utf8.DecodeRuneInString] gives
    [RuneError] with width 1 for it) is written as U+FFFD, so a reader
    gets the three bytes EF BF BD in its place. *)

Definition byte_in (lo hi : N) (c : ascii) : bool :=
  ((lo <=? N_of_ascii c) && (N_of_ascii c <=? hi))%N.

(** The bytes at the start of [s] lie in the given ranges, one after the
    other. *)
Fixpoint follows (ranges : list (N * N)) (s : string) : bool :=
  match ranges with
  | [] => true
  | (lo, hi) :: more =>
      match s with
      | String b rest => byte_in lo hi b && follows more rest
      | EmptyString => false
      end
  end.

(** The width of the encoding that the byte [c] starts when [rest] comes
    after it, by the tables [first] and [acceptRanges] of package utf8;
    [None] when it starts none. *)
Definition utf8_width (c : ascii) (rest : string) : option nat :=
  let cb := (128, 191)%N in
  let width (n : nat) (ranges : list (N * N)) :=
    if follows ranges rest then Some n else None in
  if byte_in 0 127 c then Some 1%nat
  else if byte_in 194 223 c then width 2%nat [cb]
  else if byte_in 224 224 c then width 3%nat [(160, 191)%N; cb]
  else if byte_in 225 236 c then width 3%nat [cb; cb]
  else if byte_in 237 237 c then width 3%nat [(128, 159)%N; cb]
  else if byte_in 238 239 c then width 3%nat [cb; cb]
  else if byte_in 240 240 c then width 4%nat [(144, 191)%N; cb; cb]
  else if byte_in 241 243 c then width 4%nat [cb; cb; cb]
  else if byte_in 244 244 c then width 4%nat [(128, 143)%N; cb; cb]
  else None.

(** [utf8.ValidString]; [skip] counts the bytes still to pass of an
    encoding already checked. *)
Fixpoint valid_from (skip : nat) (s : string) : bool :=
  match s with
  | EmptyString => true
  | String c rest =>
      match skip with
      | S k => valid_from k rest
      | O =>
          match utf8_width c rest with
          | Some w => valid_from (pred w) rest
          | None => false
          end
      end
  end.

Definition utf8_ValidString (s : string) : bool := valid_from 0 s.

(** The bytes a reader gets for a string that was written. *)
Fixpoint wire_from (skip : nat) (s : string) : string :=
  match s with
  | EmptyString => EmptyString
  | String c rest =>
      match skip with
      | S k => String c (wire_from k rest)
      | O =>
          match utf8_width c rest with
          | Some w => String c (wire_from (pred w) rest)
          | None =>
              String (ascii_of_N 239) (String (ascii_of_N 191) (String (ascii_of_N 189)
                (wire_from 0 rest)))
          end
      end
  end.

Definition wire_string (s : string) : string := wire_from 0 s.

(** The value a reader gets for a value that was written: every string in
    it, member names too, goes through [wire_string]. *)
Fixpoint json_wire (j : json) : json :=
  match j with
  | JString s => JString (wire_string s)
  | JArray l => JArray (List.map json_wire l)
  | JObject members =>
      JObject (List.map (fun kv => (wire_string (fst kv), json_wire (snd kv))) members)
  | _ => j
  end.

(** [url.URL], held as the text its [String()] method gives. *)
Record url_URL := { url_text : string }.

Definition URL_String (u : url_URL) : string := url_text u.

(** [http.Client]; [Transport] names the round tripper (0: the default one). *)
Record http_Client := {
  Timeout : Duration;
  Transport : nat
}.

Record http_Request := {
  req_Method : string;
  req_URL : url_URL;
  req_Header : gmap string string;
  req_ctx : context_Context
}.

Definition Request_Context (r : http_Request) : context_Context := req_ctx r.

Definition Request_Header_Set (k v : string) (r : http_Request) : http_Request :=
  {| req_Method := req_Method r; req_URL := req_URL r;
     req_Header := <[k := v]> (req_Header r); req_ctx := req_ctx r |}.

(** A response body: the bytes that arrive, and the error the read ends
    with when the stream breaks ([None]: a clean end of the body). *)
Record Body := {
  body_data : string;
  body_err : option error
}.

(** [io.ReadAll]: what was read, and the error if any. *)
Definition io_ReadAll (b : Body) : string * option error :=
  (body_data b, body_err b).

Record http_Response := {
  StatusCode : Z;
  resp_Body : Body
}.

Definition StatusOK : Z := 200.
Definition StatusInternalServerError : Z := 500.
Definition StatusServiceUnavailable : Z := 503.
Definition MethodGet : string := "GET".

(** The libraries and the network that the package calls into. *)
Class Env := {
  (** [time.Time]'s [MarshalJSON]: the RFC 3339 text of an instant *)
  time_text : Time -> string;
  (** [time.Time]'s [UnmarshalJSON] *)
  time_parse : string -> Result Time;
  (** [url.Parse] *)
  url_Parse : string -> Result url_URL;
  (** [Do] of [http.Client]: the exchange with the remote server *)
  http_Do : http_Client -> http_Request -> Result http_Response;
  (** [json.NewDecoder(body)] reading the first JSON value of a body *)
  json_read : Body -> Result json;
  (** the text of the error [encoding/json] reports for a value that it
      cannot store into a variable of the named type *)
  json_Unmarshal_error : string -> json -> error
}.

(** [%d] of [fmt]. *)
Definition fmt_d (z : Z) : string := NilZero.string_of_int (Z.to_int z).

(** [strings.Contains]. *)
Definition Contains (s substr : string) : Prop :=
  exists pre post, s = pre +:+ substr +:+ post.

(** ** encoding/json on the response types (types.go)

    [marshal_*] follows the struct tags: the member names, their order (the
    order of the fields), and [omitempty]. The strings of the value are
    the Go strings as they are; what a reader gets is [json_wire] of the
    value. *)

Section Marshal.
Context {E : Env}.

Definition marshal_Time (t : Time) : json := JString (time_text t).

(** [omitempty] on a string field: left out when the string is empty. *)
Definition omitempty_string (k s : string) : list (string * json) :=
  if String.eqb s "" then [] else [(k, JString s)].

(** [omitempty] on a [*time.Time] field: left out when nil. *)
Definition omitempty_Time (k : string) (t : option Time) : list (string * json) :=
  match t with
  | None => []
  | Some t => [(k, marshal_Time t)]
  end.

(** Map keys are written in sorted order. *)
Definition key_le (a b : string * string) : Prop := String.leb a.1 b.1.

#[global] Instance key_le_dec a b : Decision (key_le a b).
Proof. unfold key_le. apply _. Defined.

(** A nil map is written as [null], any other as an object. *)
Definition marshal_map (m : GoMap) : json :=
  match m with
  | None => JNull
  | Some g =>
      JObject ((fun kv : string * string => (kv.1, JString kv.2))
                 <$> merge_sort key_le (map_to_list g))
  end.

Definition marshal_HealthResponse (r : HealthResponse.t) : json :=
  JObject [ ("status", JString (HealthResponse.Status r));
            ("timestamp", marshal_Time (HealthResponse.Timestamp r)) ].

Definition marshal_LivenessResponse (r : LivenessResponse.t) : json :=
  JObject [ ("alive", JBool (LivenessResponse.Alive r));
            ("timestamp", marshal_Time (LivenessResponse.Timestamp r)) ].

Definition marshal_ReadinessResponse (r : ReadinessResponse.t) : json :=
  JObject [ ("ready", JBool (ReadinessResponse.Ready r));
            ("timestamp", marshal_Time (ReadinessResponse.Timestamp r));
            ("checks", marshal_map (ReadinessResponse.Checks r)) ].

Definition marshal_Dependency (d : Dependency.t) : json :=
  JObject ([ ("name", JString (Dependency.Name d));
             ("status", JString (Dependency.Status d)) ]
           ++ omitempty_string "version" (Dependency.Version d)).

(** [omitempty] on a slice field: left out when its length is zero. *)
Definition omitempty_Dependencies (k : string) (s : GoSlice Dependency.t)
  : list (string * json) :=
  match elems s with
  | [] => []
  | l => [(k, JArray (marshal_Dependency <$> l))]
  end.

Definition marshal_StatusResponse (r : StatusResponse.t) : json :=
  JObject ([ ("service_name", JString (StatusResponse.ServiceName r));
             ("version", JString (StatusResponse.Version r)) ]
           ++ omitempty_string "git_commit" (StatusResponse.GitCommit r)
           ++ omitempty_Time "build_time" (StatusResponse.BuildTime r)
           ++ [ ("start_time", marshal_Time (StatusResponse.StartTime r));
                ("uptime_seconds", JNumber (StatusResponse.UptimeSeconds r));
                ("environment", JString (StatusResponse.Environment r)) ]
           ++ omitempty_string "hostname" (StatusResponse.Hostname r)
           ++ omitempty_Dependencies "dependencies" (StatusResponse.Dependencies r)).

(** [unmarshal_*]: [json.Unmarshal] into a zero value of the type. Members
    are stored in the order they come, a later one over an earlier one; a
    member no field answers to is skipped; [null] leaves a plain field as it
    is and sets a pointer, map or slice to nil; a value of the wrong kind
    cannot be stored. Inside, [Err] only marks that a value cannot be
    stored: which error [Unmarshal] then reports, and with what text, is
    the library's ([json_Unmarshal_error]). *)

Definition type_error : error := "cannot be stored".

Definition Unmarshal {A} (type : string) (store : json -> Result A) (j : json)
  : Result A :=
  match store j with
  | Ok a => Ok a
  | Err _ => Err (json_Unmarshal_error type j)
  end.

(** A member name matches a field's name under simple case folding. The
    names of the fields are ASCII; what folds onto an ASCII letter is the
    letter in its other case, and U+212A (the Kelvin sign, bytes E2 84 AA)
    onto k and U+017F (the long s, bytes C5 BF) onto s. *)
Definition fold_ascii (c : ascii) : ascii :=
  let n := nat_of_ascii c in
  if ((65 <=? n) && (n <=? 90))%nat then ascii_of_nat (n + 32) else c.

Fixpoint fold_string (s : string) : string :=
  match s with
  | EmptyString => EmptyString
  | String c rest =>
      let plain := String (fold_ascii c) (fold_string rest) in
      match rest with
      | String c1 rest1 =>
          if byte_in 197 197 c && byte_in 191 191 c1
          then String "s" (fold_string rest1)
          else
            match rest1 with
            | String c2 rest2 =>
                if byte_in 226 226 c && byte_in 132 132 c1 && byte_in 170 170 c2
                then String "k" (fold_string rest2)
                else plain
            | EmptyString => plain
            end
      | EmptyString => plain
      end
  end.

(** [a] is a member name, [b] the name of a field. *)
Definition EqualFold (a b : string) : bool :=
  String.eqb (fold_string a) (fold_string b).

Definition unmarshal_string (v : json) (old : string) : Result string :=
  match v with
  | JNull => Ok old
  | JString s => Ok s
  | _ => Err type_error
  end.

Definition unmarshal_bool (v : json) (old : bool) : Result bool :=
  match v with
  | JNull => Ok old
  | JBool b => Ok b
  | _ => Err type_error
  end.

Definition unmarshal_int64 (v : json) (old : Z) : Result Z :=
  match v with
  | JNull => Ok old
  | JNumber n => if (minInt64 <=? n) && (n <=? maxInt64) then Ok n else Err type_error
  | _ => Err type_error
  end.

Definition unmarshal_Time (v : json) (old : Time) : Result Time :=
  match v with
  | JNull => Ok old
  | JString s => time_parse s
  | _ => Err type_error
  end.

Definition unmarshal_Time_ptr (v : json) : Result (option Time) :=
  match v with
  | JNull => Ok None
  | JString s => t ← time_parse s; Ok (Some t)
  | _ => Err type_error
  end.

(** The members of an object are stored one after the other into [acc]. *)
Fixpoint unmarshal_members {A} (set : A -> string * json -> Result A)
    (l : list (string * json)) (acc : A) : Result A :=
  match l with
  | [] => Ok acc
  | kv :: rest => acc' ← set acc kv; unmarshal_members set rest acc'
  end.

(** Storing into a struct that holds [old]: [null] leaves it as it is. *)
Definition unmarshal_struct {A} (set : A -> string * json -> Result A)
    (old : A) (j : json) : Result A :=
  match j with
  | JNull => Ok old
  | JObject l => unmarshal_members set l old
  | _ => Err type_error
  end.

Definition map_set (acc : gmap string string) (kv : string * json)
  : Result (gmap string string) :=
  s ← unmarshal_string kv.2 ""; Ok (<[kv.1 := s]> acc).

Definition unmarshal_map (v : json) (old : GoMap) : Result GoMap :=
  match v with
  | JNull => Ok None
  | JObject l => g ← unmarshal_members map_set l (default ∅ old); Ok (Some g)
  | _ => Err type_error
  end.

Definition zero_Time : Time := mkTime 0.

Definition HealthResponse_set (acc : HealthResponse.t) (kv : string * json)
  : Result HealthResponse.t :=
  if EqualFold kv.1 "status" then
    s ← unmarshal_string kv.2 (HealthResponse.Status acc);
    Ok (HealthResponse.mk s (HealthResponse.Timestamp acc))
  else if EqualFold kv.1 "timestamp" then
    t ← unmarshal_Time kv.2 (HealthResponse.Timestamp acc);
    Ok (HealthResponse.mk (HealthResponse.Status acc) t)
  else Ok acc.

Definition unmarshal_HealthResponse : json -> Result HealthResponse.t :=
  Unmarshal "HealthResponse"
    (unmarshal_struct HealthResponse_set (HealthResponse.mk "" zero_Time)).

Definition LivenessResponse_set (acc : LivenessResponse.t) (kv : string * json)
  : Result LivenessResponse.t :=
  if EqualFold kv.1 "alive" then
    b ← unmarshal_bool kv.2 (LivenessResponse.Alive acc);
    Ok (LivenessResponse.mk b (LivenessResponse.Timestamp acc))
  else if EqualFold kv.1 "timestamp" then
    t ← unmarshal_Time kv.2 (LivenessResponse.Timestamp acc);
    Ok (LivenessResponse.mk (LivenessResponse.Alive acc) t)
  else Ok acc.

Definition unmarshal_LivenessResponse : json -> Result LivenessResponse.t :=
  Unmarshal "LivenessResponse"
    (unmarshal_struct LivenessResponse_set (LivenessResponse.mk false zero_Time)).

Definition ReadinessResponse_set (acc : ReadinessResponse.t) (kv : string * json)
  : Result ReadinessResponse.t :=
  if EqualFold kv.1 "ready" then
    b ← unmarshal_bool kv.2 (ReadinessResponse.Ready acc);
    Ok (ReadinessResponse.mk b (ReadinessResponse.Timestamp acc) (ReadinessResponse.Checks acc))
  else if EqualFold kv.1 "timestamp" then
    t ← unmarshal_Time kv.2 (ReadinessResponse.Timestamp acc);
    Ok (ReadinessResponse.mk (ReadinessResponse.Ready acc) t (ReadinessResponse.Checks acc))
  else if EqualFold kv.1 "checks" then
    m ← unmarshal_map kv.2 (ReadinessResponse.Checks acc);
    Ok (ReadinessResponse.mk (ReadinessResponse.Ready acc) (ReadinessResponse.Timestamp acc) m)
  else Ok acc.

Definition unmarshal_ReadinessResponse : json -> Result ReadinessResponse.t :=
  Unmarshal "ReadinessResponse"
    (unmarshal_struct ReadinessResponse_set (ReadinessResponse.mk false zero_Time None)).

Definition Dependency_set (acc : Dependency.t) (kv : string * json)
  : Result Dependency.t :=
  if EqualFold kv.1 "name" then
    s ← unmarshal_string kv.2 (Dependency.Name acc);
    Ok (Dependency.mk s (Dependency.Status acc) (Dependency.Version acc))
  else if EqualFold kv.1 "status" then
    s ← unmarshal_string kv.2 (Dependency.Status acc);
    Ok (Dependency.mk (Dependency.Name acc) s (Dependency.Version acc))
  else if EqualFold kv.1 "version" then
    s ← unmarshal_string kv.2 (Dependency.Version acc);
    Ok (Dependency.mk (Dependency.Name acc) (Dependency.Status acc) s)
  else Ok acc.

Definition zero_Dependency : Dependency.t := Dependency.mk "" "" "".

Definition unmarshal_Dependency : json -> Result Dependency.t :=
  Unmarshal "Dependency" (unmarshal_struct Dependency_set zero_Dependency).

(** The elements of a JSON array are stored into the slice from index 0
    on. The array behind the slice is used again when there is one: the
    element at index [i] is stored into what the array holds at [i], not
    into a zero value, so when a member comes a second time, fields that
    its elements do not name keep what an earlier array left. [arr] is
    what the array holds, from index 0; past its end the array is new. *)
Fixpoint unmarshal_elements {A} (f : A -> json -> Result A) (zero : A)
    (l : list json) (arr : list A) : Result (list A) :=
  match l with
  | [] => Ok []
  | j :: rest =>
      a ← f (hd zero arr) j; r ← unmarshal_elements f zero rest (tl arr); Ok (a :: r)
  end.

(** The slice stored, and what the array behind it then holds: [null]
    gives the nil slice, [[]] a new slice of length zero. *)
Definition unmarshal_Dependencies (v : json) (arr : list Dependency.t)
  : Result (GoSlice Dependency.t * list Dependency.t) :=
  match v with
  | JNull => Ok (None, [])
  | JArray [] => Ok (Some [], [])
  | JArray l =>
      r ← unmarshal_elements (unmarshal_struct Dependency_set) zero_Dependency l arr;
      Ok (Some r, r ++ drop (length r) arr)
  | _ => Err type_error
  end.

(** The status response being filled, and the array behind its slice of
    dependencies. *)
Definition StatusResponse_set (acc : StatusResponse.t * list Dependency.t)
    (kv : string * json) : Result (StatusResponse.t * list Dependency.t) :=
  let '(StatusResponse.mk sn ve gc bt st up en ho de, arr) := acc in
  if EqualFold kv.1 "service_name" then
    s ← unmarshal_string kv.2 sn; Ok (StatusResponse.mk s ve gc bt st up en ho de, arr)
  else if EqualFold kv.1 "version" then
    s ← unmarshal_string kv.2 ve; Ok (StatusResponse.mk sn s gc bt st up en ho de, arr)
  else if EqualFold kv.1 "git_commit" then
    s ← unmarshal_string kv.2 gc; Ok (StatusResponse.mk sn ve s bt st up en ho de, arr)
  else if EqualFold kv.1 "build_time" then
    t ← unmarshal_Time_ptr kv.2; Ok (StatusResponse.mk sn ve gc t st up en ho de, arr)
  else if EqualFold kv.1 "start_time" then
    t ← unmarshal_Time kv.2 st; Ok (StatusResponse.mk sn ve gc bt t up en ho de, arr)
  else if EqualFold kv.1 "uptime_seconds" then
    n ← unmarshal_int64 kv.2 up; Ok (StatusResponse.mk sn ve gc bt st n en ho de, arr)
  else if EqualFold kv.1 "environment" then
    s ← unmarshal_string kv.2 en; Ok (StatusResponse.mk sn ve gc bt st up s ho de, arr)
  else if EqualFold kv.1 "hostname" then
    s ← unmarshal_string kv.2 ho; Ok (StatusResponse.mk sn ve gc bt st up en s de, arr)
  else if EqualFold kv.1 "dependencies" then
    d ← unmarshal_Dependencies kv.2 arr;
    Ok (StatusResponse.mk sn ve gc bt st up en ho d.1, d.2)
  else Ok acc.

Definition zero_StatusResponse : StatusResponse.t :=
  StatusResponse.mk "" "" "" None zero_Time 0 "" "" None.

Definition unmarshal_StatusResponse : json -> Result StatusResponse.t :=
  Unmarshal "StatusResponse"
    (fun j => r ← unmarshal_struct StatusResponse_set (zero_StatusResponse, []) j;
              Ok r.1).

End Marshal.

(** ** server.go: HTTPHandler *)

(** What a handler has written to an [http.ResponseWriter]: the header map,
    the status code once [WriteHeader] has been called, and the body.
    [WroteJSON j] is the text the JSON encoder writes for [j], and a line
    feed; a reader of that text gets [json_wire j]. *)
Inductive chunk : Type :=
| WroteJSON (j : json)
| WroteText (s : string).

Record ResponseWriter := {
  rw_Header : gmap string string;
  rw_Code : option Z;
  rw_Body : list chunk
}.

Definition new_ResponseWriter : ResponseWriter :=
  {| rw_Header := ∅; rw_Code := None; rw_Body := [] |}.

Definition Header_Set (k v : string) (w : ResponseWriter) : ResponseWriter :=
  {| rw_Header := <[k := v]> (rw_Header w); rw_Code := rw_Code w; rw_Body := rw_Body w |}.

(** Only the first [WriteHeader] counts. *)
Definition WriteHeader (code : Z) (w : ResponseWriter) : ResponseWriter :=
  match rw_Code w with
  | Some _ => w
  | None => {| rw_Header := rw_Header w; rw_Code := Some code; rw_Body := rw_Body w |}
  end.

(** A [Write] before any [WriteHeader] sends status 200 first. *)
Definition Write (c : chunk) (w : ResponseWriter) : ResponseWriter :=
  let w := WriteHeader StatusOK w in
  {| rw_Header := rw_Header w; rw_Code := rw_Code w; rw_Body := rw_Body w ++ [c] |}.

(** [json.NewEncoder(w).Encode(v)] for a value that marshals to [j]. A
    map of strings always marshals. A response does unless one of its
    instants is refused by [MarshalJSON] (a year outside 0 to 9999): for
    such a response [Encode] writes nothing and returns an error, a case
    that is not followed here. The status code is the same in that case,
    since [WriteHeader] has been called by then; the header map and the
    body are not. *)
Definition Encoder_Encode (j : json) (w : ResponseWriter) : ResponseWriter * option error :=
  (Write (WroteJSON j) w, None).

(** [http.Error]. *)
Definition http_Error (w : ResponseWriter) (msg : string) (code : Z) : ResponseWriter :=
  let w := Header_Set "Content-Type" "text/plain; charset=utf-8" w in
  let w := Header_Set "X-Content-Type-Options" "nosniff" w in
  let w := WriteHeader code w in
  Write (WroteText (msg +:+ lf)) w.

Record HTTPHandler := { server : Server }.

Definition NewHTTPHandler (server : Server) : HTTPHandler := {| server := server |}.

Definition writeJSON (w : ResponseWriter) (status : Z) (v : json) : ResponseWriter :=
  let w := Header_Set "Content-Type" "application/json" w in
  let w := WriteHeader status w in
  match Encoder_Encode v w with
  | (w, Some err) => http_Error w err StatusInternalServerError
  | (w, None) => w
  end.

Definition writeError (w : ResponseWriter) (status : Z) (err : error) : ResponseWriter :=
  let w := Header_Set "Content-Type" "application/json" w in
  let w := WriteHeader status w in
  fst (Encoder_Encode (JObject [("error", JString err)]) w).

Section Handlers.
Context {E : Env}.

(** Each handler runs when the clock reads [now]; a nil response with a nil
    error makes the field access panic. *)
Definition handleGetHealth (h : HTTPHandler) (w : ResponseWriter) (r : http_Request)
    (now : Time) : outcome ResponseWriter :=
  match GetHealth (server h) (Request_Context r) now with
  | (_, Some err) => Returns (writeError w StatusInternalServerError err)
  | (None, None) => Panics
  | (Some resp, None) =>
      let status := StatusOK in
      let status :=
        if String.eqb (HealthResponse.Status resp) HealthStatusUnhealthy
        then StatusServiceUnavailable else status in
      Returns (writeJSON w status (marshal_HealthResponse resp))
  end.

Definition handleGetLiveness (h : HTTPHandler) (w : ResponseWriter) (r : http_Request)
    (now : Time) : outcome ResponseWriter :=
  match GetLiveness (server h) (Request_Context r) now with
  | (_, Some err) => Returns (writeError w StatusInternalServerError err)
  | (None, None) => Panics
  | (Some resp, None) =>
      let status := StatusOK in
      let status :=
        if negb (LivenessResponse.Alive resp) then StatusServiceUnavailable else status in
      Returns (writeJSON w status (marshal_LivenessResponse resp))
  end.

Definition handleGetReadiness (h : HTTPHandler) (w : ResponseWriter) (r : http_Request)
    (now : Time) : outcome ResponseWriter :=
  match GetReadiness (server h) (Request_Context r) now with
  | (_, Some err) => Returns (writeError w StatusInternalServerError err)
  | (None, None) => Panics
  | (Some resp, None) =>
      let status := StatusOK in
      let status :=
        if negb (ReadinessResponse.Ready resp) then StatusServiceUnavailable else status in
      Returns (writeJSON w status (marshal_ReadinessResponse resp))
  end.

(** A nil [*StatusResponse] is encoded as [null]. *)
Definition handleGetStatus (h : HTTPHandler) (w : ResponseWriter) (r : http_Request)
    (now : Time) : outcome ResponseWriter :=
  match GetStatus (server h) (Request_Context r) now with
  | (_, Some err) => Returns (writeError w StatusInternalServerError err)
  | (resp, None) =>
      Returns (writeJSON w StatusOK (from_option marshal_StatusResponse JNull resp))
  end.

Definition handleGetMetrics (h : HTTPHandler) (w : ResponseWriter) (r : http_Request)
    (now : Time) : outcome ResponseWriter :=
  match GetMetrics (server h) (Request_Context r) now with
  | (_, Some err) => Returns (writeError w StatusInternalServerError err)
  | (metrics, None) =>
      let w := Header_Set "Content-Type" "text/plain; version=0.0.4" w in
      let w := WriteHeader StatusOK w in
      Returns (Write (WroteText metrics) w)
  end.

End Handlers.

(** ** server.go: RegisterRoutes, on chi's router

    [chi.Router] is an interface; of its methods the package calls [Get]
    alone. A router is held as the list of the routes registered on it, in
    the order of the calls. How a router serves a request is chi's and is
    not part of the package. *)

Definition HandlerFunc := ResponseWriter -> http_Request -> Time -> outcome ResponseWriter.

Record route := {
  route_method : string;
  route_pattern : string;
  route_handler : HandlerFunc
}.

Abbreviation chi_Router := (list route).

Definition chi_NewRouter : chi_Router := [].

(** [r.Get(pattern, fn)]. *)
Definition Router_Get (pattern : string) (fn : HandlerFunc) (r : chi_Router)
  : chi_Router :=
  r ++ [ {| route_method := MethodGet; route_pattern := pattern; route_handler := fn |} ].

Definition StatusNotFound : Z := 404.
Definition StatusMethodNotAllowed : Z := 405.

Section Routes.
Context {E : Env}.

Definition RegisterRoutes (h : HTTPHandler) (r : chi_Router) : chi_Router :=
  let r := Router_Get "/health" (handleGetHealth h) r in
  let r := Router_Get "/health/live" (handleGetLiveness h) r in
  let r := Router_Get "/health/ready" (handleGetReadiness h) r in
  let r := Router_Get "/status" (handleGetStatus h) r in
  Router_Get "/metrics" (handleGetMetrics h) r.

End Routes.

(** ** client.go *)

(** [*http.Client] values are addresses into a store of [http.Client]s:
    [WithTimeout] writes through the pointer the client holds, which may be
    one the caller passed in. [None] is the nil pointer. *)
Abbreviation loc := positive.
Abbreviation heap := (gmap positive http_Client).

Record client := {
  baseURL : string;
  httpClient : option loc
}.

(** The two option constructors of the package (the type [client] is not
    exported, so no other [ClientOption] can be written outside of it). *)
Inductive ClientOption : Type :=
| WithHTTPClient (httpClient : option loc)
| WithTimeout (timeout : Duration).

(** [opt(c)]. *)
Definition apply_ClientOption (opt : ClientOption) (c : client) (h : heap)
  : outcome (client * heap) :=
  match opt with
  | WithHTTPClient p => Returns ({| baseURL := baseURL c; httpClient := p |}, h)
  | WithTimeout timeout =>
      match httpClient c with
      | None => Panics
      | Some l =>
          match h !! l with
          | None => Panics
          | Some hc =>
              Returns (c, <[l := {| Timeout := timeout; Transport := Transport hc |}]> h)
          end
      end
  end.

(** [for _, opt := range opts { opt(c) }]. *)
Fixpoint apply_options (opts : list ClientOption) (c : client) (h : heap)
  : outcome (client * heap) :=
  match opts with
  | [] => Returns (c, h)
  | opt :: rest =>
      match apply_ClientOption opt c h with
      | Panics => Panics
      | Returns (c', h') => apply_options rest c' h'
      end
  end.

Section Client.
Context {E : Env}.

Definition NewClient (baseURL : string) (opts : list ClientOption) (h : heap)
  : outcome (Result client * heap) :=
  match url_Parse baseURL with
  | Err err => Returns (Err ("invalid base URL: " +:+ err), h)
  | Ok u =>
      let l := fresh (dom h) in
      let h := <[l := {| Timeout := 30 * Second; Transport := 0%nat |}]> h in
      let c := {| baseURL := URL_String u; httpClient := Some l |} in
      match apply_options opts c h with
      | Panics => Panics
      | Returns (c, h) => Returns (Ok c, h)
      end
  end.

(** [http.NewRequestWithContext] with a nil body: the URL has to parse
    (the method, always GET here, is a valid one). *)
Definition http_NewRequestWithContext (ctx : context_Context) (method url : string)
  : Result http_Request :=
  u ← url_Parse url;
  Ok {| req_Method := method; req_URL := u; req_Header := ∅; req_ctx := ctx |}.

(** [p.Do(req)] through a pointer [p]. *)
Definition Client_Do (h : heap) (p : option loc) (req : http_Request)
  : outcome (Result http_Response) :=
  match p with
  | None => Panics
  | Some l =>
      match h !! l with
      | None => Panics
      | Some hc => Returns (http_Do hc req)
      end
  end.

(** [json.NewDecoder(body).Decode(&v)]. *)
Definition Decoder_Decode {A} (unmarshal : json -> Result A) (body : Body) : Result A :=
  j ← json_read body; unmarshal j.

Definition doRequest (c : client) (h : heap) (ctx : context_Context)
    (method path : string) : outcome (Result http_Response) :=
  let reqURL := baseURL c +:+ path in
  match http_NewRequestWithContext ctx method reqURL with
  | Err err => Returns (Err ("creating request: " +:+ err))
  | Ok req =>
      let req := Request_Header_Set "Accept" "application/json" req in
      match Client_Do h (httpClient c) req with
      | Panics => Panics
      | Returns (Err err) => Returns (Err ("executing request: " +:+ err))
      | Returns (Ok resp) => Returns (Ok resp)
      end
  end.

Definition unexpected_status (resp : http_Response) : error :=
  let '(body, _) := io_ReadAll (resp_Body resp) in
  "unexpected status code " +:+ fmt_d (StatusCode resp) +:+ ": " +:+ body.

Definition client_GetHealth (c : client) (h : heap) (ctx : context_Context)
  : outcome (Result HealthResponse.t) :=
  match doRequest c h ctx MethodGet "/health" with
  | Panics => Panics
  | Returns (Err err) => Returns (Err err)
  | Returns (Ok resp) =>
      if negb (StatusCode resp =? StatusOK)
         && negb (StatusCode resp =? StatusServiceUnavailable)
      then Returns (Err (unexpected_status resp))
      else
        match Decoder_Decode unmarshal_HealthResponse (resp_Body resp) with
        | Err err => Returns (Err ("decoding response: " +:+ err))
        | Ok healthResp => Returns (Ok healthResp)
        end
  end.

Definition client_GetLiveness (c : client) (h : heap) (ctx : context_Context)
  : outcome (Result LivenessResponse.t) :=
  match doRequest c h ctx MethodGet "/health/live" with
  | Panics => Panics
  | Returns (Err err) => Returns (Err err)
  | Returns (Ok resp) =>
      if negb (StatusCode resp =? StatusOK)
         && negb (StatusCode resp =? StatusServiceUnavailable)
      then Returns (Err (unexpected_status resp))
      else
        match Decoder_Decode unmarshal_LivenessResponse (resp_Body resp) with
        | Err err => Returns (Err ("decoding response: " +:+ err))
        | Ok livenessResp => Returns (Ok livenessResp)
        end
  end.

Definition client_GetReadiness (c : client) (h : heap) (ctx : context_Context)
  : outcome (Result ReadinessResponse.t) :=
  match doRequest c h ctx MethodGet "/health/ready" with
  | Panics => Panics
  | Returns (Err err) => Returns (Err err)
  | Returns (Ok resp) =>
      if negb (StatusCode resp =? StatusOK)
         && negb (StatusCode resp =? StatusServiceUnavailable)
      then Returns (Err (unexpected_status resp))
      else
        match Decoder_Decode unmarshal_ReadinessResponse (resp_Body resp) with
        | Err err => Returns (Err ("decoding response: " +:+ err))
        | Ok readinessResp => Returns (Ok readinessResp)
        end
  end.

Definition client_GetStatus (c : client) (h : heap) (ctx : context_Context)
  : outcome (Result StatusResponse.t) :=
  match doRequest c h ctx MethodGet "/status" with
  | Panics => Panics
  | Returns (Err err) => Returns (Err err)
  | Returns (Ok resp) =>
      if negb (StatusCode resp =? StatusOK)
      then Returns (Err (unexpected_status resp))
      else
        match Decoder_Decode unmarshal_StatusResponse (resp_Body resp) with
        | Err err => Returns (Err ("decoding response: " +:+ err))
        | Ok statusResp => Returns (Ok statusResp)
        end
  end.

Definition client_GetMetrics (c : client) (h : heap) (ctx : context_Context)
  : outcome (Result string) :=
  match http_NewRequestWithContext ctx MethodGet (baseURL c +:+ "/metrics") with
  | Err err => Returns (Err ("creating request: " +:+ err))
  | Ok req =>
      let req := Request_Header_Set "Accept" "text/plain" req in
      match Client_Do h (httpClient c) req with
      | Panics => Panics
      | Returns (Err err) => Returns (Err ("executing request: " +:+ err))
      | Returns (Ok resp) =>
          if negb (StatusCode resp =? StatusOK)
          then Returns (Err (unexpected_status resp))
          else
            match io_ReadAll (resp_Body resp) with
            | (_, Some err) => Returns (Err ("reading response body: " +:+ err))
            | (body, None) => Returns (Ok body)
            end
      end
  end.

End Client.

(** ** Notions the specification uses *)

(** The four outcome strings that count as ready. *)
Definition ready_outcome (v : string) : Prop :=
  v = "connected"%string \/ v = "available"%string \/
  v = "reachable"%string \/ v = "healthy"%string.

(** What reading back gives for a slice field tagged [omitempty]: a slice
    of length zero was left out, so the field stays nil. *)
Definition reread_slice {A} (s : GoSlice A) : GoSlice A :=
  match elems s with
  | [] => None
  | l => Some l
  end.

(** Two slices hold the same sequence (a nil and an empty slice do). *)
Definition same_elems {A} (s1 s2 : GoSlice A) : Prop := elems s1 = elems s2.

(** Field by field equality of two status responses, the dependencies
    compared as sequences. *)
Definition StatusResponse_eq (a b : StatusResponse.t) : Prop :=
  StatusResponse.ServiceName a = StatusResponse.ServiceName b
  /\ StatusResponse.Version a = StatusResponse.Version b
  /\ StatusResponse.GitCommit a = StatusResponse.GitCommit b
  /\ StatusResponse.BuildTime a = StatusResponse.BuildTime b
  /\ StatusResponse.StartTime a = StatusResponse.StartTime b
  /\ StatusResponse.UptimeSeconds a = StatusResponse.UptimeSeconds b
  /\ StatusResponse.Environment a = StatusResponse.Environment b
  /\ StatusResponse.Hostname a = StatusResponse.Hostname b
  /\ same_elems (StatusResponse.Dependencies a) (StatusResponse.Dependencies b).

(** An instant that the time package writes and reads back: the text is
    plain and gives the instant again. No instant that [MarshalJSON]
    refuses (a year outside 0 to 9999) is one. *)
Definition Time_wire_ok {E : Env} (t : Time) : Prop :=
  utf8_ValidString (time_text t) = true /\ time_parse (time_text t) = Ok t.

(** Responses whose strings are valid UTF-8 and whose instants the time
    package writes and reads back. *)
Definition HealthResponse_wire_ok {E : Env} (r : HealthResponse.t) : Prop :=
  utf8_ValidString (HealthResponse.Status r) = true
  /\ Time_wire_ok (HealthResponse.Timestamp r).

Definition LivenessResponse_wire_ok {E : Env} (r : LivenessResponse.t) : Prop :=
  Time_wire_ok (LivenessResponse.Timestamp r).

Definition ReadinessResponse_wire_ok {E : Env} (r : ReadinessResponse.t) : Prop :=
  Time_wire_ok (ReadinessResponse.Timestamp r)
  /\ forall k v, GoMap_lookup (ReadinessResponse.Checks r) k = Some v ->
       utf8_ValidString k = true /\ utf8_ValidString v = true.

Definition Dependency_wire_ok (d : Dependency.t) : Prop :=
  utf8_ValidString (Dependency.Name d) = true
  /\ utf8_ValidString (Dependency.Status d) = true
  /\ utf8_ValidString (Dependency.Version d) = true.

Definition StatusResponse_wire_ok {E : Env} (r : StatusResponse.t) : Prop :=
  utf8_ValidString (StatusResponse.ServiceName r) = true
  /\ utf8_ValidString (StatusResponse.Version r) = true
  /\ utf8_ValidString (StatusResponse.GitCommit r) = true
  /\ (forall t, StatusResponse.BuildTime r = Some t -> Time_wire_ok t)
  /\ Time_wire_ok (StatusResponse.StartTime r)
  /\ minInt64 <= StatusResponse.UptimeSeconds r <= maxInt64
  /\ utf8_ValidString (StatusResponse.Environment r) = true
  /\ utf8_ValidString (StatusResponse.Hostname r) = true
  /\ Forall Dependency_wire_ok (elems (StatusResponse.Dependencies r)).

(** The timeout of the [http.Client] that the calls of [c] go through. *)
Definition client_Timeout (c : client) (h : heap) : option Duration :=
  l ← httpClient c; Timeout <$> h !! l.

(** ** Notions for the float64 arithmetic of the uptime

    Rounding is followed on integers: a value is a quotient N / D. *)

(** The record of the quotient N / D: its floor, whether the rest is at
    least a half, and whether it is neither nothing nor exactly a half. *)
Definition rec_of (N D : Z) : shr_record :=
  {| shr_m := N / D;
     shr_r := D <=? 2 * (N mod D);
     shr_s := negb (N mod D =? 0) && negb (2 * (N mod D) =? D) |}.

(** Rounding the quotient N / D to the nearest integer, ties to even. *)
Definition RNE (N D : Z) : Z :=
  round_nearest_even (shr_m (rec_of N D)) (loc_of_shr_record (rec_of N D)).

(** ** Test doubles

    A stand-in for the libraries and the remote server, as the package's
    tests set one up with [httptest]: instants are written as a decimal
    count of nanoseconds, a URL that starts with a colon does not parse, and
    the server answers two paths. *)

Definition test_time_text (t : Time) : string := fmt_d (abs_ns t).

Definition test_time_parse (s : string) : Result Time :=
  match NilZero.int_of_string s with
  | Some d => Ok (mkTime (Z.of_int d))
  | None => Err "parsing time: cannot parse"
  end.

Definition test_url_Parse (s : string) : Result url_URL :=
  match s with
  | String ":" _ => Err "parse: missing protocol scheme"
  | _ => Ok {| url_text := s |}
  end.

(** The body [{"status":"unhealthy","timestamp":"1700000000000000000"}]. *)
Definition test_health_body : string :=
  "{" +:+ dq +:+ "status" +:+ dq +:+ ":" +:+ dq +:+ "unhealthy" +:+ dq +:+ ","
  +:+ dq +:+ "timestamp" +:+ dq +:+ ":" +:+ dq +:+ "1700000000000000000" +:+ dq +:+ "}".

Definition test_health_json : json :=
  JObject [ ("status", JString "unhealthy");
            ("timestamp", JString "1700000000000000000") ].

Definition test_base : string := "http://localhost:8080".

Definition test_http_Do (hc : http_Client) (req : http_Request) : Result http_Response :=
  let url := url_text (req_URL req) in
  if String.eqb url (test_base +:+ "/health") then
    Ok {| StatusCode := 503;
          resp_Body := {| body_data := test_health_body; body_err := None |} |}
  else if String.eqb url (test_base +:+ "/metrics") then
    Ok {| StatusCode := 404;
          resp_Body := {| body_data := "Not Found"; body_err := None |} |}
  else
    Err "dial tcp: connection refused".

Definition test_json_read (b : Body) : Result json :=
  match body_err b with
  | Some e => Err e
  | None =>
      if String.eqb (body_data b) test_health_body then Ok test_health_json
      else Err "invalid character looking for beginning of value"
  end.

Definition test_Unmarshal_error (type : string) (j : json) : error :=
  "json: cannot unmarshal value into Go value of type " +:+ type.

(** A client as [NewClient] makes it, and the store it lives in. *)
Definition test_client : client :=
  {| baseURL := test_base; httpClient := Some 1%positive |}.

Definition test_heap : heap :=
  {[ 1%positive := {| Timeout := 30 * Second; Transport := 0%nat |} ]}.

Definition test_Env : Env :=
  {| time_text := test_time_text;
     time_parse := test_time_parse;
     url_Parse := test_url_Parse;
     http_Do := test_http_Do;
     json_read := test_json_read;
     json_Unmarshal_error := test_Unmarshal_error |}.

(** ** Further notions and test doubles, for Part III *)

(** What a handler leaves in a fresh writer when it answers with JSON. *)
Definition json_answer (code : Z) (v : json) : ResponseWriter :=
  {| rw_Header := {[ "Content-Type"%string := "application/json"%string ]};
     rw_Code := Some code;
     rw_Body := [WroteJSON v] |}.

Definition error_answer (err : error) : ResponseWriter :=
  json_answer 500 (JObject [("error"%string, JString err)]).

Definition test_request (path : string) : http_Request :=
  {| req_Method := MethodGet; req_URL := {| url_text := path |};
     req_Header := ∅; req_ctx := context_Background |}.

(** A backend, as the mock of the package's tests: it reports a status the
    package has no constant for, is not alive and not ready, and its
    metrics fail. *)
Definition test_time : Time := mkTime 1700000000000000000.

Definition test_Server : Server :=
  {| GetHealth := fun _ _ => (Some (HealthResponse.mk "degraded" test_time), None);
     GetLiveness := fun _ _ => (Some (LivenessResponse.mk false test_time), None);
     GetReadiness := fun _ _ =>
       (Some (ReadinessResponse.mk false test_time
                (Some {[ "database"%string := "disconnected"%string ]})), None);
     GetStatus := fun _ _ => (None, None);
     GetMetrics := fun _ _ => (""%string, Some "metrics collection failed"%string) |}.

(** The handler that answers a path, by the table of [RegisterRoutes]. *)
Definition handler_of_path {E : Env} (h : HTTPHandler) (path : string)
  : option HandlerFunc :=
  if String.eqb path "/health" then Some (handleGetHealth h)
  else if String.eqb path "/health/live" then Some (handleGetLiveness h)
  else if String.eqb path "/health/ready" then Some (handleGetReadiness h)
  else if String.eqb path "/status" then Some (handleGetStatus h)
  else if String.eqb path "/metrics" then Some (handleGetMetrics h)
  else None.

(** A pattern that starts with a slash and has no parameter and no
    wildcard in it. *)
Fixpoint plain_chars (s : string) : bool :=
  match s with
  | EmptyString => true
  | String c rest =>
      negb (Ascii.eqb c "{") && negb (Ascii.eqb c "}") && negb (Ascii.eqb c "*")
      && plain_chars rest
  end.

Definition static_pattern (p : string) : bool :=
  match p with
  | String "/" rest => plain_chars rest
  | _ => false
  end.

(** A router on which nothing but [Get] was called, with static patterns
    that differ from one another. *)
Definition Get_routes (r : chi_Router) : Prop :=
  Forall (fun rt => route_method rt = MethodGet
                    /\ static_pattern (route_pattern rt) = true) r
  /\ NoDup (route_pattern <$> r).

(** Two requests that differ in their context at most: a router hands the
    request on with a context of its own making. *)
Definition same_but_context (a b : http_Request) : Prop :=
  req_Method a = req_Method b /\ req_URL a = req_URL b /\ req_Header a = req_Header b.

(** A router to test with. It routes on the text of the target; a route
    answers when its pattern is that text and its method the one of the
    request; a target no route has is not found, and one that routes with
    other methods have is answered 405. *)
Definition test_routePath (r : http_Request) : string := url_text (req_URL r).

Definition test_ServeHTTP (r : chi_Router) (w : ResponseWriter) (req : http_Request)
    (now : Time) : outcome ResponseWriter :=
  match filter (fun rt => route_pattern rt = test_routePath req) r with
  | [] => Returns (http_Error w "404 page not found" StatusNotFound)
  | on_path =>
      match last (filter (fun rt => route_method rt = req_Method req) on_path) with
      | Some rt => route_handler rt w req now
      | None => Returns (WriteHeader StatusMethodNotAllowed w)
      end
  end.

(** A remote server that answers from a table, and a JSON reader that
    knows the bodies of the table: the URL of a request is looked up in
    [answers], the text of a body in [values]. *)
Fixpoint lookup_text {A} (k : string) (l : list (string * A)) : option A :=
  match l with
  | [] => None
  | (k', a) :: rest => if String.eqb k k' then Some a else lookup_text k rest
  end.

Definition canned_Do (answers : list (string * http_Response))
    (hc : http_Client) (req : http_Request) : Result http_Response :=
  match lookup_text (url_text (req_URL req)) answers with
  | Some resp => Ok resp
  | None => Err "dial tcp: connection refused"
  end.

Definition canned_read (values : list (string * json)) (b : Body) : Result json :=
  match body_err b with
  | Some e => Err e
  | None =>
      match lookup_text (body_data b) values with
      | Some j => Ok j
      | None => Err "invalid character looking for beginning of value"
      end
  end.

Definition canned_Env (answers : list (string * http_Response))
    (values : list (string * json)) : Env :=
  {| time_text := test_time_text;
     time_parse := test_time_parse;
     url_Parse := test_url_Parse;
     http_Do := canned_Do answers;
     json_read := canned_read values;
     json_Unmarshal_error := test_Unmarshal_error |}.

Definition text_body (s : string) : Body := {| body_data := s; body_err := None |}.

(** The response that reaches a client for what a handler wrote: the
    status code is the one written, and the body reads as the JSON value
    written, its strings as they are on the wire, or is the text written. *)
Definition served {E : Env} (w : ResponseWriter) (resp : http_Response) : Prop :=
  rw_Code w = Some (StatusCode resp)
  /\ match rw_Body w with
     | [WroteJSON j] => json_read (resp_Body resp) = Ok (json_wire j)
     | [WroteText s] => resp_Body resp = text_body s
     | _ => False
     end.

(** A server that is out of service, and one whose metrics body breaks. *)
Definition test_Env_unavailable : Env :=
  canned_Env [ ("http://localhost:8080/status"%string,
                {| StatusCode := 503; resp_Body := text_body "Service Unavailable" |}) ]
             [].

Definition test_Env_broken_body : Env :=
  canned_Env [ ("http://localhost:8080/metrics"%string,
                {| StatusCode := 200;
                   resp_Body := {| body_data := "up 1";
                                   body_err := Some "unexpected EOF"%string |} |}) ]
             [].

(** The answers of [test_Server] behind the handlers, as they reach a
    client: /health/ready is answered 503 with the response as JSON,
    /status 200 with [null], /metrics 500 with the error as JSON. *)
Definition test_ready_body : string :=
  "{" +:+ dq +:+ "ready" +:+ dq +:+ ":false," +:+ dq +:+ "timestamp" +:+ dq +:+ ":"
  +:+ dq +:+ "1700000000000000000" +:+ dq +:+ "," +:+ dq +:+ "checks" +:+ dq +:+ ":{"
  +:+ dq +:+ "database" +:+ dq +:+ ":" +:+ dq +:+ "disconnected" +:+ dq +:+ "}}" +:+ lf.

Definition test_ready_json : json :=
  JObject [ ("ready", JBool false);
            ("timestamp", JString "1700000000000000000");
            ("checks", JObject [ ("database", JString "disconnected") ]) ].

Definition test_error_body : string :=
  "{" +:+ dq +:+ "error" +:+ dq +:+ ":" +:+ dq +:+ "metrics collection failed"
  +:+ dq +:+ "}" +:+ lf.

Definition test_error_json : json :=
  JObject [ ("error", JString "metrics collection failed") ].

Definition test_Env_wire : Env :=
  canned_Env
    [ ("http://localhost:8080/health/ready"%string,
       {| StatusCode := 503; resp_Body := text_body test_ready_body |});
      ("http://localhost:8080/status"%string,
       {| StatusCode := 200; resp_Body := text_body ("null" +:+ lf) |});
      ("http://localhost:8080/metrics"%string,
       {| StatusCode := 500; resp_Body := text_body test_error_body |}) ]
    [ (test_ready_body, test_ready_json);
      (("null" +:+ lf)%string, JNull);
      (test_error_body, test_error_json) ].

(** A default backend with a check provider, as the package's tests set
    one: the database is connected, the cache is down. *)
Definition test_checks : GoMap :=
  Some {[ "database"%string := "connected"%string; "cache"%string := "down"%string ]}.

Definition test_checked_BaseServer : BaseServer.t :=
  {| BaseServer.ServiceName := "svc";
     BaseServer.Version := "1.0.0";
     BaseServer.GitCommit := "";
     BaseServer.BuildTime := None;
     BaseServer.StartTime := mkTime 0;
     BaseServer.Environment := "test";
     BaseServer.Hostname := "";
     BaseServer.CheckFunc := Some (fun _ => test_checks);
     BaseServer.MetricsFunc := None;
     BaseServer.Dependencies := None |}.

(* ===================================================================== *)
(** * Part II. Theorems                                                   *)
(* ===================================================================== *)

(** ** Readiness *)

Lemma check_failed_false (v : string) :
  check_failed v = false <-> ready_outcome v.
Proof.
  unfold check_failed, ready_outcome.
  rewrite !andb_false_iff, !negb_false_iff, !String.eqb_eq. tauto.
Qed.

Lemma readiness_loop_true (entries : list (string * string)) :
  readiness_loop entries true = true <->
  Forall (fun kv => ready_outcome kv.2) entries.
Proof.
  induction entries as [|[k v] rest IH]; simpl.
  - split; [constructor | reflexivity].
  - destruct (check_failed v) eqn:Hv.
    + split; [discriminate |].
      intros H. inversion H as [|? ? Hhd _]; subst.
      apply check_failed_false in Hhd. simpl in Hhd. congruence.
    + rewrite IH. split.
      * intros H. constructor; [now apply check_failed_false | exact H].
      * intros H. now inversion H.
Qed.

(** The loop's result does not depend on the order in which the runtime
    hands out the entries of the map. *)
Lemma readiness_loop_Permutation (l1 l2 : list (string * string)) :
  l1 ≡ₚ l2 -> readiness_loop l1 true = readiness_loop l2 true.
Proof.
  intros Hp.
  destruct (readiness_loop l2 true) eqn:H2.
  - apply readiness_loop_true. rewrite Hp. now apply readiness_loop_true.
  - destruct (readiness_loop l1 true) eqn:H1; [|reflexivity].
    apply readiness_loop_true in H1. rewrite Hp in H1.
    apply readiness_loop_true in H1. congruence.
Qed.

Lemma GoMap_range_lookup (m : GoMap) (k v : string) :
  (k, v) ∈ GoMap_range m <-> GoMap_lookup m k = Some v.
Proof.
  destruct m as [g|]; simpl.
  - apply elem_of_map_to_list.
  - split; [intros H; inversion H | discriminate].
Qed.

Lemma readiness_loop_lookup (m : GoMap) :
  readiness_loop (GoMap_range m) true = true <->
  forall k v, GoMap_lookup m k = Some v -> ready_outcome v.
Proof.
  rewrite readiness_loop_true, Forall_forall. split.
  - intros H k v Hkv. apply (H (k, v)). now apply GoMap_range_lookup.
  - intros H [k v] Hin. apply (H k v). now apply GoMap_range_lookup.
Qed.

Lemma empty_not_ready_outcome : ~ ready_outcome "".
Proof. unfold ready_outcome. intros [H|[H|[H|H]]]; discriminate. Qed.

(** C1. [BaseServer.GetReadiness] returns, with no error, a response whose
    checks are the mapping the check provider produced (an allocated empty
    map when no provider is configured) and whose ready flag is true if and
    only if every value of that mapping is one of "connected", "available",
    "reachable", "healthy". A value that is none of the four, the empty
    string among them, makes ready false; an empty mapping, and a server
    with no provider, give ready true. *)
Theorem GetReadiness_ready_iff (s : BaseServer.t) (ctx : context_Context) (now : Time) :
  exists r : ReadinessResponse.t,
    BaseServer_GetReadiness s ctx now = (Some r, None)
    /\ ReadinessResponse.Checks r
       = from_option (fun f => f ctx) (Some ∅) (BaseServer.CheckFunc s)
    /\ (ReadinessResponse.Ready r = true <->
        forall k v, GoMap_lookup (ReadinessResponse.Checks r) k = Some v ->
                    ready_outcome v)
    /\ (forall k v, GoMap_lookup (ReadinessResponse.Checks r) k = Some v ->
                    ~ ready_outcome v -> ReadinessResponse.Ready r = false)
    /\ (forall k, GoMap_lookup (ReadinessResponse.Checks r) k = Some ""%string ->
                  ReadinessResponse.Ready r = false)
    /\ ((forall k, GoMap_lookup (ReadinessResponse.Checks r) k = None) ->
        ReadinessResponse.Ready r = true)
    /\ (BaseServer.CheckFunc s = None -> ReadinessResponse.Ready r = true).
Proof.
  unfold BaseServer_GetReadiness.
  destruct (BaseServer.CheckFunc s) as [f|] eqn:Hf; simpl.
  - eexists; split; [reflexivity|]; simpl.
    pose proof (readiness_loop_lookup (f ctx)) as Hiff.
    split; [reflexivity|]. split; [exact Hiff|].
    assert (Hbad : forall k v, GoMap_lookup (f ctx) k = Some v ->
                     ~ ready_outcome v ->
                     readiness_loop (GoMap_range (f ctx)) true = false).
    { intros k v Hkv Hnot.
      destruct (readiness_loop (GoMap_range (f ctx)) true) eqn:Hl; [|reflexivity].
      exfalso. apply Hnot. apply (proj1 Hiff eq_refl k v Hkv). }
    split; [exact Hbad|].
    split; [intros k Hk; apply (Hbad k _ Hk), empty_not_ready_outcome|].
    split; [|discriminate].
    intros Hnone. apply Hiff. intros k v Hkv. rewrite Hnone in Hkv. discriminate.
  - eexists; split; [reflexivity|]; simpl.
    split; [reflexivity|].
    split; [split; [intros _ k v Hkv; rewrite lookup_empty in Hkv; discriminate
                   | reflexivity]|].
    split; [intros k v Hkv; rewrite lookup_empty in Hkv; discriminate|].
    split; [intros k Hkv; rewrite lookup_empty in Hkv; discriminate|].
    split; reflexivity.
Qed.

(** ** The handlers *)

Section HandlerFacts.
Context {E : Env}.

(** What [writeJSON] and [writeError] leave in a writer nothing was
    written to yet. *)
Lemma writeJSON_new (status : Z) (v : json) :
  writeJSON new_ResponseWriter status v
  = {| rw_Header := {[ "Content-Type"%string := "application/json"%string ]};
       rw_Code := Some status;
       rw_Body := [WroteJSON v] |}.
Proof.
  unfold writeJSON, Encoder_Encode, Write, WriteHeader, Header_Set, new_ResponseWriter.
  simpl. now rewrite insert_empty.
Qed.

Lemma writeError_new (status : Z) (err : error) :
  writeError new_ResponseWriter status err
  = {| rw_Header := {[ "Content-Type"%string := "application/json"%string ]};
       rw_Code := Some status;
       rw_Body := [WroteJSON (JObject [("error"%string, JString err)])] |}.
Proof.
  unfold writeError, Encoder_Encode, Write, WriteHeader, Header_Set, new_ResponseWriter.
  simpl. now rewrite insert_empty.
Qed.

(** The status code [writeJSON] leaves in a writer nothing was written to
    yet is the one it was given: [WriteHeader] comes before the encoding,
    and a later [WriteHeader] does not count. *)
Lemma writeJSON_code (status : Z) (v : json) :
  rw_Code (writeJSON new_ResponseWriter status v) = Some status.
Proof. now rewrite writeJSON_new. Qed.

(** C2. Whatever the backend returns for [GetHealth], the handler of
    GET /health answers with status 500 and the JSON object
    [{"error": message}] when the backend returns an error; otherwise it
    returns with status 200 when the backend reports Healthy and with
    status 503 when it reports Unhealthy. (A backend that returns neither a
    response nor an error makes the handler panic.) *)
Theorem handleGetHealth_status (h : HTTPHandler) (r : http_Request) (now : Time) :
  match GetHealth (server h) (Request_Context r) now with
  | (_, Some err) =>
      handleGetHealth h new_ResponseWriter r now
      = Returns {| rw_Header := {[ "Content-Type"%string := "application/json"%string ]};
                   rw_Code := Some 500;
                   rw_Body := [WroteJSON (JObject [("error"%string, JString err)])] |}
  | (Some resp, None) =>
      exists w,
        handleGetHealth h new_ResponseWriter r now = Returns w
        /\ (HealthResponse.Status resp = HealthStatusHealthy -> rw_Code w = Some 200)
        /\ (HealthResponse.Status resp = HealthStatusUnhealthy -> rw_Code w = Some 503)
  | (None, None) => handleGetHealth h new_ResponseWriter r now = Panics
  end.
Proof.
  unfold handleGetHealth.
  destruct (GetHealth (server h) (Request_Context r) now) as [[resp|] [err|]].
  - now rewrite writeError_new.
  - eexists. split; [reflexivity|]. rewrite writeJSON_code.
    destruct (String.eqb (HealthResponse.Status resp) HealthStatusUnhealthy) eqn:Hu.
    + split; [|reflexivity].
      apply String.eqb_eq in Hu. intros Hh. rewrite Hh in Hu. discriminate.
    + split; [reflexivity|].
      intros Hh. rewrite Hh in Hu. discriminate.
  - now rewrite writeError_new.
  - reflexivity.
Qed.

(** C4. With no metrics provider, [GetMetrics] returns the built-in text
    [defaultMetrics] (472 bytes, the raw string literal of the source) and
    no error, and the handler of GET /metrics sends exactly that text with
    status 200 and content type [text/plain; version=0.0.4]. With a
    provider, [GetMetrics] returns what the provider returns, text and
    error alike. *)
Theorem GetMetrics_default_or_provider (s : BaseServer.t) (ctx : context_Context)
    (r : http_Request) (now : Time) :
  (BaseServer.MetricsFunc s = None ->
     BaseServer_GetMetrics s ctx now = (defaultMetrics, None)
     /\ String.length defaultMetrics = 472%nat
     /\ handleGetMetrics (NewHTTPHandler (BaseServer_Server s)) new_ResponseWriter r now
        = Returns {| rw_Header :=
                       {[ "Content-Type"%string := "text/plain; version=0.0.4"%string ]};
                     rw_Code := Some 200;
                     rw_Body := [WroteText defaultMetrics] |})
  /\ (forall f, BaseServer.MetricsFunc s = Some f ->
        BaseServer_GetMetrics s ctx now = f ctx).
Proof.
  split.
  - intros Hnone. unfold handleGetMetrics, BaseServer_GetMetrics. simpl.
    unfold BaseServer_GetMetrics. rewrite Hnone.
    split; [reflexivity|]. split; [reflexivity|].
    unfold Write, WriteHeader, Header_Set, new_ResponseWriter. simpl.
    now rewrite insert_empty.
  - intros f Hf. unfold BaseServer_GetMetrics. now rewrite Hf.
Qed.

(** C10. With no check provider, the checks of the readiness response are
    an allocated, empty map (not the nil map), so the JSON object written
    for the response has a member "checks" whose value is the empty
    object: it is neither null nor left out. *)
Theorem GetReadiness_no_provider_checks (s : BaseServer.t) (ctx : context_Context)
    (now : Time) :
  BaseServer.CheckFunc s = None ->
  exists r : ReadinessResponse.t,
    BaseServer_GetReadiness s ctx now = (Some r, None)
    /\ ReadinessResponse.Checks r = Some ∅
    /\ member "checks" (marshal_ReadinessResponse r) = Some (JObject []).
Proof.
  intros Hnone. unfold BaseServer_GetReadiness. rewrite Hnone.
  eexists. split; [reflexivity|]. split; [reflexivity|].
  unfold marshal_ReadinessResponse, marshal_map; simpl.
  rewrite map_to_list_empty. reflexivity.
Qed.

End HandlerFacts.

Lemma GetReadiness_no_provider_checks_witness :
  BaseServer.CheckFunc (NewBaseServer "svc" "1.0.0" "test" (mkTime 0)) = None
  /\ exists r : ReadinessResponse.t,
       BaseServer_GetReadiness (NewBaseServer "svc" "1.0.0" "test" (mkTime 0))
         context_Background (mkTime 5) = (Some r, None)
       /\ ReadinessResponse.Checks r = Some ∅
       /\ member "checks" (marshal_ReadinessResponse (E := test_Env) r)
          = Some (JObject []).
Proof.
  split; [reflexivity|].
  apply (GetReadiness_no_provider_checks (E := test_Env)). reflexivity.
Defined.

(** ** The default backend *)

(** C6. On the default backend, [GetHealth], [GetLiveness], [GetReadiness]
    and [GetStatus] return no error, whatever the context and the
    configuration: [GetHealth] returns Healthy with the current time and
    [GetLiveness] returns alive. [GetMetrics] returns an error only when a
    metrics provider is configured and that provider returned it. *)
Theorem BaseServer_errors (s : BaseServer.t) (ctx : context_Context) (now : Time) :
  BaseServer_GetHealth s ctx now
    = (Some (HealthResponse.mk HealthStatusHealthy now), None)
  /\ BaseServer_GetLiveness s ctx now = (Some (LivenessResponse.mk true now), None)
  /\ (exists r, BaseServer_GetReadiness s ctx now = (Some r, None))
  /\ (exists r, BaseServer_GetStatus s ctx now = (Some r, None))
  /\ (forall err, snd (BaseServer_GetMetrics s ctx now) = Some err ->
        exists f, BaseServer.MetricsFunc s = Some f /\ snd (f ctx) = Some err).
Proof.
  split; [reflexivity|]. split; [reflexivity|].
  split.
  { unfold BaseServer_GetReadiness.
    destruct (BaseServer.CheckFunc s); eexists; reflexivity. }
  split.
  { unfold BaseServer_GetStatus. eexists. reflexivity. }
  intros err. unfold BaseServer_GetMetrics.
  destruct (BaseServer.MetricsFunc s) as [f|].
  - intros Hf. now exists f.
  - simpl. discriminate.
Qed.

(** ** The client *)

Section ClientFacts.
Context {E : Env}.

(** The two kinds of error a response can lead to do not have a text in
    common. *)
Lemma decoding_not_unexpected (err : error) (resp : http_Response) :
  ("decoding response: " +:+ err)%string <> unexpected_status resp.
Proof. unfold unexpected_status. cbv [io_ReadAll]. discriminate. Qed.

Lemma unexpected_status_text (resp : http_Response) :
  unexpected_status resp
  = ("unexpected status code " +:+ fmt_d (StatusCode resp) +:+ ": "
     +:+ body_data (resp_Body resp))%string.
Proof. reflexivity. Qed.

Lemma append_assoc (a b c : string) : ((a +:+ b) +:+ c = a +:+ (b +:+ c))%string.
Proof.
  induction a as [|x a IH]; [reflexivity|].
  change (String x ((a +:+ b) +:+ c) = String x (a +:+ (b +:+ c))).
  now rewrite IH.
Qed.

Lemma append_nil_r (a : string) : (a +:+ "")%string = a.
Proof.
  induction a as [|x a IH]; [reflexivity|].
  change (String x (a +:+ "") = String x a). now rewrite IH.
Qed.

Lemma unexpected_status_Contains (resp : http_Response) :
  Contains (unexpected_status resp) (fmt_d (StatusCode resp))
  /\ Contains (unexpected_status resp) (body_data (resp_Body resp)).
Proof.
  rewrite unexpected_status_text. split.
  - exists "unexpected status code "%string, (": " +:+ body_data (resp_Body resp))%string.
    reflexivity.
  - exists ("unexpected status code " +:+ fmt_d (StatusCode resp) +:+ ": ")%string,
      ""%string.
    rewrite append_nil_r, !append_assoc. reflexivity.
Qed.

Lemma status_accepted (code : Z) :
  negb (code =? StatusOK) && negb (code =? StatusServiceUnavailable) = false
  <-> code = 200 \/ code = 503.
Proof.
  unfold StatusOK, StatusServiceUnavailable.
  rewrite andb_false_iff, !negb_false_iff, !Z.eqb_eq. tauto.
Qed.

(** C3. Given the response [resp] the request for the path brought back:
    [GetHealth], [GetLiveness] and [GetReadiness] return the decoded value
    when the status code is 200 or 503 and the body decodes; with any other
    status code they return the error "unexpected status code <code>:
    <body>", which holds the code and the body text as they came; and a
    body that does not decode under 200 or 503 gives the error "decoding
    response: ...", a text no status error has. *)
Theorem client_status_200_503 (c : client) (h : heap) (ctx : context_Context)
    (resp : http_Response) :
  let accepted := StatusCode resp = 200 \/ StatusCode resp = 503 in
  let on_response {A} (unmarshal : json -> Result A) : outcome (Result A) :=
    Returns
      (if decide accepted then
         match Decoder_Decode unmarshal (resp_Body resp) with
         | Ok v => Ok v
         | Err err => Err ("decoding response: " +:+ err)%string
         end
       else Err (unexpected_status resp)) in
  (doRequest c h ctx MethodGet "/health" = Returns (Ok resp) ->
     client_GetHealth c h ctx = on_response unmarshal_HealthResponse)
  /\ (doRequest c h ctx MethodGet "/health/live" = Returns (Ok resp) ->
     client_GetLiveness c h ctx = on_response unmarshal_LivenessResponse)
  /\ (doRequest c h ctx MethodGet "/health/ready" = Returns (Ok resp) ->
     client_GetReadiness c h ctx = on_response unmarshal_ReadinessResponse)
  /\ Contains (unexpected_status resp) (fmt_d (StatusCode resp))
  /\ Contains (unexpected_status resp) (body_data (resp_Body resp))
  /\ (forall err, ("decoding response: " +:+ err)%string <> unexpected_status resp).
Proof.
  intros accepted on_response. subst on_response accepted.
  assert (Hgate : forall A (x y : outcome (Result A)),
    (if negb (StatusCode resp =? StatusOK)
        && negb (StatusCode resp =? StatusServiceUnavailable)
     then x else y)
    = (if decide (StatusCode resp = 200 \/ StatusCode resp = 503) then y else x)).
  { intros A x y.
    destruct (negb (StatusCode resp =? StatusOK)
              && negb (StatusCode resp =? StatusServiceUnavailable)) eqn:Hg;
      case_decide as Hd; try reflexivity.
    - apply status_accepted in Hd. congruence.
    - exfalso. apply Hd. now apply status_accepted. }
  repeat split.
  - intros Hreq. unfold client_GetHealth. rewrite Hreq, Hgate.
    case_decide; [|reflexivity].
    now destruct (Decoder_Decode unmarshal_HealthResponse (resp_Body resp)).
  - intros Hreq. unfold client_GetLiveness. rewrite Hreq, Hgate.
    case_decide; [|reflexivity].
    now destruct (Decoder_Decode unmarshal_LivenessResponse (resp_Body resp)).
  - intros Hreq. unfold client_GetReadiness. rewrite Hreq, Hgate.
    case_decide; [|reflexivity].
    now destruct (Decoder_Decode unmarshal_ReadinessResponse (resp_Body resp)).
  - apply unexpected_status_Contains.
  - apply unexpected_status_Contains.
  - intros err. apply decoding_not_unexpected.
Qed.

(** C8. Given the response [resp] that the request for /metrics brought
    back: with status 200 [GetMetrics] returns the body text as it came (an
    empty body as the empty string); with any other status it returns the
    error "unexpected status code <code>: <body>", whose text holds the
    status code in decimal and the body text. *)
Theorem client_GetMetrics_status (c : client) (h : heap) (ctx : context_Context)
    (req : http_Request) (resp : http_Response) :
  http_NewRequestWithContext ctx MethodGet (baseURL c +:+ "/metrics") = Ok req ->
  Client_Do h (httpClient c) (Request_Header_Set "Accept" "text/plain" req)
    = Returns (Ok resp) ->
  (StatusCode resp = 200 -> body_err (resp_Body resp) = None ->
     client_GetMetrics c h ctx = Returns (Ok (body_data (resp_Body resp))))
  /\ (StatusCode resp = 200 -> resp_Body resp = {| body_data := ""; body_err := None |} ->
     client_GetMetrics c h ctx = Returns (Ok ""%string))
  /\ (StatusCode resp <> 200 ->
     client_GetMetrics c h ctx
       = Returns (Err ("unexpected status code " +:+ fmt_d (StatusCode resp) +:+ ": "
                       +:+ body_data (resp_Body resp))%string)
     /\ Contains (unexpected_status resp) (fmt_d (StatusCode resp))
     /\ Contains (unexpected_status resp) (body_data (resp_Body resp))).
Proof.
  intros Hreq Hdo. unfold client_GetMetrics. rewrite Hreq, Hdo.
  split; [|split].
  - intros Hcode Hread. rewrite Hcode. simpl.
    unfold io_ReadAll. now rewrite Hread.
  - intros Hcode Hbody. rewrite Hcode, Hbody. reflexivity.
  - intros Hcode.
    assert (Hne : (StatusCode resp =? StatusOK) = false)
      by (apply Z.eqb_neq; exact Hcode).
    rewrite Hne. simpl. split; [reflexivity|]. apply unexpected_status_Contains.
Qed.

End ClientFacts.

Lemma client_status_200_503_witness :
  client_GetHealth (E := test_Env) test_client test_heap context_Background
  = Returns (Ok (HealthResponse.mk "unhealthy" (mkTime 1700000000000000000))).
Proof.
  pose proof (client_status_200_503 (E := test_Env) test_client test_heap
                context_Background
                {| StatusCode := 503;
                   resp_Body := {| body_data := test_health_body; body_err := None |} |})
    as [Hhealth _].
  rewrite (Hhealth eq_refl). reflexivity.
Defined.

Lemma client_GetMetrics_status_witness :
  client_GetMetrics (E := test_Env) test_client test_heap context_Background
  = Returns (Err "unexpected status code 404: Not Found"%string).
Proof.
  refine (proj1 (proj2 (proj2
    (client_GetMetrics_status (E := test_Env) test_client test_heap context_Background
       _ {| StatusCode := 404;
            resp_Body := {| body_data := "Not Found"; body_err := None |} |}
       eq_refl eq_refl)) _)).
  discriminate.
Defined.

(** ** Making a client *)

Lemma apply_options_app (o1 o2 : list ClientOption) (c : client) (h : heap) :
  apply_options (o1 ++ o2) c h
  = match apply_options o1 c h with
    | Panics => Panics
    | Returns (c', h') => apply_options o2 c' h'
    end.
Proof.
  revert c h. induction o1 as [|o o1 IH]; intros c h; simpl; [reflexivity|].
  destruct (apply_ClientOption o c h) as [[c' h']|]; [apply IH | reflexivity].
Qed.

Section NewClientFacts.
Context {E : Env}.

(** C9. [NewClient] returns an error exactly when [url.Parse] fails on the
    base URL. When the base URL parses: with no option [NewClient] returns
    a client, and every call of it goes through an [http.Client] whose
    timeout is 30 seconds; with the option [WithTimeout d] it returns a
    client whose timeout is [d]; with the option [WithHTTPClient p], [p] a
    client of the caller, it returns a client whose calls go through [p],
    with the timeout [p] has. And whatever the options, when a client is
    returned: a last option [WithTimeout d] makes its timeout [d], and a
    last option [WithHTTPClient p] makes the calls go through [p]. *)
Theorem NewClient_error_iff_timeout (baseURL0 : string) (opts : list ClientOption)
    (h : heap) :
  ((exists err h', NewClient baseURL0 opts h = Returns (Err err, h'))
   <-> (exists err, url_Parse baseURL0 = Err err))
  /\ (forall c h', NewClient baseURL0 opts h = Returns (Ok c, h') ->
        (opts = [] ->
           client_Timeout c h' = Some (30 * Second)
           /\ forall req, Client_Do h' (httpClient c) req
                = Returns (http_Do {| Timeout := 30 * Second; Transport := 0%nat |} req))
        /\ (forall opts0 d, opts = opts0 ++ [WithTimeout d] ->
              client_Timeout c h' = Some d)
        /\ (forall opts0 p, opts = opts0 ++ [WithHTTPClient p] ->
              httpClient c = p /\ client_Timeout c h' = (l ← p; Timeout <$> h' !! l)))
  /\ (forall u, url_Parse baseURL0 = Ok u ->
        (exists c h',
           NewClient baseURL0 [] h = Returns (Ok c, h')
           /\ baseURL c = URL_String u
           /\ client_Timeout c h' = Some (30 * Second)
           /\ forall req, Client_Do h' (httpClient c) req
                = Returns (http_Do {| Timeout := 30 * Second; Transport := 0%nat |} req))
        /\ (forall d, exists c h',
              NewClient baseURL0 [WithTimeout d] h = Returns (Ok c, h')
              /\ baseURL c = URL_String u
              /\ client_Timeout c h' = Some d)
        /\ (forall p hc, h !! p = Some hc ->
              exists c h',
                NewClient baseURL0 [WithHTTPClient (Some p)] h = Returns (Ok c, h')
                /\ baseURL c = URL_String u
                /\ httpClient c = Some p
                /\ client_Timeout c h' = Some (Timeout hc))).
Proof.
  unfold NewClient. split; [|split]; cycle 2.
  { intros u Hu. rewrite Hu. split; [|split].
    - eexists _, _. split; [reflexivity|]. split; [reflexivity|].
      unfold client_Timeout, Client_Do. cbn [httpClient mbind option_bind].
      rewrite lookup_insert_eq. split; reflexivity.
    - intros d. cbn [apply_options apply_ClientOption httpClient].
      rewrite lookup_insert_eq.
      eexists _, _. split; [reflexivity|]. split; [reflexivity|].
      unfold client_Timeout. cbn [httpClient mbind option_bind].
      now rewrite lookup_insert_eq.
    - intros p hc Hp. cbn [apply_options apply_ClientOption].
      eexists _, _. split; [reflexivity|]. split; [reflexivity|].
      split; [reflexivity|].
      unfold client_Timeout. cbn [httpClient mbind option_bind].
      rewrite lookup_insert_ne, Hp; [reflexivity|].
      intros Heq. apply (is_fresh (dom h)). rewrite Heq.
      apply elem_of_dom. now exists hc. }
  - destruct (url_Parse baseURL0) as [u|err0].
    + split.
      * intros (err & h' & Hret).
        destruct (apply_options opts _ _) as [[c h1]|]; discriminate.
      * intros [err Herr]. discriminate.
    + split; [intros _; now exists err0 | intros _; eauto].
  - intros c h' Hret.
    destruct (url_Parse baseURL0) as [u|err0]; [|discriminate].
    split; [|split].
    + intros ->. simpl in Hret. injection Hret as <- <-.
      unfold client_Timeout, Client_Do. simpl.
      rewrite lookup_insert_eq. split; reflexivity.
    + intros opts0 d ->. rewrite apply_options_app in Hret.
      destruct (apply_options opts0 _ _) as [[c1 h1]|]; [|discriminate].
      simpl in Hret.
      destruct (httpClient c1) as [l|] eqn:Hl; [|discriminate].
      destruct (h1 !! l) as [hc|]; [|discriminate].
      injection Hret as <- <-.
      unfold client_Timeout. rewrite Hl. simpl.
      now rewrite lookup_insert_eq.
    + intros opts0 p ->. rewrite apply_options_app in Hret.
      destruct (apply_options opts0 _ _) as [[c1 h1]|]; [|discriminate].
      simpl in Hret. injection Hret as <- <-.
      split; reflexivity.
Qed.

End NewClientFacts.

Lemma NewClient_error_iff_timeout_witness :
  exists c h',
    NewClient (E := test_Env) test_base [] ∅ = Returns (Ok c, h')
    /\ client_Timeout c h' = Some (30 * Second).
Proof.
  destruct (NewClient_error_iff_timeout (E := test_Env) test_base [] ∅)
    as (_ & _ & Hok).
  destruct (Hok {| url_text := test_base |} eq_refl)
    as ((c & h' & Hret & _ & Htimeout & _) & _).
  exists c, h'. split; assumption.
Defined.

(** The package's own test cases for [NewClient], on the test double. *)
Example NewClient_invalid_URL :
  NewClient (E := test_Env) "://invalid" [] ∅
  = Returns (Err "invalid base URL: parse: missing protocol scheme"%string, ∅).
Proof. reflexivity. Qed.

Example NewClient_custom_timeout :
  exists c h', NewClient (E := test_Env) test_base [WithTimeout (5 * Second)] ∅
               = Returns (Ok c, h')
    /\ client_Timeout c h' = Some (5 * Second).
Proof. eexists _, _. split; [reflexivity|]. vm_compute. reflexivity. Qed.

(** [WithTimeout] after [WithHTTPClient(nil)] dereferences a nil pointer. *)
Example NewClient_nil_client_panics :
  NewClient (E := test_Env) test_base [WithHTTPClient None; WithTimeout Second] ∅
  = Panics.
Proof. reflexivity. Qed.

(** ** The wire form *)

(** Member names are closed strings: [EqualFold] on them is computed. *)
Ltac eval_EqualFold :=
  repeat match goal with
  | |- context [EqualFold ?a ?b] =>
      let v := eval vm_compute in (EqualFold a b) in
      change (EqualFold a b) with v
  end.

(** Projections out of a record just built, and the binds of [Result]. *)
Ltac eval_fields :=
  cbn [fst snd mbind Result_bind mret Result_ret
       HealthResponse.Status HealthResponse.Timestamp
       LivenessResponse.Alive LivenessResponse.Timestamp
       ReadinessResponse.Ready ReadinessResponse.Timestamp ReadinessResponse.Checks
       Dependency.Name Dependency.Status Dependency.Version
       StatusResponse.ServiceName StatusResponse.Version StatusResponse.GitCommit
       StatusResponse.BuildTime StatusResponse.StartTime StatusResponse.UptimeSeconds
       StatusResponse.Environment StatusResponse.Hostname StatusResponse.Dependencies
       unmarshal_string unmarshal_bool unmarshal_members unmarshal_struct app].

(** A string of valid UTF-8 is on the wire as it is. *)
Lemma wire_from_valid (skip : nat) (s : string) :
  valid_from skip s = true -> wire_from skip s = s.
Proof.
  revert skip. induction s as [|c s IH]; intros skip; [reflexivity|].
  cbn [valid_from wire_from]. destruct skip as [|k].
  - destruct (utf8_width c s) as [w|]; [|discriminate].
    intros Hv. now rewrite IH.
  - intros Hv. now rewrite IH.
Qed.

Lemma wire_string_valid (s : string) :
  utf8_ValidString s = true -> wire_string s = s.
Proof. apply wire_from_valid. Qed.

(** The strings of a value, where they are valid or closed, are rewritten
    to what they are on the wire. *)
Ltac eval_wire :=
  cbn [json_wire List.map fst snd];
  rewrite ?wire_string_valid by first [assumption | reflexivity].

Section WireForm.
Context {E : Env}.

Lemma unmarshal_marshal_Time (t old : Time) :
  Time_wire_ok t -> unmarshal_Time (marshal_Time t) old = Ok t.
Proof. intros [_ Ht]. exact Ht. Qed.

Lemma json_wire_marshal_Time (t : Time) :
  Time_wire_ok t -> json_wire (marshal_Time t) = marshal_Time t.
Proof. intros [Hv _]. unfold marshal_Time. now eval_wire. Qed.

Lemma unmarshal_members_app {A} (set : A -> string * json -> Result A)
    (l1 l2 : list (string * json)) (acc : A) :
  unmarshal_members set (l1 ++ l2) acc
  = (acc' ← unmarshal_members set l1 acc; unmarshal_members set l2 acc').
Proof.
  revert acc. induction l1 as [|kv l1 IH]; intros acc; simpl; [reflexivity|].
  destruct (set acc kv) as [acc'|e]; simpl; [apply IH | reflexivity].
Qed.

(** Storing the members written for a map puts every entry into it. *)
Lemma unmarshal_members_map_set (l : list (string * string)) (acc : gmap string string) :
  unmarshal_members map_set ((fun kv : string * string => (kv.1, JString kv.2)) <$> l) acc
  = Ok (foldl (fun m kv => <[kv.1 := kv.2]> m) acc l).
Proof.
  revert acc. induction l as [|[k v] l IH]; intros acc; simpl; [reflexivity|].
  apply IH.
Qed.

Lemma foldl_insert_list_to_map (l : list (string * string)) :
  foldl (fun m kv => <[kv.1 := kv.2]> m) (∅ : gmap string string) l
  = list_to_map (reverse l).
Proof.
  induction l as [|[k v] l IH] using rev_ind; [reflexivity|].
  rewrite foldl_app, reverse_app. simpl. now rewrite IH.
Qed.

Lemma unmarshal_marshal_map (m old : GoMap) :
  unmarshal_map (marshal_map m) None = Ok m.
Proof.
  destruct m as [g|]; simpl; [|reflexivity].
  rewrite unmarshal_members_map_set. simpl. f_equal. f_equal.
  rewrite foldl_insert_list_to_map.
  rewrite <- (list_to_map_to_list g) at 2.
  apply list_to_map_proper.
  - rewrite reverse_Permutation, merge_sort_Permutation.
    apply NoDup_fst_map_to_list.
  - now rewrite reverse_Permutation, merge_sort_Permutation.
Qed.

Lemma json_wire_members_valid (l : list (string * string)) :
  Forall (fun kv => utf8_ValidString kv.1 = true /\ utf8_ValidString kv.2 = true) l ->
  List.map (fun kv : string * json => (wire_string (fst kv), json_wire (snd kv)))
    ((fun kv : string * string => (kv.1, JString kv.2)) <$> l)
  = (fun kv : string * string => (kv.1, JString kv.2)) <$> l.
Proof.
  induction 1 as [|[k v] l [Hk Hv] _ IH]; [reflexivity|].
  rewrite fmap_cons. cbn [List.map fst snd json_wire].
  cbn [fst snd] in Hk, Hv. rewrite IH, !wire_string_valid by assumption. reflexivity.
Qed.

Lemma json_wire_marshal_map (m : GoMap) :
  (forall k v, GoMap_lookup m k = Some v ->
     utf8_ValidString k = true /\ utf8_ValidString v = true) ->
  json_wire (marshal_map m) = marshal_map m.
Proof.
  intros Hm. destruct m as [g|]; [|reflexivity].
  unfold marshal_map. cbn [json_wire]. f_equal.
  apply json_wire_members_valid. apply Forall_forall. intros [k v] Hin.
  apply (Hm k v). cbn [GoMap_lookup]. apply elem_of_map_to_list.
  now rewrite <- (merge_sort_Permutation key_le (map_to_list g)).
Qed.

Lemma unmarshal_marshal_HealthResponse (r : HealthResponse.t) :
  Time_wire_ok (HealthResponse.Timestamp r) ->
  unmarshal_HealthResponse (marshal_HealthResponse r) = Ok r.
Proof.
  destruct r as [st ts]. eval_fields. intros Hts.
  unfold unmarshal_HealthResponse, Unmarshal, marshal_HealthResponse, HealthResponse_set.
  eval_fields. eval_EqualFold. eval_fields.
  rewrite (unmarshal_marshal_Time _ _ Hts). reflexivity.
Qed.

Lemma unmarshal_marshal_LivenessResponse (r : LivenessResponse.t) :
  Time_wire_ok (LivenessResponse.Timestamp r) ->
  unmarshal_LivenessResponse (marshal_LivenessResponse r) = Ok r.
Proof.
  destruct r as [al ts]. eval_fields. intros Hts.
  unfold unmarshal_LivenessResponse, Unmarshal, marshal_LivenessResponse,
    LivenessResponse_set.
  eval_fields. eval_EqualFold. eval_fields.
  rewrite (unmarshal_marshal_Time _ _ Hts). reflexivity.
Qed.

Lemma unmarshal_marshal_ReadinessResponse (r : ReadinessResponse.t) :
  Time_wire_ok (ReadinessResponse.Timestamp r) ->
  unmarshal_ReadinessResponse (marshal_ReadinessResponse r) = Ok r.
Proof.
  destruct r as [rd ts ch]. eval_fields. intros Hts.
  unfold unmarshal_ReadinessResponse, Unmarshal, marshal_ReadinessResponse,
    ReadinessResponse_set.
  eval_fields. eval_EqualFold. eval_fields.
  rewrite (unmarshal_marshal_Time _ _ Hts). eval_fields.
  rewrite (unmarshal_marshal_map ch None). reflexivity.
Qed.

(** A dependency read into a new element of the slice. *)
Lemma store_marshal_Dependency (d : Dependency.t) :
  unmarshal_struct Dependency_set zero_Dependency (marshal_Dependency d) = Ok d.
Proof.
  destruct d as [na st ve].
  unfold zero_Dependency, marshal_Dependency, Dependency_set, omitempty_string.
  eval_fields.
  destruct (String.eqb ve "") eqn:Hve.
  - apply String.eqb_eq in Hve. subst ve.
    eval_fields. eval_EqualFold. eval_fields. reflexivity.
  - eval_fields. eval_EqualFold. eval_fields. reflexivity.
Qed.

Lemma unmarshal_marshal_Dependency (d : Dependency.t) :
  unmarshal_Dependency (marshal_Dependency d) = Ok d.
Proof. unfold unmarshal_Dependency, Unmarshal. now rewrite store_marshal_Dependency. Qed.

Lemma json_wire_marshal_Dependency (d : Dependency.t) :
  Dependency_wire_ok d -> json_wire (marshal_Dependency d) = marshal_Dependency d.
Proof.
  destruct d as [na st ve]. intros (Hna & Hst & Hve). cbn in Hna, Hst, Hve.
  unfold marshal_Dependency, omitempty_string. eval_fields.
  destruct (String.eqb ve ""); eval_fields; now eval_wire.
Qed.

Lemma unmarshal_marshal_elements (l : list Dependency.t) :
  unmarshal_elements (unmarshal_struct Dependency_set) zero_Dependency
    (marshal_Dependency <$> l) []
  = Ok l.
Proof.
  induction l as [|d l IH]; [reflexivity|].
  rewrite fmap_cons. cbn [unmarshal_elements hd tl].
  rewrite store_marshal_Dependency. cbn [mbind Result_bind].
  rewrite IH. reflexivity.
Qed.

Lemma json_wire_marshal_elements (l : list Dependency.t) :
  Forall Dependency_wire_ok l ->
  List.map json_wire (marshal_Dependency <$> l) = marshal_Dependency <$> l.
Proof.
  induction 1 as [|d l Hd _ IH]; [reflexivity|].
  rewrite fmap_cons. cbn [List.map].
  now rewrite IH, json_wire_marshal_Dependency.
Qed.

Lemma unmarshal_int64_in_range (n old : Z) :
  minInt64 <= n <= maxInt64 -> unmarshal_int64 (JNumber n) old = Ok n.
Proof.
  intros [Hlo Hhi]. unfold unmarshal_int64.
  apply Z.leb_le in Hlo, Hhi. now rewrite Hlo, Hhi.
Qed.

Lemma unmarshal_marshal_StatusResponse (r : StatusResponse.t) :
  (forall t, StatusResponse.BuildTime r = Some t -> Time_wire_ok t) ->
  Time_wire_ok (StatusResponse.StartTime r) ->
  minInt64 <= StatusResponse.UptimeSeconds r <= maxInt64 ->
  unmarshal_StatusResponse (marshal_StatusResponse r)
  = Ok (StatusResponse.mk
          (StatusResponse.ServiceName r) (StatusResponse.Version r)
          (StatusResponse.GitCommit r) (StatusResponse.BuildTime r)
          (StatusResponse.StartTime r) (StatusResponse.UptimeSeconds r)
          (StatusResponse.Environment r) (StatusResponse.Hostname r)
          (reread_slice (StatusResponse.Dependencies r))).
Proof.
  destruct r as [sn ve gc bt st up en ho de]. eval_fields. intros Hbt Hst Hup.
  assert (Hbt' : forall t, bt = Some t -> time_parse (time_text t) = Ok t)
    by (intros t Ht; apply (Hbt t Ht)).
  unfold unmarshal_StatusResponse, Unmarshal, zero_StatusResponse,
    marshal_StatusResponse, StatusResponse_set,
    omitempty_string, omitempty_Time, omitempty_Dependencies, reread_slice.
  eval_fields.
  destruct (String.eqb gc "") eqn:Hgc;
    [apply String.eqb_eq in Hgc; subst gc|];
  (destruct bt as [bt|]; [pose proof (Hbt' bt eq_refl) as Hbt1|]);
  (destruct (String.eqb ho "") eqn:Hho;
    [apply String.eqb_eq in Hho; subst ho|]);
  (destruct de as [[|d l]|]; cbn [elems]);
  rewrite ?fmap_cons;
  repeat (eval_fields; eval_EqualFold;
          rewrite ?(unmarshal_marshal_Time _ _ Hst), ?(unmarshal_int64_in_range _ _ Hup);
          cbn [unmarshal_Time_ptr marshal_Time unmarshal_Dependencies
               unmarshal_elements hd tl];
          rewrite ?Hbt1, ?store_marshal_Dependency, ?unmarshal_marshal_elements);
  cbn [length drop]; rewrite ?drop_nil, ?app_nil_r;
  reflexivity.
Qed.

Lemma json_wire_marshal_HealthResponse (r : HealthResponse.t) :
  HealthResponse_wire_ok r ->
  json_wire (marshal_HealthResponse r) = marshal_HealthResponse r.
Proof.
  destruct r as [st ts]. intros [Hst [Hts _]]. cbn in Hst, Hts.
  unfold marshal_HealthResponse, marshal_Time. eval_fields. now eval_wire.
Qed.

Lemma json_wire_marshal_LivenessResponse (r : LivenessResponse.t) :
  LivenessResponse_wire_ok r ->
  json_wire (marshal_LivenessResponse r) = marshal_LivenessResponse r.
Proof.
  destruct r as [al ts]. intros [Hts _]. cbn in Hts.
  unfold marshal_LivenessResponse, marshal_Time. eval_fields. now eval_wire.
Qed.

Lemma json_wire_marshal_ReadinessResponse (r : ReadinessResponse.t) :
  ReadinessResponse_wire_ok r ->
  json_wire (marshal_ReadinessResponse r) = marshal_ReadinessResponse r.
Proof.
  destruct r as [rd ts ch]. intros [[Hts _] Hch]. cbn in Hts, Hch.
  unfold marshal_ReadinessResponse, marshal_Time. eval_fields. eval_wire.
  now rewrite (json_wire_marshal_map ch Hch).
Qed.

Lemma json_wire_marshal_StatusResponse (r : StatusResponse.t) :
  StatusResponse_wire_ok r ->
  json_wire (marshal_StatusResponse r) = marshal_StatusResponse r.
Proof.
  destruct r as [sn ve gc bt st up en ho de].
  intros (Hsn & Hve & Hgc & Hbt & [Hst _] & _ & Hen & Hho & Hde).
  cbn in Hsn, Hve, Hgc, Hbt, Hst, Hen, Hho, Hde.
  unfold marshal_StatusResponse, omitempty_string, omitempty_Time,
    omitempty_Dependencies, marshal_Time.
  eval_fields.
  destruct (String.eqb gc "");
  (destruct bt as [bt|]; [destruct (Hbt bt eq_refl) as [Hbt1 _]|]);
  destruct (String.eqb ho "");
  (destruct de as [[|d l]|]; cbn [elems] in Hde |- *);
  eval_fields; eval_wire;
  rewrite ?(json_wire_marshal_elements _ Hde); reflexivity.
Qed.

(** A field tagged [omitempty] that is unset has no member in the object
    that is on the wire. *)
Lemma omitted_when_unset (r : StatusResponse.t) (d : Dependency.t) :
  (StatusResponse.GitCommit r = ""%string ->
     member "git_commit" (json_wire (marshal_StatusResponse r)) = None)
  /\ (StatusResponse.BuildTime r = None ->
     member "build_time" (json_wire (marshal_StatusResponse r)) = None)
  /\ (StatusResponse.Hostname r = ""%string ->
     member "hostname" (json_wire (marshal_StatusResponse r)) = None)
  /\ (elems (StatusResponse.Dependencies r) = [] ->
     member "dependencies" (json_wire (marshal_StatusResponse r)) = None)
  /\ (Dependency.Version d = ""%string ->
     member "version" (json_wire (marshal_Dependency d)) = None).
Proof.
  destruct r as [sn ve gc bt st up en ho de], d as [dn ds dv].
  unfold marshal_StatusResponse, marshal_Dependency,
    omitempty_string, omitempty_Time, omitempty_Dependencies.
  eval_fields.
  repeat split; intros Hunset; try subst; try rewrite Hunset;
    try (destruct (String.eqb gc ""));
    try (destruct bt);
    try (destruct (String.eqb ho ""));
    try (destruct (elems de));
    try discriminate; vm_compute; reflexivity.
Qed.

End WireForm.

(** C7, as the code has it. A response whose strings are valid UTF-8 and
    whose instants the time package writes and reads back comes back from
    its wire form as it was: exactly so for health, liveness and readiness
    responses (a nil checks map comes back nil, an allocated one
    allocated) and for a dependency, and field by field for a status
    response, whose dependencies come back as the same sequence (a slice of
    length zero was left out and comes back nil). The fields tagged
    [omitempty] (git_commit, build_time, hostname, dependencies, and the
    version of a dependency) have no member in the wire form of any
    response when unset, so none is written as null. *)
Theorem wire_roundtrip {E : Env} :
  (forall r, HealthResponse_wire_ok r ->
     unmarshal_HealthResponse (json_wire (marshal_HealthResponse r)) = Ok r)
  /\ (forall r, LivenessResponse_wire_ok r ->
        unmarshal_LivenessResponse (json_wire (marshal_LivenessResponse r)) = Ok r)
  /\ (forall r, ReadinessResponse_wire_ok r ->
        unmarshal_ReadinessResponse (json_wire (marshal_ReadinessResponse r)) = Ok r)
  /\ (forall r, StatusResponse_wire_ok r ->
        exists r',
          unmarshal_StatusResponse (json_wire (marshal_StatusResponse r)) = Ok r'
          /\ StatusResponse_eq r r')
  /\ (forall d, Dependency_wire_ok d ->
        unmarshal_Dependency (json_wire (marshal_Dependency d)) = Ok d)
  /\ (forall r,
        (StatusResponse.GitCommit r = ""%string ->
           member "git_commit" (json_wire (marshal_StatusResponse r)) = None)
        /\ (StatusResponse.BuildTime r = None ->
           member "build_time" (json_wire (marshal_StatusResponse r)) = None)
        /\ (StatusResponse.Hostname r = ""%string ->
           member "hostname" (json_wire (marshal_StatusResponse r)) = None)
        /\ (elems (StatusResponse.Dependencies r) = [] ->
           member "dependencies" (json_wire (marshal_StatusResponse r)) = None))
  /\ (forall d, Dependency.Version d = ""%string ->
        member "version" (json_wire (marshal_Dependency d)) = None).
Proof.
  split.
  { intros r Hr. rewrite (json_wire_marshal_HealthResponse r Hr).
    apply unmarshal_marshal_HealthResponse, Hr. }
  split.
  { intros r Hr. rewrite (json_wire_marshal_LivenessResponse r Hr).
    apply unmarshal_marshal_LivenessResponse, Hr. }
  split.
  { intros r Hr. rewrite (json_wire_marshal_ReadinessResponse r Hr).
    apply unmarshal_marshal_ReadinessResponse, Hr. }
  split.
  { intros r Hr. rewrite (json_wire_marshal_StatusResponse r Hr).
    destruct Hr as (_ & _ & _ & Hbt & Hst & Hup & _).
    eexists. split; [apply (unmarshal_marshal_StatusResponse r Hbt Hst Hup)|].
    unfold StatusResponse_eq, same_elems, reread_slice. simpl.
    repeat split; try reflexivity.
    destruct (StatusResponse.Dependencies r) as [[|d l]|]; reflexivity. }
  split.
  { intros d Hd. rewrite (json_wire_marshal_Dependency d Hd).
    apply unmarshal_marshal_Dependency. }
  split.
  { intros r.
    destruct (omitted_when_unset r zero_Dependency) as (H1 & H2 & H3 & H4 & _).
    repeat split; assumption. }
  intros d.
  destruct (omitted_when_unset zero_StatusResponse d) as (_ & _ & _ & _ & H5).
  exact H5.
Qed.

(** The decimal text of the test double determines the instant. *)
Lemma test_time_roundtrip (t : Time) : test_time_parse (test_time_text t) = Ok t.
Proof.
  destruct t as [z]. unfold test_time_parse, test_time_text, fmt_d. simpl.
  rewrite NilZero.isi.
  - now rewrite DecimalZ.of_to.
  - destruct z as [|p|p]; simpl; try discriminate.
    intros [= Hp]. exact (DecimalPos.Unsigned.to_uint_nonnil p Hp).
  - destruct z as [|p|p]; simpl; try discriminate.
    intros [= Hp]. exact (DecimalPos.Unsigned.to_uint_nonnil p Hp).
Qed.

Lemma wire_roundtrip_witness :
  unmarshal_StatusResponse (E := test_Env)
    (json_wire
       (marshal_StatusResponse (E := test_Env)
          (StatusResponse.mk "svc" "1.2.3" "" None (mkTime 1700000000000000000) 3600
             "production" "host-1"
             (Some [Dependency.mk "postgres" "healthy" "14.5";
                    Dependency.mk "redis" "healthy" ""]))))
  = Ok (StatusResponse.mk "svc" "1.2.3" "" None (mkTime 1700000000000000000) 3600
          "production" "host-1"
          (Some [Dependency.mk "postgres" "healthy" "14.5";
                 Dependency.mk "redis" "healthy" ""]))
  /\ member "git_commit"
       (json_wire
          (marshal_StatusResponse (E := test_Env)
             (StatusResponse.mk "svc" "1.2.3" "" None (mkTime 1700000000000000000) 3600
                "production" "host-1" None))) = None.
Proof.
  pose proof (wire_roundtrip (E := test_Env))
    as (_ & _ & _ & Hstatus & _ & Homit & _).
  split.
  - vm_compute. reflexivity.
  - exact (proj1 (Homit (StatusResponse.mk "svc" "1.2.3" "" None
                           (mkTime 1700000000000000000) 3600
                           "production" "host-1" None)) eq_refl).
Defined.

(** The claim as stated fails on a string that is not valid UTF-8. A
    health response whose status is the single byte FF is written with
    U+FFFD in its place, and comes back with the three bytes EF BF BD as
    its status. *)
Lemma wire_roundtrip_counterexample :
  unmarshal_HealthResponse (E := test_Env)
    (json_wire
       (marshal_HealthResponse (E := test_Env)
          (HealthResponse.mk (String (ascii_of_N 255) "") (mkTime 0))))
  = Ok (HealthResponse.mk
          (String (ascii_of_N 239) (String (ascii_of_N 191) (String (ascii_of_N 189) "")))
          (mkTime 0))
  /\ HealthResponse.mk
       (String (ascii_of_N 239) (String (ascii_of_N 191) (String (ascii_of_N 189) "")))
       (mkTime 0)
     <> HealthResponse.mk (String (ascii_of_N 255) "") (mkTime 0).
Proof. split; [vm_compute; reflexivity | discriminate]. Qed.

(** ** Uptime: the float64 arithmetic of [Duration.Seconds] *)

Lemma digits2_pos_bounds (p : positive) :
  2 ^ (Z.pos (digits2_pos p) - 1) <= Z.pos p < 2 ^ Z.pos (digits2_pos p).
Proof.
  induction p as [p IH|p IH|]; cbn [digits2_pos].
  - rewrite Pos2Z.inj_succ, (Pos2Z.inj_xI p).
    set (d := Z.pos (digits2_pos p)) in *.
    assert (Hd : 2 ^ d = 2 * 2 ^ (d - 1)).
    { rewrite <- Z.pow_succ_r by lia. f_equal. lia. }
    replace (Z.succ d - 1) with d by lia.
    rewrite Z.pow_succ_r by lia. lia.
  - rewrite Pos2Z.inj_succ, (Pos2Z.inj_xO p).
    set (d := Z.pos (digits2_pos p)) in *.
    assert (Hd : 2 ^ d = 2 * 2 ^ (d - 1)).
    { rewrite <- Z.pow_succ_r by lia. f_equal. lia. }
    replace (Z.succ d - 1) with d by lia.
    rewrite Z.pow_succ_r by lia. lia.
  - vm_compute. split; [discriminate | reflexivity].
Qed.

Lemma Zdigits2_bounds (m : Z) :
  0 < m -> 2 ^ (Zdigits2 m - 1) <= m < 2 ^ Zdigits2 m.
Proof.
  destruct m as [|p|p]; try lia. intros _. apply digits2_pos_bounds.
Qed.

Lemma Zdigits2_pos (m : Z) : 0 < m -> 0 < Zdigits2 m.
Proof. destruct m; simpl; lia. Qed.

Lemma Zdigits2_unique (m k : Z) :
  2 ^ (k - 1) <= m < 2 ^ k -> 0 < m -> Zdigits2 m = k.
Proof.
  intros [Hlo Hhi] Hm.
  pose proof (Zdigits2_bounds m Hm) as [Hlo' Hhi'].
  pose proof (Zdigits2_pos m Hm) as Hd.
  assert (0 < k).
  { destruct (Z.ltb_spec 0 k); [assumption|].
    exfalso. assert (2 ^ k <= 2 ^ 0) by (apply Z.pow_le_mono_r; lia).
    change (2 ^ 0) with 1 in *. lia. }
  assert (Zdigits2 m - 1 < k).
  { apply (Z.pow_lt_mono_r_iff 2); lia. }
  assert (k - 1 < Zdigits2 m).
  { apply (Z.pow_lt_mono_r_iff 2); lia. }
  lia.
Qed.

Lemma shr_1_rec_of (N D : Z) :
  0 <= N -> 0 < D -> shr_1 (rec_of N D) = rec_of N (2 * D).
Proof.
  intros HN HD. unfold rec_of.
  pose proof (Z.div_mod N D ltac:(lia)) as Hdm.
  pose proof (Z.mod_pos_bound N D HD) as Hrem.
  assert (Hq : 0 <= N / D) by (apply Z.div_pos; lia).
  assert (Hdiv : N / (2 * D) = N / D / 2).
  { rewrite (Z.mul_comm 2 D). rewrite Z.div_div by lia. reflexivity. }
  assert (Hmod : N mod (2 * D) = D * ((N / D) mod 2) + N mod D).
  { rewrite (Z.mul_comm 2 D). rewrite Z.rem_mul_r by lia. lia. }
  rewrite Hdiv, Hmod.
  set (q := N / D) in *. set (r := N mod D) in *.
  destruct q as [|[p|p|]|p]; try lia; cbn [shr_1].
  - change (0 / 2) with 0. change (0 mod 2) with 0.
    f_equal; [|].
    + destruct (Z.leb_spec (2 * D) (2 * (D * 0 + r))); [lia|reflexivity].
    + destruct (Z.leb_spec D (2 * r)), (Z.eqb_spec r 0), (Z.eqb_spec (2 * r) D),
        (Z.eqb_spec (D * 0 + r) 0), (Z.eqb_spec (2 * (D * 0 + r)) (2 * D));
        simpl; try reflexivity; lia.
  - assert (Z.pos p~1 / 2 = Z.pos p) as -> by (rewrite (Pos2Z.inj_xI p); symmetry; apply Z.div_unique with 1; lia).
    assert (Z.pos p~1 mod 2 = 1) as -> by (rewrite (Pos2Z.inj_xI p); symmetry; apply Z.mod_unique with (Z.pos p); lia).
    f_equal.
    + destruct (Z.leb_spec (2 * D) (2 * (D * 1 + r))); [reflexivity|lia].
    + destruct (Z.leb_spec D (2 * r)), (Z.eqb_spec r 0), (Z.eqb_spec (2 * r) D),
        (Z.eqb_spec (D * 1 + r) 0), (Z.eqb_spec (2 * (D * 1 + r)) (2 * D));
        simpl; try reflexivity; lia.
  - assert (Z.pos p~0 / 2 = Z.pos p) as -> by (rewrite (Pos2Z.inj_xO p); symmetry; apply Z.div_unique with 0; lia).
    assert (Z.pos p~0 mod 2 = 0) as -> by (rewrite (Pos2Z.inj_xO p); symmetry; apply Z.mod_unique with (Z.pos p); lia).
    f_equal.
    + destruct (Z.leb_spec (2 * D) (2 * (D * 0 + r))); [lia|reflexivity].
    + destruct (Z.leb_spec D (2 * r)), (Z.eqb_spec r 0), (Z.eqb_spec (2 * r) D),
        (Z.eqb_spec (D * 0 + r) 0), (Z.eqb_spec (2 * (D * 0 + r)) (2 * D));
        simpl; try reflexivity; lia.
  - change (1 / 2) with 0. change (1 mod 2) with 1.
    f_equal.
    + destruct (Z.leb_spec (2 * D) (2 * (D * 1 + r))); [reflexivity|lia].
    + destruct (Z.leb_spec D (2 * r)), (Z.eqb_spec r 0), (Z.eqb_spec (2 * r) D),
        (Z.eqb_spec (D * 1 + r) 0), (Z.eqb_spec (2 * (D * 1 + r)) (2 * D));
        simpl; try reflexivity; lia.
Qed.

Lemma iter_pos_shr_1 (p : positive) (N D : Z) :
  0 <= N -> 0 < D ->
  SpecFloat.iter_pos shr_1 p (rec_of N D) = rec_of N (D * 2 ^ Z.pos p).
Proof.
  intros HN. revert D.
  induction p as [p IH|p IH|]; intros D HD; cbn [SpecFloat.iter_pos].
  - assert (0 < 2 ^ Z.pos p) by (apply Z.pow_pos_nonneg; lia).
    rewrite shr_1_rec_of, IH, IH by nia.
    f_equal. rewrite (Pos2Z.inj_xI p).
    rewrite Z.pow_add_r, Z.pow_mul_r by lia.
    change (2 ^ 2) with (2 * 2). change (2 ^ 1) with 2.
    rewrite Z.pow_mul_l. lia.
  - assert (0 < 2 ^ Z.pos p) by (apply Z.pow_pos_nonneg; lia).
    rewrite IH, IH by nia.
    f_equal. rewrite (Pos2Z.inj_xO p).
    rewrite Z.pow_mul_r by lia. change (2 ^ 2) with (2 * 2).
    rewrite Z.pow_mul_l. lia.
  - rewrite shr_1_rec_of by lia. f_equal. change (2 ^ 1) with 2. lia.
Qed.

Lemma shr_rec_of (N D e n : Z) :
  0 <= N -> 0 < D -> 0 <= n ->
  shr (rec_of N D) e n = (rec_of N (D * 2 ^ n), e + n).
Proof.
  intros HN HD Hn. unfold shr. destruct n as [|p|p]; try lia.
  - change (2 ^ 0) with 1. rewrite Z.mul_1_r, Z.add_0_r. reflexivity.
  - now rewrite iter_pos_shr_1.
Qed.

Lemma shr_record_of_loc_exact (m : Z) :
  shr_record_of_loc m loc_Exact = rec_of m 1.
Proof.
  unfold rec_of. rewrite Z.div_1_r, Z.mod_1_r. reflexivity.
Qed.

(** The quotient and the location that [SFdiv_core_binary] hands over. *)
Lemma shr_record_of_loc_div (N D : Z) :
  0 <= N -> 0 < D ->
  shr_record_of_loc (N / D) (new_location D (N mod D)) = rec_of N D.
Proof.
  intros HN HD. unfold rec_of.
  pose proof (Z.mod_pos_bound N D HD) as Hrem.
  generalize dependent (N mod D). intros r Hrem.
  generalize (N / D). intros q.
  assert (Hloc : new_location D r
                 = if r =? 0 then loc_Exact
                   else loc_Inexact (if D <=? 2 * r
                                     then if 2 * r =? D then Eq else Gt
                                     else Lt)).
  { unfold new_location. destruct (Z.even D) eqn:Hev.
    - unfold new_location_even. destruct (Z.eqb_spec r 0); [reflexivity|].
      f_equal.
      destruct (Z.compare_spec (2 * r) D), (Z.leb_spec D (2 * r)),
        (Z.eqb_spec (2 * r) D); try reflexivity; exfalso; lia.
    - assert (Hodd : exists k, D = 2 * k + 1).
      { apply Z.odd_spec. now rewrite <- Z.negb_even, Hev. }
      destruct Hodd as [k Hk].
      unfold new_location_odd. destruct (Z.eqb_spec r 0); [reflexivity|].
      f_equal.
      destruct (Z.compare_spec (2 * r + 1) D), (Z.leb_spec D (2 * r)),
        (Z.eqb_spec (2 * r) D); try reflexivity; exfalso; lia. }
  rewrite Hloc.
  destruct (Z.eqb_spec r 0) as [Hr0|Hr0].
  - assert (Hle : (D <=? 2 * r) = false) by (apply Z.leb_gt; lia).
    rewrite Hle. reflexivity.
  - destruct (Z.leb_spec D (2 * r)), (Z.eqb_spec (2 * r) D);
      try reflexivity; exfalso; lia.
Qed.

Lemma RNE_floor_or_ceil (N D : Z) :
  RNE N D = N / D \/ (RNE N D = N / D + 1 /\ D <= 2 * (N mod D)).
Proof.
  unfold RNE, rec_of; cbn [shr_m loc_of_shr_record].
  destruct (Z.leb_spec D (2 * (N mod D)));
    destruct (negb (N mod D =? 0) && negb (2 * (N mod D) =? D));
    cbn [round_nearest_even]; auto.
  destruct (Z.even (N / D)); auto.
Qed.

Lemma RNE_lower (N D S : Z) :
  0 < D -> S * D <= N -> S <= RNE N D.
Proof.
  intros HD HS.
  assert (S <= N / D) by (apply Z.div_le_lower_bound; lia).
  destruct (RNE_floor_or_ceil N D) as [->|[-> _]]; lia.
Qed.

Lemma RNE_upper (N D K : Z) :
  0 < D -> 2 * N < (2 * K - 1) * D -> RNE N D <= K - 1.
Proof.
  intros HD HK.
  pose proof (Z.div_mod N D ltac:(lia)) as Hdm.
  pose proof (Z.mod_pos_bound N D HD) as Hrem.
  destruct (RNE_floor_or_ceil N D) as [->|[-> Hhalf]]; nia.
Qed.

Lemma RNE_exact (N : Z) : RNE N 1 = N.
Proof.
  destruct (RNE_floor_or_ceil N 1) as [H|[_ H]].
  - now rewrite Z.div_1_r in H.
  - rewrite Z.mod_1_r in H. lia.
Qed.

Lemma fexp_normal (k : Z) : -1021 <= k -> fexp prec64 emax64 k = k - 53.
Proof. unfold fexp, emin, prec64, emax64. lia. Qed.

(** What [binary_round_aux] returns for the quotient N / D held at
    exponent ex, when n bits have to go: the quotient by D * 2^n, rounded,
    at exponent ex + n; a mantissa that rounds up to 2^53 is halved. *)
Lemma binary_round_aux_spec (sx : bool) (mx ex : Z) (lx : location) (N D n : Z) :
  0 <= N -> 0 < D ->
  shr_record_of_loc mx lx = rec_of N D ->
  n = fexp prec64 emax64 (Zdigits2 mx + ex) - ex -> 0 <= n ->
  -1074 <= ex + n <= 970 ->
  (2 ^ 52 <= RNE N (D * 2 ^ n) < 2 ^ 53 ->
     binary_round_aux prec64 emax64 sx mx ex lx
     = S754_finite sx (Z.to_pos (RNE N (D * 2 ^ n))) (ex + n))
  /\ (RNE N (D * 2 ^ n) = 2 ^ 53 ->
     binary_round_aux prec64 emax64 sx mx ex lx
     = S754_finite sx (Z.to_pos (2 ^ 52)) (ex + n + 1)).
Proof.
  intros HN HD Hrec Hn Hn0 He.
  unfold binary_round_aux, shr_fexp.
  rewrite Hrec, <- Hn, shr_rec_of by lia.
  fold (RNE N (D * 2 ^ n)). set (m1 := RNE N (D * 2 ^ n)).
  rewrite shr_record_of_loc_exact.
  split.
  - intros Hm1.
    rewrite (Zdigits2_unique m1 53) by (change (2 ^ (53 - 1)) with (2 ^ 52); lia).
    assert (fexp prec64 emax64 (53 + (ex + n)) - (ex + n) = 0) as ->
      by (unfold fexp, emin, prec64, emax64; lia).
    rewrite shr_rec_of by lia.
    change (1 * 2 ^ 0) with 1. unfold rec_of; cbn [shr_m].
    rewrite Z.div_1_r.
    destruct m1 as [|p|p]; try lia.
    assert ((ex + n + 0 <=? emax64 - prec64) = true) as ->
      by (apply Z.leb_le; unfold emax64, prec64; lia).
    rewrite Z.add_0_r. reflexivity.
  - intros Hm1. rewrite Hm1.
    change (Zdigits2 (2 ^ 53)) with 54.
    assert (fexp prec64 emax64 (54 + (ex + n)) - (ex + n) = 1) as ->
      by (unfold fexp, emin, prec64, emax64; lia).
    rewrite shr_rec_of by lia.
    change (1 * 2 ^ 1) with 2. unfold rec_of; cbn [shr_m].
    change (2 ^ 53 / 2) with (2 ^ 52).
    change (2 ^ 52) with (Z.pos (Z.to_pos (2 ^ 52))). cbv iota.
    assert ((ex + n + 1 <=? emax64 - prec64) = true) as ->
      by (apply Z.leb_le; unfold emax64, prec64; lia).
    reflexivity.
Qed.

Lemma Pos_iter_xO (m d : positive) :
  Z.pos (Pos.iter xO m d) = Z.pos m * 2 ^ Z.pos d.
Proof.
  induction d as [|d IH] using Pos.peano_ind.
  - cbn [Pos.iter]. rewrite (Pos2Z.inj_xO m). change (2 ^ 1) with 2. lia.
  - rewrite Pos.iter_succ, (Pos2Z.inj_xO (Pos.iter xO m d)), IH.
    rewrite Pos2Z.inj_succ, Z.pow_succ_r by lia. lia.
Qed.

(** [float64(x)] is exact for an integer of at most 53 bits: the mantissa
    is [x] shifted up to 53 bits. *)
Lemma float64_of_int_exact (x : Z) :
  0 < x < 2 ^ 53 ->
  let c := 53 - Zdigits2 x in
  0 <= c <= 52
  /\ 2 ^ 52 <= x * 2 ^ c < 2 ^ 53
  /\ float64_of_int x = S754_finite false (Z.to_pos (x * 2 ^ c)) (- c).
Proof.
  intros Hx c.
  pose proof (Zdigits2_bounds x ltac:(lia)) as Hdig.
  pose proof (Zdigits2_pos x ltac:(lia)) as Hdpos.
  assert (Hk : Zdigits2 x <= 53).
  { destruct (Z.leb_spec (Zdigits2 x) 53); [assumption|].
    assert (2 ^ 53 <= 2 ^ (Zdigits2 x - 1)) by (apply Z.pow_le_mono_r; lia). lia. }
  assert (Hc : 0 <= c <= 52) by (unfold c; lia).
  assert (Hpow : 2 ^ 53 = 2 ^ Zdigits2 x * 2 ^ c).
  { rewrite <- Z.pow_add_r by lia. f_equal. unfold c. lia. }
  assert (Hpow' : 2 ^ 52 = 2 ^ (Zdigits2 x - 1) * 2 ^ c).
  { rewrite <- Z.pow_add_r by lia. f_equal. unfold c. lia. }
  assert (Hc2 : 0 < 2 ^ c) by (apply Z.pow_pos_nonneg; lia).
  assert (Hrange : 2 ^ 52 <= x * 2 ^ c < 2 ^ 53) by nia.
  split; [exact Hc|]. split; [exact Hrange|].
  destruct x as [|p|p]; try lia.
  unfold float64_of_int, binary_normalize, binary_round.
  change (Z.pos (digits2_pos p)) with (Zdigits2 (Z.pos p)).
  rewrite Z.add_0_r, fexp_normal by lia.
  assert (Halign : exists mz, shl_align p 0 (Zdigits2 (Z.pos p) - 53) = (mz, - c)
                              /\ Z.pos mz = Z.pos p * 2 ^ c).
  { unfold shl_align. rewrite Z.sub_0_r.
    destruct (Zdigits2 (Z.pos p) - 53) as [|q|q] eqn:Hd; try lia.
    - exists p. split; [f_equal; unfold c; lia|].
      replace c with 0 by (unfold c; lia). change (2 ^ 0) with 1. lia.
    - exists (Pos.iter xO p q). split; [f_equal; unfold c; lia|].
      rewrite Pos_iter_xO. f_equal. f_equal. unfold c. lia. }
  destruct Halign as (mz & -> & Hmz).
  destruct (binary_round_aux_spec false (Z.pos mz) (- c) loc_Exact (Z.pos mz) 1 0)
    as [Hnormal _]; try lia.
  - apply shr_record_of_loc_exact.
  - rewrite (Zdigits2_unique (Z.pos mz) 53)
      by (change (2 ^ (53 - 1)) with (2 ^ 52); lia).
    unfold fexp, emin, prec64, emax64. lia.
  - change (1 * 2 ^ 0) with 1 in Hnormal. rewrite RNE_exact, Z.add_0_r in Hnormal.
    rewrite Hnormal by lia. now rewrite Hmz.
Qed.

Lemma float64_1e9_eq : float64_1e9 = S754_finite false 8388608000000000 (-23).
Proof. reflexivity. Qed.

Lemma div_eucl_eq (a b : Z) : Z.div_eucl a b = (a / b, a mod b).
Proof. unfold Z.div, Z.modulo. now destruct (Z.div_eucl a b). Qed.

(** The fraction [float64(nsec)/1e9] of a second: a positive value below
    1 - 2^-30, written with at least 53 binary places. *)
Lemma fraction_small (nsec : Z) :
  0 < nsec < 1000000000 ->
  exists my ty,
    float64_div (float64_of_int nsec) float64_1e9 = S754_finite false my (- ty)
    /\ 53 <= ty <= 83
    /\ Z.pos my < 2 ^ ty - 2 ^ (ty - 30).
Proof.
  intros Hns.
  destruct (float64_of_int_exact nsec) as (Ha & Hmx & Hf);
    [change (2 ^ 53) with 9007199254740992; lia|].
  set (a := 53 - Zdigits2 nsec) in *.
  assert (Ha23 : 23 <= a).
  { pose proof (Zdigits2_bounds nsec ltac:(lia)) as [Hlo _].
    assert (Zdigits2 nsec - 1 < 30).
    { apply (Z.pow_lt_mono_r_iff 2); [lia|lia|].
      change (2 ^ 30) with 1073741824. lia. }
    unfold a. lia. }
  set (mx := nsec * 2 ^ a) in *.
  set (D0 := 8388608000000000).
  rewrite Hf, float64_1e9_eq.
  unfold float64_div, SFdiv, SFdiv_core_binary.
  rewrite Z2Pos.id by lia.
  rewrite (Zdigits2_unique mx 53) by (change (2 ^ (53 - 1)) with (2 ^ 52); lia).
  change (Zdigits2 8388608000000000) with 53.
  assert (fexp prec64 emax64 (53 + - a - (53 + -23)) = - 30 - a) as ->
    by (unfold fexp, emin, prec64, emax64; lia).
  assert (Z.min (- 30 - a) (- a - -23) = - 30 - a) as -> by lia.
  assert (- a - -23 - (- 30 - a) = 53) as -> by lia.
  rewrite Z.shiftl_mul_pow2 by lia.
  rewrite div_eucl_eq. cbv beta iota. cbn [xorb].
  set (N := mx * 2 ^ 53). fold D0.
  assert (HN : 0 <= N) by (unfold N; change (2 ^ 53) with 9007199254740992; lia).
  assert (Hq : 2 ^ 52 <= N / D0 < 2 ^ 54).
  { split.
    - apply Z.div_le_lower_bound; [reflexivity|].
      unfold N, D0.
      change (2 ^ 52) with 4503599627370496 in *.
      change (2 ^ 53) with 9007199254740992 in *. lia.
    - apply Z.div_lt_upper_bound; [reflexivity|].
      unfold N, D0.
      change (2 ^ 54) with 18014398509481984.
      change (2 ^ 53) with 9007199254740992 in *. lia. }
  pose proof (Z.div_mod N D0 ltac:(unfold D0; lia)) as Hdm.
  pose proof (Z.mod_pos_bound N D0 ltac:(unfold D0; lia)) as Hrem.
  (* the number n of bits that go: 0 or 1 *)
  assert (Hn : exists n, (n = 0 \/ n = 1) /\ Zdigits2 (N / D0) = 53 + n
                         /\ 2 ^ 52 * 2 ^ n <= N / D0 < 2 ^ 53 * 2 ^ n).
  { destruct (Z.ltb_spec (N / D0) (2 ^ 53)).
    - exists 0. split; [now left|]. split.
      + apply Zdigits2_unique; [|lia].
        change (2 ^ (53 + 0 - 1)) with (2 ^ 52). change (2 ^ (53 + 0)) with (2 ^ 53). lia.
      + change (2 ^ 0) with 1. lia.
    - exists 1. split; [now right|]. split.
      + apply Zdigits2_unique; [|lia].
        change (2 ^ (53 + 1 - 1)) with (2 ^ 53). change (2 ^ (53 + 1)) with (2 ^ 54). lia.
      + change (2 ^ 52 * 2 ^ 1) with (2 ^ 53). change (2 ^ 53 * 2 ^ 1) with (2 ^ 54). lia. }
  destruct Hn as (n & Hn01 & Hdig & Hqn).
  assert (HW : 2 ^ n = 1 + n) by (destruct Hn01 as [->| ->]; reflexivity).
  (* a quotient of 54 bits needs nsec * 2^a >= 1e9 * 2^23, so a > 23 *)
  assert (Han : 23 + n <= a).
  { destruct Hn01 as [->| ->]; [lia|].
    destruct (Z.eq_dec a 23) as [Ha'|]; [|lia]. exfalso.
    assert (mx < D0).
    { unfold mx, D0. rewrite Ha'. change (2 ^ 23) with 8388608. lia. }
    assert (N / D0 < 2 ^ 53).
    { apply Z.div_lt_upper_bound; [reflexivity|]. unfold N.
      change (2 ^ 53) with 9007199254740992. lia. }
    change (2 ^ 52 * 2 ^ 1) with (2 ^ 53) in Hqn. lia. }
  set (u := 2 ^ (a - n)).
  assert (Hu : 2 ^ 22 <= u) by (apply Z.pow_le_mono_r; lia).
  assert (Hau : 2 ^ a = u * 2 ^ n).
  { unfold u. rewrite <- Z.pow_add_r by lia. f_equal. lia. }
  set (ty := 30 + a - n).
  assert (Hty : 2 ^ ty = 2 ^ 30 * u).
  { unfold u, ty. rewrite <- Z.pow_add_r by lia. f_equal. lia. }
  assert (Hty30 : 2 ^ (ty - 30) = u) by (unfold u, ty; f_equal; lia).
  destruct (binary_round_aux_spec false (N / D0) (- 30 - a)
              (new_location D0 (N mod D0)) N D0 n) as [Hnormal Hcarry];
    try lia.
  { apply shr_record_of_loc_div; [lia|reflexivity]. }
  { rewrite Hdig. unfold fexp, emin, prec64, emax64. lia. }
  set (m1 := RNE N (D0 * 2 ^ n)) in *.
  assert (HD0n : 0 < D0 * 2 ^ n) by (rewrite HW; unfold D0; lia).
  assert (Hlo : 2 ^ 52 <= m1).
  { apply (RNE_lower N (D0 * 2 ^ n) (2 ^ 52) HD0n). nia. }
  assert (Hhi : m1 <= 2 ^ ty - 2 ^ (ty - 30) - 1).
  { apply (RNE_upper N (D0 * 2 ^ n) (2 ^ ty - 2 ^ (ty - 30)) HD0n).
    rewrite Hty, Hty30, HW. unfold N, mx. rewrite Hau, HW.
    change (2 ^ 53) with 9007199254740992. change (2 ^ 30) with 1073741824.
    change (2 ^ 22) with 4194304 in Hu. unfold D0.
    assert (nsec * u <= 999999999 * u) by nia.
    destruct Hn01 as [->| ->]; lia. }
  assert (Hm53 : m1 <= 2 ^ 53 + 1 - 1).
  { apply (RNE_upper N (D0 * 2 ^ n) (2 ^ 53 + 1) HD0n).
    change (2 ^ 53) with 9007199254740992 in *. unfold D0 in *. nia. }
  destruct (Z.eq_dec m1 (2 ^ 53)) as [Hc|Hnc].
  - exists (Z.to_pos (2 ^ 52)), (ty - 1).
    rewrite (Hcarry Hc). split; [f_equal; unfold ty; lia|].
    assert (2 ^ 53 < 2 ^ 30 * u) by lia.
    assert (Hu24 : 2 ^ 24 <= u).
    { change (2 ^ 53) with (2 ^ 30 * 2 ^ 23) in *.
      change (2 ^ 30) with 1073741824 in *. change (2 ^ 23) with 8388608 in *.
      assert (8388608 < u) by lia.
      destruct (Z.leb_spec (a - n) 23).
      - assert (u <= 2 ^ 23) by (apply Z.pow_le_mono_r; lia).
        change (2 ^ 23) with 8388608 in *. lia.
      - assert (2 ^ 24 <= u) by (apply Z.pow_le_mono_r; lia). assumption. }
    assert (Ha24 : 24 <= a - n).
    { destruct (Z.leb_spec 24 (a - n)); [assumption|].
      assert (u <= 2 ^ 23) by (apply Z.pow_le_mono_r; lia).
      change (2 ^ 23) with 8388608 in *. change (2 ^ 24) with 16777216 in *. lia. }
    split; [unfold ty; lia|].
    assert (Hh1 : 2 ^ ty = 2 * 2 ^ (ty - 1)).
    { rewrite <- Z.pow_succ_r by (unfold ty; lia). f_equal. lia. }
    assert (Hh2 : 2 ^ (ty - 30) = 2 * 2 ^ (ty - 1 - 30)).
    { rewrite <- Z.pow_succ_r by (unfold ty; lia). f_equal. lia. }
    change (Z.pos (Z.to_pos (2 ^ 52))) with (2 ^ 52).
    change (2 ^ 53) with (2 * 2 ^ 52) in *. lia.
  - exists (Z.to_pos m1), ty.
    rewrite Hnormal by lia. split; [f_equal; unfold ty; lia|].
    split; [unfold ty; lia|].
    rewrite Z2Pos.id by lia. lia.
Qed.

(** Adding a fraction below one to a count of whole seconds that a
    Duration can hold gives a value in [sec, sec + 1]: the sum can round
    up to the next whole second. It stays below [sec + 1] when the count
    is below 2^24 and the fraction below 1 - 2^-30. *)
Lemma add_fraction (sec : Z) (my : positive) (ty : Z) :
  0 < sec < 2 ^ 34 -> 53 <= ty ->
  Z.pos my < 2 ^ ty ->
  exists m1 c,
    float64_add (float64_of_int sec) (S754_finite false my (- ty))
    = S754_finite false m1 (- c)
    /\ 18 <= c <= 52
    /\ sec * 2 ^ c <= Z.pos m1 <= (sec + 1) * 2 ^ c
    /\ (sec < 2 ^ 24 -> Z.pos my < 2 ^ ty - 2 ^ (ty - 30) ->
        Z.pos m1 < (sec + 1) * 2 ^ c).
Proof.
  intros Hsec Hty Hmy.
  destruct (float64_of_int_exact sec) as (Hc & Hmx & Hf);
    [change (2 ^ 34) with 17179869184 in *; change (2 ^ 53) with 9007199254740992; lia|].
  set (c := 53 - Zdigits2 sec) in *.
  pose proof (Zdigits2_bounds sec ltac:(lia)) as [Hdlo Hdhi].
  assert (Hc19 : 19 <= c).
  { assert (Zdigits2 sec - 1 < 34) by (apply (Z.pow_lt_mono_r_iff 2); lia).
    unfold c. lia. }
  set (mx := sec * 2 ^ c) in *.
  set (n := ty - c).
  assert (Hn : 0 < n) by (unfold n; lia).
  assert (Hpty : 2 ^ ty = 2 ^ c * 2 ^ n).
  { rewrite <- Z.pow_add_r by lia. f_equal. unfold n. lia. }
  assert (Hpc : 0 < 2 ^ c) by (apply Z.pow_pos_nonneg; lia).
  assert (Hpn : 0 < 2 ^ n) by (apply Z.pow_pos_nonneg; lia).
  assert (Hsecc : (sec + 1) * 2 ^ c <= 2 ^ 53).
  { assert (2 ^ 53 = 2 ^ Zdigits2 sec * 2 ^ c).
    { rewrite <- Z.pow_add_r by (pose proof (Zdigits2_pos sec); lia).
      f_equal. unfold c. lia. }
    nia. }
  set (M := mx * 2 ^ n + Z.pos my).
  assert (HM : sec * 2 ^ ty <= M < (sec + 1) * 2 ^ ty) by (unfold M, mx; nia).
  assert (HMdig : Zdigits2 M = Zdigits2 sec + ty).
  { apply Zdigits2_unique; [|lia].
    pose proof (Zdigits2_pos sec ltac:(lia)).
    replace (Zdigits2 sec + ty - 1) with (Zdigits2 sec - 1 + ty) by lia.
    rewrite !Z.pow_add_r by lia.
    assert (0 < 2 ^ ty) by (apply Z.pow_pos_nonneg; lia). nia. }
  rewrite Hf. unfold float64_add, SFadd.
  assert (Z.min (- c) (- ty) = - ty) as -> by lia.
  assert (Hal1 : shl_align (Z.to_pos mx) (- c) (- ty)
                 = (Z.to_pos (mx * 2 ^ n), - ty)).
  { unfold shl_align. destruct (- ty - - c) as [|q|q] eqn:Hd; try lia.
    f_equal. apply Pos2Z.inj. rewrite Pos_iter_xO, !Z2Pos.id by lia.
    f_equal. f_equal. unfold n. lia. }
  assert (Hal2 : shl_align my (- ty) (- ty) = (my, - ty)).
  { unfold shl_align. now rewrite Z.sub_diag. }
  rewrite Hal1, Hal2. cbn [fst cond_Zopp].
  rewrite Z2Pos.id by lia. fold M.
  unfold binary_normalize. destruct M as [|Mp|Mp] eqn:HMp; try lia.
  unfold binary_round.
  change (Z.pos (digits2_pos Mp)) with (Zdigits2 (Z.pos Mp)).
  rewrite HMdig.
  assert (fexp prec64 emax64 (Zdigits2 sec + ty + - ty) = - c) as ->
    by (pose proof (Zdigits2_pos sec); unfold fexp, emin, prec64, emax64, c; lia).
  assert (shl_align Mp (- ty) (- c) = (Mp, - ty)) as ->.
  { unfold shl_align. destruct (- c - - ty) as [|q|q] eqn:Hd; try lia; reflexivity. }
  destruct (binary_round_aux_spec false (Z.pos Mp) (- ty) loc_Exact (Z.pos Mp) 1 n)
    as [Hnormal Hcarry]; try lia.
  { apply shr_record_of_loc_exact. }
  { rewrite HMdig. pose proof (Zdigits2_pos sec).
    unfold fexp, emin, prec64, emax64, n, c. lia. }
  rewrite Z.mul_1_l in Hnormal, Hcarry.
  assert (Hlo : mx <= RNE (Z.pos Mp) (2 ^ n)).
  { apply RNE_lower; [lia|]. unfold mx. nia. }
  assert (Hhi : RNE (Z.pos Mp) (2 ^ n) <= (sec + 1) * 2 ^ c + 1 - 1).
  { apply RNE_upper; [lia|]. nia. }
  assert (Hstrict : sec < 2 ^ 24 -> Z.pos my < 2 ^ ty - 2 ^ (ty - 30) ->
                    RNE (Z.pos Mp) (2 ^ n) <= (sec + 1) * 2 ^ c - 1).
  { intros Hsec24 Hmy30.
    assert (Hc29 : 29 <= c).
    { assert (Zdigits2 sec - 1 < 24) by (apply (Z.pow_lt_mono_r_iff 2); lia).
      unfold c. lia. }
    assert (Hp30 : 2 ^ n <= 2 * 2 ^ (ty - 30)).
    { rewrite <- Z.pow_succ_r by lia. apply Z.pow_le_mono_r; unfold n; lia. }
    apply RNE_upper; [lia|]. unfold mx in *. nia. }
  destruct (Z.eq_dec (RNE (Z.pos Mp) (2 ^ n)) (2 ^ 53)) as [Hcar|Hnc].
  - exists (Z.to_pos (2 ^ 52)), (c - 1).
    rewrite (Hcarry Hcar).
    split; [f_equal; unfold n; lia|]. split; [lia|].
    assert (Hhalf : 2 ^ c = 2 * 2 ^ (c - 1)).
    { rewrite <- Z.pow_succ_r by lia. f_equal. lia. }
    change (Z.pos (Z.to_pos (2 ^ 52))) with (2 ^ 52).
    change (2 ^ 53) with (2 * 2 ^ 52) in *.
    split; [nia|].
    intros Hsec24 Hmy30. specialize (Hstrict Hsec24 Hmy30). lia.
  - exists (Z.to_pos (RNE (Z.pos Mp) (2 ^ n))), c.
    rewrite Hnormal by lia.
    split; [f_equal; unfold n; lia|]. split; [lia|].
    rewrite Z2Pos.id by lia. fold mx.
    split; [lia|].
    intros Hsec24 Hmy30. specialize (Hstrict Hsec24 Hmy30). lia.
Qed.

Lemma int64_of_float64_floor (m : positive) (c s : Z) :
  0 < c -> 0 <= s < 2 ^ 63 ->
  s * 2 ^ c <= Z.pos m < (s + 1) * 2 ^ c ->
  int64_of_float64 (S754_finite false m (- c)) = s.
Proof.
  intros Hc Hs Hm. unfold int64_of_float64.
  assert ((0 <=? - c) = false) as -> by (apply Z.leb_gt; lia).
  rewrite Z.opp_involutive.
  assert (Hpc : 0 < 2 ^ c) by (apply Z.pow_pos_nonneg; lia).
  assert (Z.pos m / 2 ^ c = s) as ->.
  { symmetry. apply Z.div_unique with (Z.pos m - s * 2 ^ c); lia. }
  unfold minInt64, maxInt64.
  assert ((- 2 ^ 63 <=? s) && (s <=? 2 ^ 63 - 1) = true) as ->.
  { apply andb_true_iff. split; apply Z.leb_le; lia. }
  reflexivity.
Qed.

(** The whole seconds of a duration below 2^24 seconds. *)
Theorem Seconds_truncated (d : Duration) :
  0 <= d < 2 ^ 24 * Second ->
  int64_of_float64 (Duration_Seconds d) = d / Second.
Proof.
  intros Hd. unfold Duration_Seconds.
  rewrite Z.quot_div_nonneg, Z.rem_mod_nonneg by (unfold Second; lia).
  pose proof (Z.div_mod d Second ltac:(unfold Second; lia)) as Hdm.
  pose proof (Z.mod_pos_bound d Second ltac:(unfold Second; lia)) as Hns.
  assert (Hsec : 0 <= d / Second < 2 ^ 24).
  { split; [apply Z.div_pos; unfold Second; lia|].
    apply Z.div_lt_upper_bound; unfold Second in *; lia. }
  set (sec := d / Second) in *. set (nsec := d mod Second) in *.
  unfold Second in Hns.
  assert (H63 : 2 ^ 24 < 2 ^ 63) by reflexivity.
  destruct (Z.eq_dec nsec 0) as [Hn0|Hn0]; destruct (Z.eq_dec sec 0) as [Hs0|Hs0].
  - rewrite Hn0, Hs0. reflexivity.
  - rewrite Hn0.
    assert (Hsec' : 0 < sec < 2 ^ 24) by lia.
    destruct (float64_of_int_exact sec) as (Hc & Hmx & Hf);
      [change (2 ^ 24) with 16777216 in *; change (2 ^ 53) with 9007199254740992; lia|].
    rewrite Hf.
    change (float64_add ?x (float64_div (float64_of_int 0) float64_1e9)) with x.
    assert (Hcpos : 0 < 53 - Zdigits2 sec).
    { pose proof (Zdigits2_bounds sec ltac:(lia)) as [Hdlo _].
      assert (Zdigits2 sec - 1 < 24) by (apply (Z.pow_lt_mono_r_iff 2); lia). lia. }
    apply int64_of_float64_floor; [lia|lia|].
    rewrite Z2Pos.id by lia.
    assert (0 < 2 ^ (53 - Zdigits2 sec)) by (apply Z.pow_pos_nonneg; lia). lia.
  - rewrite Hs0.
    destruct (fraction_small nsec) as (my & ty & Hy & Hty & Hmy); [lia|].
    rewrite Hy.
    change (float64_add (float64_of_int 0) ?y) with y.
    assert (0 < 2 ^ (ty - 30)) by (apply Z.pow_pos_nonneg; lia).
    apply int64_of_float64_floor; [lia|lia|lia].
  - destruct (fraction_small nsec) as (my & ty & Hy & Hty & Hmy); [lia|].
    rewrite Hy.
    assert (Hsec' : 0 < sec < 2 ^ 24) by lia.
    assert (H34 : 2 ^ 24 < 2 ^ 34) by reflexivity.
    assert (0 < 2 ^ (ty - 30)) by (apply Z.pow_pos_nonneg; lia).
    destruct (add_fraction sec my ty ltac:(lia) ltac:(lia) ltac:(lia))
      as (m1 & c & Hsum & Hc18 & Hm1 & Hlt).
    rewrite Hsum.
    apply int64_of_float64_floor; [lia|lia|].
    split; [lia|]. apply Hlt; lia.
Qed.

Lemma int64_of_float64_within_one (m : positive) (c s : Z) :
  0 < c -> 0 <= s < 2 ^ 62 ->
  s * 2 ^ c <= Z.pos m <= (s + 1) * 2 ^ c ->
  s <= int64_of_float64 (S754_finite false m (- c)) <= s + 1.
Proof.
  intros Hc Hs Hm. unfold int64_of_float64.
  assert ((0 <=? - c) = false) as -> by (apply Z.leb_gt; lia).
  rewrite Z.opp_involutive.
  assert (Hpc : 0 < 2 ^ c) by (apply Z.pow_pos_nonneg; lia).
  assert (Hq : s <= Z.pos m / 2 ^ c <= s + 1).
  { split; [apply Z.div_le_lower_bound; lia|].
    apply Z.lt_succ_r. apply Z.div_lt_upper_bound; nia. }
  assert ((minInt64 <=? Z.pos m / 2 ^ c) && (Z.pos m / 2 ^ c <=? maxInt64) = true) as ->.
  { unfold minInt64, maxInt64.
    assert (2 ^ 62 < 2 ^ 63) by reflexivity.
    apply andb_true_iff. split; apply Z.leb_le; lia. }
  exact Hq.
Qed.

(** For every non-negative duration the result is the count of whole
    seconds or one more; in particular it is not negative. *)
Theorem Seconds_within_one (d : Duration) :
  0 <= d <= maxDuration ->
  d / Second <= int64_of_float64 (Duration_Seconds d) <= d / Second + 1.
Proof.
  intros Hd. unfold maxDuration in Hd.
  change (2 ^ 63 - 1) with 9223372036854775807 in Hd.
  unfold Duration_Seconds.
  rewrite Z.quot_div_nonneg, Z.rem_mod_nonneg by (unfold Second; lia).
  pose proof (Z.div_mod d Second ltac:(unfold Second; lia)) as Hdm.
  pose proof (Z.mod_pos_bound d Second ltac:(unfold Second; lia)) as Hns.
  assert (Hsec : 0 <= d / Second < 2 ^ 34).
  { split; [apply Z.div_pos; unfold Second; lia|].
    apply Z.div_lt_upper_bound; unfold Second in *; [lia|].
    change (2 ^ 34) with 17179869184. lia. }
  set (sec := d / Second) in *. set (nsec := d mod Second) in *.
  unfold Second in Hns.
  assert (H62 : 2 ^ 34 < 2 ^ 62) by reflexivity.
  destruct (Z.eq_dec nsec 0) as [Hn0|Hn0]; destruct (Z.eq_dec sec 0) as [Hs0|Hs0].
  - rewrite Hn0, Hs0. vm_compute. split; discriminate.
  - rewrite Hn0.
    assert (Hsec' : 0 < sec < 2 ^ 34) by lia.
    destruct (float64_of_int_exact sec) as (Hc & Hmx & Hf);
      [change (2 ^ 34) with 17179869184 in *; change (2 ^ 53) with 9007199254740992; lia|].
    rewrite Hf.
    change (float64_add ?x (float64_div (float64_of_int 0) float64_1e9)) with x.
    assert (Hcpos : 0 < 53 - Zdigits2 sec).
    { pose proof (Zdigits2_bounds sec ltac:(lia)) as [Hdlo _].
      assert (Zdigits2 sec - 1 < 34) by (apply (Z.pow_lt_mono_r_iff 2); lia). lia. }
    apply int64_of_float64_within_one; [lia|lia|].
    rewrite Z2Pos.id by lia.
    assert (0 < 2 ^ (53 - Zdigits2 sec)) by (apply Z.pow_pos_nonneg; lia). lia.
  - rewrite Hs0.
    destruct (fraction_small nsec) as (my & ty & Hy & Hty & Hmy); [lia|].
    rewrite Hy.
    change (float64_add (float64_of_int 0) ?y) with y.
    assert (0 < 2 ^ (ty - 30)) by (apply Z.pow_pos_nonneg; lia).
    apply int64_of_float64_within_one; [lia|lia|lia].
  - destruct (fraction_small nsec) as (my & ty & Hy & Hty & Hmy); [lia|].
    rewrite Hy.
    assert (Hsec' : 0 < sec < 2 ^ 34) by lia.
    assert (0 < 2 ^ (ty - 30)) by (apply Z.pow_pos_nonneg; lia).
    destruct (add_fraction sec my ty Hsec' ltac:(lia) ltac:(lia))
      as (m1 & c' & Hsum & Hc18 & Hm1 & _).
    rewrite Hsum.
    apply int64_of_float64_within_one; [lia|lia|lia].
Qed.

(** ** Uptime of the status query *)





(* ===================================================================== *)
(** * Part III. Further properties of the code                            *)
(* ===================================================================== *)

(** ** The other handlers *)

Section MoreHandlerFacts.
Context {E : Env}.

(** X1. When the backend returns a health response, the handler of
    GET /health returns with status 503 exactly when the status reported
    is the string "unhealthy": every other status string, the empty one
    and one the package does not know among them, is answered with 200. *)
Theorem handleGetHealth_503_iff (h : HTTPHandler) (r : http_Request) (now : Time)
    (resp : HealthResponse.t) :
  GetHealth (server h) (Request_Context r) now = (Some resp, None) ->
  exists w,
    handleGetHealth h new_ResponseWriter r now = Returns w
    /\ (rw_Code w = Some 503 <-> HealthResponse.Status resp = HealthStatusUnhealthy)
    /\ (rw_Code w = Some 200 <-> HealthResponse.Status resp <> HealthStatusUnhealthy).
Proof.
  intros Hget. unfold handleGetHealth. rewrite Hget.
  eexists. split; [reflexivity|]. rewrite writeJSON_code.
  destruct (String.eqb_spec (HealthResponse.Status resp) HealthStatusUnhealthy) as [Hu|Hu].
  - split; split; try tauto; try discriminate.
  - split; split; try tauto; try discriminate.
Qed.

(** X2. The handler of GET /health/live answers with status 500 and the
    JSON object [{"error": msg}] when the backend fails; otherwise it
    returns with status 200 when the backend reports alive and 503 when it
    reports not alive; a backend that returns neither a response nor an
    error makes it panic. *)
Theorem handleGetLiveness_status (h : HTTPHandler) (r : http_Request) (now : Time) :
  match GetLiveness (server h) (Request_Context r) now with
  | (_, Some err) => handleGetLiveness h new_ResponseWriter r now = Returns (error_answer err)
  | (Some resp, None) =>
      exists w,
        handleGetLiveness h new_ResponseWriter r now = Returns w
        /\ rw_Code w = Some (if LivenessResponse.Alive resp then 200 else 503)
  | (None, None) => handleGetLiveness h new_ResponseWriter r now = Panics
  end.
Proof.
  unfold handleGetLiveness.
  destruct (GetLiveness (server h) (Request_Context r) now) as [[resp|] [err|]];
    rewrite ?writeError_new; try reflexivity.
  eexists. split; [reflexivity|]. rewrite writeJSON_code.
  now destruct (LivenessResponse.Alive resp).
Qed.

(** X3. The handler of GET /health/ready answers with status 500 and the
    JSON object [{"error": msg}] when the backend fails; otherwise it
    returns with status 200 when the response is ready and 503 when it is
    not, whatever its checks hold: the handler goes by the ready flag
    alone. A backend that returns neither a response nor an error makes it
    panic. *)
Theorem handleGetReadiness_status (h : HTTPHandler) (r : http_Request) (now : Time) :
  match GetReadiness (server h) (Request_Context r) now with
  | (_, Some err) => handleGetReadiness h new_ResponseWriter r now = Returns (error_answer err)
  | (Some resp, None) =>
      exists w,
        handleGetReadiness h new_ResponseWriter r now = Returns w
        /\ rw_Code w = Some (if ReadinessResponse.Ready resp then 200 else 503)
  | (None, None) => handleGetReadiness h new_ResponseWriter r now = Panics
  end.
Proof.
  unfold handleGetReadiness.
  destruct (GetReadiness (server h) (Request_Context r) now) as [[resp|] [err|]];
    rewrite ?writeError_new; try reflexivity.
  eexists. split; [reflexivity|]. rewrite writeJSON_code.
  now destruct (ReadinessResponse.Ready resp).
Qed.

(** X4. The handler of GET /status never panics: it answers with status
    500 and the JSON object [{"error": msg}] when the backend fails and
    returns with status 200 otherwise, also when the backend returns a nil
    response, which is written as [null]. *)
Theorem handleGetStatus_status (h : HTTPHandler) (r : http_Request) (now : Time) :
  match GetStatus (server h) (Request_Context r) now with
  | (_, Some err) => handleGetStatus h new_ResponseWriter r now = Returns (error_answer err)
  | (Some resp, None) =>
      exists w,
        handleGetStatus h new_ResponseWriter r now = Returns w /\ rw_Code w = Some 200
  | (None, None) => handleGetStatus h new_ResponseWriter r now = Returns (json_answer 200 JNull)
  end.
Proof.
  unfold handleGetStatus.
  destruct (GetStatus (server h) (Request_Context r) now) as [[resp|] [err|]];
    rewrite ?writeError_new; try reflexivity.
  eexists. split; [reflexivity|]. apply writeJSON_code.
Qed.

(** X5. The handler of GET /metrics: when the backend fails, the answer is
    500 with the JSON object [{"error": msg}] and content type
    application/json, and the text that came with the error is not
    written; otherwise the text, empty or not, is the whole body, with
    status 200 and content type [text/plain; version=0.0.4]. *)
Theorem handleGetMetrics_answer (h : HTTPHandler) (r : http_Request) (now : Time) :
  handleGetMetrics h new_ResponseWriter r now
  = match GetMetrics (server h) (Request_Context r) now with
    | (_, Some err) => Returns (error_answer err)
    | (metrics, None) =>
        Returns {| rw_Header :=
                     {[ "Content-Type"%string := "text/plain; version=0.0.4"%string ]};
                   rw_Code := Some 200;
                   rw_Body := [WroteText metrics] |}
    end.
Proof.
  unfold handleGetMetrics.
  destruct (GetMetrics (server h) (Request_Context r) now) as [metrics [err|]].
  - now rewrite writeError_new.
  - unfold Write, WriteHeader, Header_Set, new_ResponseWriter. simpl.
    now rewrite insert_empty.
Qed.

End MoreHandlerFacts.

Lemma handleGetHealth_503_iff_witness :
  exists w,
    handleGetHealth (E := test_Env) (NewHTTPHandler test_Server) new_ResponseWriter
      (test_request "/health") test_time = Returns w
    /\ rw_Code w = Some 200.
Proof.
  destruct (handleGetHealth_503_iff (E := test_Env) (NewHTTPHandler test_Server)
              (test_request "/health") test_time
              (HealthResponse.mk "degraded" test_time) eq_refl)
    as (w & Hans & _ & H200).
  exists w. split; [exact Hans|]. apply H200. discriminate.
Defined.

(** ** The default backend behind the handlers *)

Section DefaultBackend.
Context {E : Env}.

(** X6. With the default backend behind the handlers, no probe panics and
    none of /health, /health/live, /health/ready and /status answers 500:
    /health and /health/live always return with status 200, /status
    returns with status 200, /health/ready returns with status 200 when
    every check value is one of the four ready strings and with 503
    otherwise, and /metrics answers 500 exactly when a configured metrics
    provider returned an error. *)
Theorem BaseServer_behind_handlers (s : BaseServer.t) (r : http_Request) (now : Time) :
  let h := NewHTTPHandler (BaseServer_Server s) in
  let ctx := Request_Context r in
  let checks := from_option (fun f => f ctx) (Some ∅) (BaseServer.CheckFunc s) in
  (exists w, handleGetHealth h new_ResponseWriter r now = Returns w
             /\ rw_Code w = Some 200)
  /\ (exists w, handleGetLiveness h new_ResponseWriter r now = Returns w
                /\ rw_Code w = Some 200)
  /\ (exists w,
        handleGetReadiness h new_ResponseWriter r now = Returns w
        /\ (rw_Code w = Some 200 \/ rw_Code w = Some 503)
        /\ (rw_Code w = Some 200 <->
            forall k v, GoMap_lookup checks k = Some v -> ready_outcome v))
  /\ (exists w, handleGetStatus h new_ResponseWriter r now = Returns w
                /\ rw_Code w = Some 200)
  /\ (exists w,
        handleGetMetrics h new_ResponseWriter r now = Returns w
        /\ (rw_Code w = Some 200 \/ rw_Code w = Some 500)
        /\ (rw_Code w = Some 500 <->
            exists f err, BaseServer.MetricsFunc s = Some f /\ snd (f ctx) = Some err)).
Proof.
  intros h ctx checks.
  split.
  { unfold handleGetHealth. simpl. eexists. split; [reflexivity|]. apply writeJSON_code. }
  split.
  { unfold handleGetLiveness. simpl. eexists. split; [reflexivity|]. apply writeJSON_code. }
  split.
  { unfold handleGetReadiness. subst h. cbn [server NewHTTPHandler
      BaseServer_Server GetReadiness]. fold ctx.
    unfold BaseServer_GetReadiness. subst checks.
    destruct (BaseServer.CheckFunc s) as [f|]; cbn [from_option].
    - pose proof (readiness_loop_lookup (f ctx)) as Hiff.
      destruct (readiness_loop (GoMap_range (f ctx)) true) eqn:Hl;
        eexists; (split; [reflexivity|]); rewrite writeJSON_code; cbn.
      + split; [now left|]. split; [intros _; now apply Hiff | reflexivity].
      + split; [now right|].
        split; [discriminate|]. intros Hall. apply Hiff in Hall. discriminate.
    - eexists. split; [reflexivity|]. rewrite writeJSON_code. cbn.
      split; [now left|]. split; [|reflexivity].
      intros _ k v Hkv. simpl in Hkv. rewrite lookup_empty in Hkv. discriminate. }
  split.
  { unfold handleGetStatus. subst h. simpl.
    eexists. split; [reflexivity|]. apply writeJSON_code. }
  unfold handleGetMetrics. subst h.
  cbn [server NewHTTPHandler BaseServer_Server GetMetrics]. fold ctx.
  unfold BaseServer_GetMetrics.
  destruct (BaseServer.MetricsFunc s) as [f|].
  - destruct (f ctx) as [metrics [err|]] eqn:Hf.
    + eexists. split; [reflexivity|]. rewrite writeError_new.
      split; [now right|].
      split; [intros _; exists f, err; now rewrite Hf | reflexivity].
    + eexists. split; [reflexivity|]. split; [now left|].
      split; [discriminate|].
      intros (f' & err & Hf' & Herr). injection Hf' as <-.
      rewrite Hf in Herr. discriminate.
  - eexists. split; [reflexivity|]. split; [now left|].
    split; [discriminate|]. intros (f' & err & Hf' & _). discriminate.
Qed.

End DefaultBackend.

(** ** Routing *)

Section RoutingFacts.
Context {E : Env}.

Lemma RegisterRoutes_routes (h : HTTPHandler) :
  RegisterRoutes h chi_NewRouter
  = [ {| route_method := "GET"; route_pattern := "/health";
         route_handler := handleGetHealth h |};
      {| route_method := "GET"; route_pattern := "/health/live";
         route_handler := handleGetLiveness h |};
      {| route_method := "GET"; route_pattern := "/health/ready";
         route_handler := handleGetReadiness h |};
      {| route_method := "GET"; route_pattern := "/status";
         route_handler := handleGetStatus h |};
      {| route_method := "GET"; route_pattern := "/metrics";
         route_handler := handleGetMetrics h |} ].
Proof. reflexivity. Qed.

Lemma RegisterRoutes_Get_routes (h : HTTPHandler) :
  Get_routes (RegisterRoutes h chi_NewRouter).
Proof.
  rewrite RegisterRoutes_routes. split.
  - repeat constructor.
  - cbn [fmap list_fmap route_pattern].
    repeat (apply NoDup_cons_2;
            [rewrite ?elem_of_cons, elem_of_nil; intuition discriminate|]).
    apply NoDup_nil_2.
Qed.

(** What the router of chi does with a request, and the path it routes
    on (the raw path of the URL when it has one, else its path). For a
    router on which nothing but [Get] was called, with static patterns
    that differ: a GET request whose path is the pattern of a route is
    handed to the handler of that route, with a context of the router's
    making and the writer as it is; a request with another method for such
    a path is answered 405; a GET request for a path no route has is
    answered 404. *)
Variable ServeHTTP :
  chi_Router -> ResponseWriter -> http_Request -> Time -> outcome ResponseWriter.
Variable routePath : http_Request -> string.

Hypothesis serve_route : forall r rt w req now,
  Get_routes r -> rt ∈ r ->
  req_Method req = MethodGet -> routePath req = route_pattern rt ->
  exists req', same_but_context req' req
               /\ ServeHTTP r w req now = route_handler rt w req' now.

Hypothesis serve_other_method : forall r rt req now,
  Get_routes r -> rt ∈ r ->
  routePath req = route_pattern rt -> req_Method req <> MethodGet ->
  exists w', ServeHTTP r new_ResponseWriter req now = Returns w'
             /\ rw_Code w' = Some StatusMethodNotAllowed.

Hypothesis serve_no_route : forall r req now,
  Get_routes r -> req_Method req = MethodGet ->
  (forall rt, rt ∈ r -> routePath req <> route_pattern rt) ->
  exists w', ServeHTTP r new_ResponseWriter req now = Returns w'
             /\ rw_Code w' = Some StatusNotFound.

(** The route that [RegisterRoutes] sets for a path of the table. *)
Lemma handler_of_path_route (h : HTTPHandler) (path : string) (fn : HandlerFunc) :
  handler_of_path h path = Some fn ->
  {| route_method := MethodGet; route_pattern := path; route_handler := fn |}
  ∈ RegisterRoutes h chi_NewRouter.
Proof.
  rewrite RegisterRoutes_routes. unfold handler_of_path.
  repeat match goal with
  | |- context [String.eqb path ?p] =>
      destruct (String.eqb_spec path p) as [->|_];
      [intros [= <-]; rewrite !elem_of_cons; tauto|]
  end.
  discriminate.
Qed.

Lemma handler_of_path_None (h : HTTPHandler) (path : string) (rt : route) :
  handler_of_path h path = None ->
  rt ∈ RegisterRoutes h chi_NewRouter -> path <> route_pattern rt.
Proof.
  rewrite RegisterRoutes_routes. unfold handler_of_path.
  repeat match goal with
  | |- context [String.eqb path ?p] =>
      destruct (String.eqb_spec path p) as [->|?]; [discriminate|]
  end.
  intros _. rewrite !elem_of_cons, elem_of_nil.
  intros [->|[->|[->|[->|[->|[]]]]]]; assumption.
Qed.

(** X7. The routes of [RegisterRoutes], on a new router of chi. A GET
    request whose path is one of /health, /health/live, /health/ready,
    /status and /metrics is answered by the handler that the table gives
    for the path; a request with another method for one of these paths is
    answered with status 405; a GET request for any other path (one with a
    trailing slash too) is answered with status 404. *)
Theorem RegisterRoutes_dispatch (h : HTTPHandler) (w : ResponseWriter)
    (req : http_Request) (now : Time) :
  let r := RegisterRoutes h chi_NewRouter in
  (req_Method req = MethodGet ->
     forall fn, handler_of_path h (routePath req) = Some fn ->
       exists req', same_but_context req' req
                    /\ ServeHTTP r w req now = fn w req' now)
  /\ (req_Method req <> MethodGet ->
      is_Some (handler_of_path h (routePath req)) ->
      exists w', ServeHTTP r new_ResponseWriter req now = Returns w'
                 /\ rw_Code w' = Some 405)
  /\ (req_Method req = MethodGet ->
      handler_of_path h (routePath req) = None ->
      exists w', ServeHTTP r new_ResponseWriter req now = Returns w'
                 /\ rw_Code w' = Some 404).
Proof.
  intros r. pose proof (RegisterRoutes_Get_routes h) as Hr. fold r in Hr.
  split; [|split].
  - intros Hget fn Hfn.
    apply (serve_route r _ w req now Hr (handler_of_path_route h _ fn Hfn) Hget eq_refl).
  - intros Hother [fn Hfn].
    apply (serve_other_method r _ req now Hr (handler_of_path_route h _ fn Hfn)
             eq_refl Hother).
  - intros Hget Hnone.
    apply (serve_no_route r req now Hr Hget).
    intros rt Hrt. now apply (handler_of_path_None h).
Qed.

End RoutingFacts.

(** The router to test with does what is taken of chi's. *)
Lemma filter_none {A} (P : A -> Prop) `{forall x, Decision (P x)} (l : list A) :
  (forall y, y ∈ l -> ~ P y) -> filter P l = [].
Proof.
  induction l as [|a l IH]; intros Hl; [reflexivity|].
  rewrite filter_cons_False by (apply Hl; left).
  apply IH. intros y Hy. apply Hl. now right.
Qed.

Lemma filter_unique {A B} `{EqDecision B} (f : A -> B) (l : list A) (x : A) :
  NoDup (f <$> l) -> x ∈ l -> filter (fun y => f y = f x) l = [x].
Proof.
  induction l as [|a l IH]; intros Hnd Hx; [now apply elem_of_nil in Hx|].
  rewrite fmap_cons in Hnd. apply NoDup_cons in Hnd as [Ha Hnd].
  apply elem_of_cons in Hx as [->|Hx].
  - rewrite filter_cons_True by reflexivity. f_equal.
    apply filter_none. intros y Hy Heq.
    apply Ha. rewrite <- Heq. now apply list_elem_of_fmap_2.
  - rewrite filter_cons_False; [now apply IH|].
    intros Heq. apply Ha. rewrite Heq. now apply list_elem_of_fmap_2.
Qed.

Lemma test_serve_route (r : chi_Router) (rt : route) (w : ResponseWriter)
    (req : http_Request) (now : Time) :
  Get_routes r -> rt ∈ r ->
  req_Method req = MethodGet -> test_routePath req = route_pattern rt ->
  exists req', same_but_context req' req
               /\ test_ServeHTTP r w req now = route_handler rt w req' now.
Proof.
  intros [Hall Hnd] Hrt Hm Hp. exists req. split; [repeat split|].
  unfold test_ServeHTTP. rewrite Hp, (filter_unique route_pattern r rt Hnd Hrt).
  rewrite filter_cons_True; [reflexivity|].
  rewrite Hm. rewrite Forall_forall in Hall. now apply Hall.
Qed.

Lemma test_serve_other_method (r : chi_Router) (rt : route) (req : http_Request)
    (now : Time) :
  Get_routes r -> rt ∈ r ->
  test_routePath req = route_pattern rt -> req_Method req <> MethodGet ->
  exists w', test_ServeHTTP r new_ResponseWriter req now = Returns w'
             /\ rw_Code w' = Some StatusMethodNotAllowed.
Proof.
  intros [Hall Hnd] Hrt Hp Hm.
  exists (WriteHeader StatusMethodNotAllowed new_ResponseWriter).
  split; [|reflexivity].
  unfold test_ServeHTTP. rewrite Hp, (filter_unique route_pattern r rt Hnd Hrt).
  rewrite filter_cons_False; [reflexivity|].
  rewrite Forall_forall in Hall. destruct (Hall rt Hrt) as [-> _].
  intros Heq. now symmetry in Heq.
Qed.

Lemma test_serve_no_route (r : chi_Router) (req : http_Request) (now : Time) :
  Get_routes r -> req_Method req = MethodGet ->
  (forall rt, rt ∈ r -> test_routePath req <> route_pattern rt) ->
  exists w', test_ServeHTTP r new_ResponseWriter req now = Returns w'
             /\ rw_Code w' = Some StatusNotFound.
Proof.
  intros _ _ Hnone.
  exists (http_Error new_ResponseWriter "404 page not found" StatusNotFound).
  split; [|reflexivity].
  unfold test_ServeHTTP.
  assert (filter (fun rt => route_pattern rt = test_routePath req) r = []) as ->;
    [|reflexivity].
  apply filter_none. intros rt Hrt Heq.
  now apply (Hnone rt Hrt).
Qed.

Lemma RegisterRoutes_dispatch_witness :
  exists w',
    test_ServeHTTP (RegisterRoutes (E := test_Env) (NewHTTPHandler test_Server)
                      chi_NewRouter)
      new_ResponseWriter
      {| req_Method := "POST"; req_URL := {| url_text := "/metrics" |};
         req_Header := ∅; req_ctx := context_Background |} test_time
    = Returns w'
    /\ rw_Code w' = Some 405.
Proof.
  refine (proj1 (proj2
    (RegisterRoutes_dispatch (E := test_Env) test_ServeHTTP test_routePath
       test_serve_route test_serve_other_method test_serve_no_route
       (NewHTTPHandler test_Server) new_ResponseWriter _ test_time)) _ _).
  - discriminate.
  - eexists. reflexivity.
Defined.

(** ** More on the client *)

Section MoreClientFacts.
Context {E : Env}.

(** X8. [GetStatus] takes status 200 alone as success: with 503, which
    the three probe calls accept, and with every other code it returns the
    error "unexpected status code <code>: <body>" and does not decode. *)
Theorem client_GetStatus_only_200 (c : client) (h : heap) (ctx : context_Context)
    (resp : http_Response) :
  doRequest c h ctx MethodGet "/status" = Returns (Ok resp) ->
  (StatusCode resp = 200 ->
     client_GetStatus c h ctx
     = Returns match Decoder_Decode unmarshal_StatusResponse (resp_Body resp) with
               | Ok v => Ok v
               | Err err => Err ("decoding response: " +:+ err)%string
               end)
  /\ (StatusCode resp <> 200 ->
     client_GetStatus c h ctx
     = Returns (Err ("unexpected status code " +:+ fmt_d (StatusCode resp) +:+ ": "
                     +:+ body_data (resp_Body resp))%string)).
Proof.
  intros Hreq. unfold client_GetStatus. rewrite Hreq. split.
  - intros ->. cbn [Z.eqb StatusOK negb Pos.eqb].
    now destruct (Decoder_Decode unmarshal_StatusResponse (resp_Body resp)).
  - intros Hne.
    assert ((StatusCode resp =? StatusOK) = false) as -> by now apply Z.eqb_neq.
    reflexivity.
Qed.

(** X9. When the URL of its request does not parse, a call returns the
    error "creating request: ..." that wraps the error of the parse, and
    nothing is sent: the result is the same for every store and every
    [http.Client], a nil one too. This holds of each of the five calls,
    with the URL of its own path. *)
Theorem client_creating_request_error (c : client) (h : heap) (ctx : context_Context) :
  (forall err, url_Parse (baseURL c +:+ "/health") = Err err ->
     client_GetHealth c h ctx = Returns (Err ("creating request: " +:+ err)))
  /\ (forall err, url_Parse (baseURL c +:+ "/health/live") = Err err ->
        client_GetLiveness c h ctx = Returns (Err ("creating request: " +:+ err)))
  /\ (forall err, url_Parse (baseURL c +:+ "/health/ready") = Err err ->
        client_GetReadiness c h ctx = Returns (Err ("creating request: " +:+ err)))
  /\ (forall err, url_Parse (baseURL c +:+ "/status") = Err err ->
        client_GetStatus c h ctx = Returns (Err ("creating request: " +:+ err)))
  /\ (forall err, url_Parse (baseURL c +:+ "/metrics") = Err err ->
        client_GetMetrics c h ctx = Returns (Err ("creating request: " +:+ err))).
Proof.
  unfold client_GetHealth, client_GetLiveness, client_GetReadiness, client_GetStatus,
    client_GetMetrics, doRequest, http_NewRequestWithContext.
  repeat split; intros err ->; reflexivity.
Qed.

(** X10. When the request of a call was made and the exchange with the
    server fails, the call returns the error "executing request: ..." that
    wraps the error of the exchange. This holds of each of the five calls,
    with the request of its own: the URL of its path, and the header
    Accept that it sets. *)
Theorem client_executing_request_error (c : client) (h : heap) (ctx : context_Context)
    (l : loc) (hc : http_Client) :
  httpClient c = Some l -> h !! l = Some hc ->
  let fails (path accept : string) (err : error) : Prop :=
    exists req,
      http_NewRequestWithContext ctx MethodGet (baseURL c +:+ path) = Ok req
      /\ http_Do hc (Request_Header_Set "Accept" accept req) = Err err in
  (forall err, fails "/health" "application/json" err ->
     client_GetHealth c h ctx = Returns (Err ("executing request: " +:+ err)))
  /\ (forall err, fails "/health/live" "application/json" err ->
        client_GetLiveness c h ctx = Returns (Err ("executing request: " +:+ err)))
  /\ (forall err, fails "/health/ready" "application/json" err ->
        client_GetReadiness c h ctx = Returns (Err ("executing request: " +:+ err)))
  /\ (forall err, fails "/status" "application/json" err ->
        client_GetStatus c h ctx = Returns (Err ("executing request: " +:+ err)))
  /\ (forall err, fails "/metrics" "text/plain" err ->
        client_GetMetrics c h ctx = Returns (Err ("executing request: " +:+ err))).
Proof.
  intros Hl Hhc fails. subst fails.
  unfold client_GetHealth, client_GetLiveness, client_GetReadiness, client_GetStatus,
    client_GetMetrics, doRequest, Client_Do.
  rewrite Hl, Hhc.
  repeat split; intros err (req & -> & ->); reflexivity.
Qed.

(** X11. [WithHTTPClient(nil)] is taken without an error: [NewClient]
    returns a client that holds the nil pointer. Each of the five calls on
    that client then panics when the URL of its request parses, since it
    calls [Do] through the nil pointer. A [WithTimeout] after
    [WithHTTPClient(nil)] makes [NewClient] itself panic. *)
Theorem client_nil_http_client (baseURL0 : string) (u : url_URL) (h : heap)
    (ctx : context_Context) (d : Duration) :
  url_Parse baseURL0 = Ok u ->
  let parses (path : string) : Prop :=
    exists u', url_Parse (URL_String u +:+ path) = Ok u' in
  (exists c h',
     NewClient baseURL0 [WithHTTPClient None] h = Returns (Ok c, h')
     /\ httpClient c = None
     /\ (parses "/health" -> client_GetHealth c h' ctx = Panics)
     /\ (parses "/health/live" -> client_GetLiveness c h' ctx = Panics)
     /\ (parses "/health/ready" -> client_GetReadiness c h' ctx = Panics)
     /\ (parses "/status" -> client_GetStatus c h' ctx = Panics)
     /\ (parses "/metrics" -> client_GetMetrics c h' ctx = Panics))
  /\ NewClient baseURL0 [WithHTTPClient None; WithTimeout d] h = Panics.
Proof.
  intros Hu parses. subst parses. unfold NewClient. rewrite Hu. split; [|reflexivity].
  eexists _, _. split; [reflexivity|]. split; [reflexivity|].
  unfold client_GetHealth, client_GetLiveness, client_GetReadiness, client_GetStatus,
    client_GetMetrics, doRequest, http_NewRequestWithContext, Client_Do.
  cbn [baseURL httpClient].
  repeat split; intros [u' ->]; reflexivity.
Qed.

End MoreClientFacts.

Lemma client_GetStatus_only_200_witness :
  client_GetStatus (E := test_Env_unavailable) test_client test_heap context_Background
  = Returns (Err "unexpected status code 503: Service Unavailable"%string).
Proof.
  refine (proj2 (client_GetStatus_only_200 (E := test_Env_unavailable) test_client test_heap
                   context_Background
                   {| StatusCode := 503; resp_Body := text_body "Service Unavailable" |}
                   eq_refl) _).
  discriminate.
Defined.

Lemma client_creating_request_error_witness :
  client_GetHealth (E := test_Env) {| baseURL := ":bad"; httpClient := None |} ∅
    context_Background
  = Returns (Err "creating request: parse: missing protocol scheme"%string).
Proof.
  exact (proj1 (client_creating_request_error (E := test_Env)
                  {| baseURL := ":bad"; httpClient := None |} ∅ context_Background)
           "parse: missing protocol scheme"%string eq_refl).
Defined.

Lemma client_executing_request_error_witness :
  client_GetMetrics (E := canned_Env [] []) test_client test_heap context_Background
  = Returns (Err "executing request: dial tcp: connection refused"%string).
Proof.
  refine (proj2 (proj2 (proj2 (proj2
    (client_executing_request_error (E := canned_Env [] []) test_client test_heap
       context_Background 1%positive
       {| Timeout := 30 * Second; Transport := 0%nat |} eq_refl eq_refl))))
    "dial tcp: connection refused"%string _).
  eexists. split; reflexivity.
Defined.

Lemma client_nil_http_client_witness :
  (exists c h',
     NewClient (E := test_Env) test_base [WithHTTPClient None] ∅ = Returns (Ok c, h')
     /\ client_GetStatus (E := test_Env) c h' context_Background = Panics)
  /\ NewClient (E := test_Env) test_base [WithHTTPClient None; WithTimeout Second] ∅
     = Panics.
Proof.
  destruct (client_nil_http_client (E := test_Env) test_base {| url_text := test_base |}
              ∅ context_Background Second eq_refl)
    as [(c & h' & Hnew & _ & _ & _ & _ & Hstatus & _) Hpanic].
  split; [|exact Hpanic].
  exists c, h'. split; [exact Hnew|]. apply Hstatus. eexists. reflexivity.
Defined.

Section ClientOptions.
Context {E : Env}.

(** X12. [WithTimeout] writes through the pointer the client holds at that
    moment. After [WithHTTPClient(p)] it sets the timeout of the caller's
    own [http.Client] at [p]; before it, it sets the timeout of the client
    that is then replaced, so the caller's one and its timeout stay as
    they are. In both orders the calls go through [p]. *)
Theorem WithTimeout_writes_through (baseURL0 : string) (u : url_URL) (h : heap)
    (p : loc) (hc : http_Client) (d : Duration) :
  url_Parse baseURL0 = Ok u -> h !! p = Some hc ->
  (exists c h',
     NewClient baseURL0 [WithHTTPClient (Some p); WithTimeout d] h = Returns (Ok c, h')
     /\ httpClient c = Some p
     /\ h' !! p = Some {| Timeout := d; Transport := Transport hc |})
  /\ (exists c h',
     NewClient baseURL0 [WithTimeout d; WithHTTPClient (Some p)] h = Returns (Ok c, h')
     /\ httpClient c = Some p
     /\ h' !! p = Some hc).
Proof.
  intros Hu Hp. unfold NewClient. rewrite Hu.
  assert (Hfresh : fresh (dom h) <> p).
  { intros Heq. apply (is_fresh (dom h)). rewrite Heq.
    apply elem_of_dom. now exists hc. }
  split.
  - cbn [apply_options apply_ClientOption httpClient baseURL].
    rewrite lookup_insert_ne, Hp by exact Hfresh.
    eexists _, _. split; [reflexivity|]. split; [reflexivity|].
    apply lookup_insert_eq.
  - cbn [apply_options apply_ClientOption httpClient baseURL].
    rewrite lookup_insert_eq.
    eexists _, _. split; [reflexivity|]. split; [reflexivity|].
    rewrite insert_insert_eq, lookup_insert_ne by exact Hfresh. exact Hp.
Qed.

Lemma apply_options_WithTimeout (ds : list Duration) (c : client) (h : heap)
    (l : loc) (hc : http_Client) :
  httpClient c = Some l -> h !! l = Some hc ->
  apply_options (WithTimeout <$> ds) c h
  = Returns (c, <[l := {| Timeout := default (Timeout hc) (last ds);
                          Transport := Transport hc |}]> h).
Proof.
  revert h hc. induction ds as [|d ds IH]; intros h hc Hl Hhc.
  - cbn. rewrite insert_id; [reflexivity|]. rewrite Hhc. now destruct hc.
  - rewrite fmap_cons. cbn [apply_options apply_ClientOption]. rewrite Hl, Hhc.
    rewrite (IH _ {| Timeout := d; Transport := Transport hc |} Hl)
      by apply lookup_insert_eq.
    rewrite insert_insert_eq. cbn [Timeout Transport].
    assert (default d (last ds) = default (Timeout hc) (last (d :: ds))) as ->;
      [|reflexivity].
    destruct ds as [|d' ds]; [reflexivity|]. rewrite last_cons_cons.
    now destruct (last (d' :: ds)) eqn:Hlast; [|apply last_None in Hlast].
Qed.

(** X13. Given timeout options only, [NewClient] does not panic, the last
    timeout given is the one that counts (30 seconds when none is given),
    and no [http.Client] that was there before the call is changed: the
    options write to the client made by the call alone. *)
Theorem NewClient_WithTimeout_frame (baseURL0 : string) (u : url_URL)
    (ds : list Duration) (h : heap) :
  url_Parse baseURL0 = Ok u ->
  exists c h',
    NewClient baseURL0 (WithTimeout <$> ds) h = Returns (Ok c, h')
    /\ baseURL c = URL_String u
    /\ client_Timeout c h' = Some (default (30 * Second) (last ds))
    /\ forall l, is_Some (h !! l) -> h' !! l = h !! l.
Proof.
  intros Hu. unfold NewClient. rewrite Hu.
  erewrite (apply_options_WithTimeout ds _ _ (fresh (dom h))
              {| Timeout := 30 * Second; Transport := 0%nat |});
    [|reflexivity|apply lookup_insert_eq].
  eexists _, _. split; [reflexivity|]. split; [reflexivity|].
  split.
  - unfold client_Timeout. cbn [httpClient mbind option_bind].
    rewrite lookup_insert_eq. reflexivity.
  - intros l Hl. rewrite insert_insert_eq. apply lookup_insert_ne.
    intros Heq. apply (is_fresh (dom h)). rewrite Heq. now apply elem_of_dom.
Qed.

(** X14. A body whose read breaks: under status 200 [GetMetrics] returns
    the error "reading response body: ..." and not the part that arrived;
    under any other status the break is passed over, and the part that
    arrived stands in the "unexpected status code" error. *)
Theorem client_GetMetrics_read_error (c : client) (h : heap) (ctx : context_Context)
    (req : http_Request) (resp : http_Response) (err : error) :
  http_NewRequestWithContext ctx MethodGet (baseURL c +:+ "/metrics") = Ok req ->
  Client_Do h (httpClient c) (Request_Header_Set "Accept" "text/plain" req)
    = Returns (Ok resp) ->
  body_err (resp_Body resp) = Some err ->
  client_GetMetrics c h ctx
  = Returns (Err (if decide (StatusCode resp = 200)
                  then ("reading response body: " +:+ err)%string
                  else ("unexpected status code " +:+ fmt_d (StatusCode resp) +:+ ": "
                        +:+ body_data (resp_Body resp))%string)).
Proof.
  intros Hreq Hdo Herr. unfold client_GetMetrics. rewrite Hreq, Hdo.
  case_decide as Hcode.
  - rewrite Hcode. cbn [Z.eqb StatusOK negb Pos.eqb]. unfold io_ReadAll.
    now rewrite Herr.
  - assert ((StatusCode resp =? StatusOK) = false) as -> by now apply Z.eqb_neq.
    reflexivity.
Qed.

End ClientOptions.

Lemma WithTimeout_writes_through_witness :
  exists c h',
    NewClient (E := test_Env) test_base
      [WithHTTPClient (Some 7%positive); WithTimeout (5 * Second)]
      {[ 7%positive := {| Timeout := 10 * Second; Transport := 1%nat |} ]}
    = Returns (Ok c, h')
    /\ httpClient c = Some 7%positive
    /\ h' !! 7%positive = Some {| Timeout := 5 * Second; Transport := 1%nat |}.
Proof.
  apply (WithTimeout_writes_through (E := test_Env) test_base {| url_text := test_base |}
           {[ 7%positive := {| Timeout := 10 * Second; Transport := 1%nat |} ]}
           7%positive {| Timeout := 10 * Second; Transport := 1%nat |} (5 * Second)).
  - reflexivity.
  - apply lookup_singleton_eq.
Defined.

Lemma NewClient_WithTimeout_frame_witness :
  exists c h',
    NewClient (E := test_Env) test_base (WithTimeout <$> [5 * Second; 2 * Second]) ∅
    = Returns (Ok c, h')
    /\ baseURL c = test_base
    /\ client_Timeout c h' = Some (2 * Second)
    /\ forall l, is_Some ((∅ : heap) !! l) -> h' !! l = (∅ : heap) !! l.
Proof.
  apply (NewClient_WithTimeout_frame (E := test_Env) test_base
           {| url_text := test_base |} [5 * Second; 2 * Second] ∅).
  reflexivity.
Defined.

Lemma client_GetMetrics_read_error_witness :
  client_GetMetrics (E := test_Env_broken_body) test_client test_heap context_Background
  = Returns (Err "reading response body: unexpected EOF"%string).
Proof.
  apply (client_GetMetrics_read_error (E := test_Env_broken_body) test_client test_heap
           context_Background _
           {| StatusCode := 200;
              resp_Body := {| body_data := "up 1";
                              body_err := Some "unexpected EOF"%string |} |}
           "unexpected EOF" eq_refl eq_refl eq_refl).
Defined.

(** ** Client and handler, end to end *)

Section EndToEnd.
Context {E : Env}.

Lemma status_gate_500 (A : Type) (x y : outcome (Result A)) :
  (if negb (500 =? StatusOK) && negb (500 =? StatusServiceUnavailable) then x else y) = x.
Proof. reflexivity. Qed.

(** X15. Client and handler end to end, for the three probes. When the
    response that reaches the client is the one the handler wrote (same
    status code, a body that reads as the JSON value written), and the
    response of the backend has strings of valid UTF-8 and an instant that
    the time package writes and reads back, the client call returns
    exactly the response the backend gave, also when the handler answered
    503 for an unhealthy, not alive or not ready one; and an error of the
    backend comes out as the error "unexpected status code 500: <body>". *)
Theorem probes_over_the_wire (srv : Server) (c : client) (h : heap)
    (ctx : context_Context) (req : http_Request) (now : Time)
    (w : ResponseWriter) (resp : http_Response) :
  served w resp ->
  (handleGetHealth (NewHTTPHandler srv) new_ResponseWriter req now = Returns w ->
   doRequest c h ctx MethodGet "/health" = Returns (Ok resp) ->
   match GetHealth srv (Request_Context req) now with
   | (_, Some err) =>
       StatusCode resp = 500
       /\ client_GetHealth c h ctx = Returns (Err (unexpected_status resp))
   | (Some r, None) =>
       HealthResponse_wire_ok r -> client_GetHealth c h ctx = Returns (Ok r)
   | (None, None) => False
   end)
  /\ (handleGetLiveness (NewHTTPHandler srv) new_ResponseWriter req now = Returns w ->
   doRequest c h ctx MethodGet "/health/live" = Returns (Ok resp) ->
   match GetLiveness srv (Request_Context req) now with
   | (_, Some err) =>
       StatusCode resp = 500
       /\ client_GetLiveness c h ctx = Returns (Err (unexpected_status resp))
   | (Some r, None) =>
       LivenessResponse_wire_ok r -> client_GetLiveness c h ctx = Returns (Ok r)
   | (None, None) => False
   end)
  /\ (handleGetReadiness (NewHTTPHandler srv) new_ResponseWriter req now = Returns w ->
   doRequest c h ctx MethodGet "/health/ready" = Returns (Ok resp) ->
   match GetReadiness srv (Request_Context req) now with
   | (_, Some err) =>
       StatusCode resp = 500
       /\ client_GetReadiness c h ctx = Returns (Err (unexpected_status resp))
   | (Some r, None) =>
       ReadinessResponse_wire_ok r -> client_GetReadiness c h ctx = Returns (Ok r)
   | (None, None) => False
   end).
Proof.
  intros [Hcode Hbody].
  split; [|split].
  - unfold handleGetHealth, client_GetHealth. cbn [server NewHTTPHandler].
    intros Hh Hreq. rewrite Hreq.
    destruct (GetHealth srv (Request_Context req) now) as [[r|] [err|]];
      try discriminate; injection Hh as <-;
      rewrite ?writeError_new, ?writeJSON_new in Hcode, Hbody;
      cbn [rw_Code rw_Body json_answer] in Hcode, Hbody;
      injection Hcode as <-.
    + now rewrite status_gate_500.
    + intros Hr. unfold Decoder_Decode. rewrite Hbody. cbn [mbind Result_bind].
      rewrite (json_wire_marshal_HealthResponse r Hr).
      rewrite (unmarshal_marshal_HealthResponse r (proj2 Hr)).
      now destruct (String.eqb (HealthResponse.Status r) HealthStatusUnhealthy).
    + now rewrite status_gate_500.
  - unfold handleGetLiveness, client_GetLiveness. cbn [server NewHTTPHandler].
    intros Hh Hreq. rewrite Hreq.
    destruct (GetLiveness srv (Request_Context req) now) as [[r|] [err|]];
      try discriminate; injection Hh as <-;
      rewrite ?writeError_new, ?writeJSON_new in Hcode, Hbody;
      cbn [rw_Code rw_Body json_answer] in Hcode, Hbody;
      injection Hcode as <-.
    + now rewrite status_gate_500.
    + intros Hr. unfold Decoder_Decode. rewrite Hbody. cbn [mbind Result_bind].
      rewrite (json_wire_marshal_LivenessResponse r Hr).
      rewrite (unmarshal_marshal_LivenessResponse r Hr).
      now destruct (LivenessResponse.Alive r).
    + now rewrite status_gate_500.
  - unfold handleGetReadiness, client_GetReadiness. cbn [server NewHTTPHandler].
    intros Hh Hreq. rewrite Hreq.
    destruct (GetReadiness srv (Request_Context req) now) as [[r|] [err|]];
      try discriminate; injection Hh as <-;
      rewrite ?writeError_new, ?writeJSON_new in Hcode, Hbody;
      cbn [rw_Code rw_Body json_answer] in Hcode, Hbody;
      injection Hcode as <-.
    + now rewrite status_gate_500.
    + intros Hr. unfold Decoder_Decode. rewrite Hbody. cbn [mbind Result_bind].
      rewrite (json_wire_marshal_ReadinessResponse r Hr).
      rewrite (unmarshal_marshal_ReadinessResponse r (proj1 Hr)).
      now destruct (ReadinessResponse.Ready r).
    + now rewrite status_gate_500.
Qed.

(** X16. The status query end to end. When the status the backend gave
    has strings of valid UTF-8 and instants that the time package writes
    and reads back, the client returns it, field by field (the
    dependencies as the same sequence); an error of the backend comes out
    as the error "unexpected status code 500: <body>"; and a nil response
    of the backend, which the handler writes as [null] with status 200,
    comes out as a status response with every field zero, not as an
    error. *)
Theorem status_over_the_wire (srv : Server) (c : client) (h : heap)
    (ctx : context_Context) (req : http_Request) (now : Time)
    (w : ResponseWriter) (resp : http_Response) :
  served w resp ->
  handleGetStatus (NewHTTPHandler srv) new_ResponseWriter req now = Returns w ->
  doRequest c h ctx MethodGet "/status" = Returns (Ok resp) ->
  match GetStatus srv (Request_Context req) now with
  | (_, Some err) =>
      StatusCode resp = 500
      /\ client_GetStatus c h ctx = Returns (Err (unexpected_status resp))
  | (Some r, None) =>
      StatusResponse_wire_ok r ->
      exists r', client_GetStatus c h ctx = Returns (Ok r') /\ StatusResponse_eq r r'
  | (None, None) =>
      client_GetStatus c h ctx
      = Returns (Ok (StatusResponse.mk "" "" "" None zero_Time 0 "" "" None))
  end.
Proof.
  intros [Hcode Hbody]. unfold handleGetStatus, client_GetStatus.
  cbn [server NewHTTPHandler]. intros Hh Hreq. rewrite Hreq.
  destruct (GetStatus srv (Request_Context req) now) as [[r|] [err|]];
    injection Hh as <-;
    rewrite ?writeError_new, ?writeJSON_new in Hcode, Hbody;
    cbn [rw_Code rw_Body json_answer from_option] in Hcode, Hbody;
    injection Hcode as <-.
  - split; reflexivity.
  - intros Hr. unfold Decoder_Decode. rewrite Hbody. cbn [mbind Result_bind].
    rewrite (json_wire_marshal_StatusResponse r Hr).
    destruct Hr as (_ & _ & _ & Hbt & Hst & Hup & _).
    rewrite (unmarshal_marshal_StatusResponse r Hbt Hst Hup).
    eexists. split; [reflexivity|].
    unfold StatusResponse_eq, same_elems, reread_slice. simpl.
    repeat split; try reflexivity.
    destruct (StatusResponse.Dependencies r) as [[|d l]|]; reflexivity.
  - split; reflexivity.
  - unfold Decoder_Decode. rewrite Hbody. reflexivity.
Qed.

(** X17. The metrics query end to end: the client returns the text the
    backend gave, byte for byte; an error of the backend comes out as the
    error "unexpected status code 500: <body>", the body being the JSON
    error object as text. *)
Theorem metrics_over_the_wire (srv : Server) (c : client) (h : heap)
    (ctx : context_Context) (req req' : http_Request) (now : Time)
    (w : ResponseWriter) (resp : http_Response) :
  served w resp ->
  handleGetMetrics (NewHTTPHandler srv) new_ResponseWriter req now = Returns w ->
  http_NewRequestWithContext ctx MethodGet (baseURL c +:+ "/metrics") = Ok req' ->
  Client_Do h (httpClient c) (Request_Header_Set "Accept" "text/plain" req')
    = Returns (Ok resp) ->
  match GetMetrics srv (Request_Context req) now with
  | (_, Some err) =>
      StatusCode resp = 500
      /\ client_GetMetrics c h ctx = Returns (Err (unexpected_status resp))
  | (metrics, None) => client_GetMetrics c h ctx = Returns (Ok metrics)
  end.
Proof.
  intros [Hcode Hbody]. unfold handleGetMetrics, client_GetMetrics.
  cbn [server NewHTTPHandler]. intros Hh Hreq Hdo. rewrite Hreq, Hdo.
  destruct (GetMetrics srv (Request_Context req) now) as [metrics [err|]];
    injection Hh as <-.
  - rewrite writeError_new in Hcode. cbn [rw_Code] in Hcode.
    injection Hcode as <-. split; reflexivity.
  - cbn in Hcode, Hbody. injection Hcode as <-. rewrite Hbody. reflexivity.
Qed.

End EndToEnd.

Lemma probes_over_the_wire_witness :
  client_GetReadiness (E := test_Env_wire) test_client test_heap context_Background
  = Returns (Ok (ReadinessResponse.mk false test_time
                   (Some {[ "database"%string := "disconnected"%string ]}))).
Proof.
  refine (proj2 (proj2
    (probes_over_the_wire (E := test_Env_wire) test_Server
       test_client test_heap context_Background (test_request "/health/ready")
       test_time _ {| StatusCode := 503; resp_Body := text_body test_ready_body |} _))
    eq_refl eq_refl _).
  - split; [reflexivity|]. vm_compute. reflexivity.
  - split; [split; [reflexivity | apply test_time_roundtrip]|].
    intros k v Hkv. cbn in Hkv. apply lookup_singleton_Some in Hkv as [<- <-].
    split; reflexivity.
Defined.

Lemma status_over_the_wire_witness :
  client_GetStatus (E := test_Env_wire) test_client test_heap context_Background
  = Returns (Ok (StatusResponse.mk "" "" "" None zero_Time 0 "" "" None)).
Proof.
  refine (status_over_the_wire (E := test_Env_wire) test_Server
            test_client test_heap context_Background (test_request "/status")
            test_time _ {| StatusCode := 200; resp_Body := text_body ("null" +:+ lf) |}
            _ eq_refl eq_refl).
  split; reflexivity.
Defined.

Lemma metrics_over_the_wire_witness :
  client_GetMetrics (E := test_Env_wire) test_client test_heap context_Background
  = Returns (Err ("unexpected status code 500: " +:+ test_error_body)%string).
Proof.
  refine (proj2
    (metrics_over_the_wire (E := test_Env_wire) test_Server test_client test_heap
       context_Background (test_request "/metrics") _ test_time _
       {| StatusCode := 500; resp_Body := text_body test_error_body |}
       _ eq_refl eq_refl eq_refl)).
  split; reflexivity.
Defined.

(** ** The default backend, further *)

(** *** A start time after the time of the query

    Negating a duration negates its float64 seconds, and the conversion to
    int64 truncates towards zero on both sides. *)


Lemma binary_round_aux_opp (m e : Z) (l : location) :
  binary_round_aux prec64 emax64 true m e l
  = SFopp (binary_round_aux prec64 emax64 false m e l).
Proof.
  unfold binary_round_aux.
  destruct (shr_fexp prec64 emax64 m e l) as [mrs' e'].
  destruct (shr_fexp prec64 emax64 _ e' loc_Exact) as [mrs'' e''].
  destruct (shr_m mrs''); try reflexivity.
  now destruct (e'' <=? emax64 - prec64).
Qed.

Lemma float64_of_int_opp (x : Z) :
  float64_of_int (- x) = SFopp (float64_of_int x) \/ x = 0.
Proof.
  destruct x as [|p|p]; [now right|left|left].
  - change (- Z.pos p) with (Z.neg p).
    unfold float64_of_int, binary_normalize, binary_round.
    destruct (shl_align p 0 _) as [mz ez].
    apply binary_round_aux_opp.
  - change (- Z.neg p) with (Z.pos p).
    unfold float64_of_int, binary_normalize, binary_round.
    destruct (shl_align p 0 _) as [mz ez].
    rewrite binary_round_aux_opp.
    now destruct (binary_round_aux prec64 emax64 false (Z.pos mz) ez loc_Exact)
      as [[]|[]| |[] ? ?].
Qed.

Lemma float64_div_opp (mx my : positive) (ex ey : Z) :
  float64_div (S754_finite true mx ex) (S754_finite false my ey)
  = SFopp (float64_div (S754_finite false mx ex) (S754_finite false my ey)).
Proof.
  unfold float64_div, SFdiv.
  destruct (SFdiv_core_binary prec64 emax64 (Z.pos mx) ex (Z.pos my) ey) as [[mz ez] lz].
  apply binary_round_aux_opp.
Qed.

Lemma float64_add_opp (mx my : positive) (ex ey : Z) :
  float64_add (S754_finite true mx ex) (S754_finite true my ey)
  = SFopp (float64_add (S754_finite false mx ex) (S754_finite false my ey)).
Proof.
  unfold float64_add, SFadd, cond_Zopp.
  set (a := fst (shl_align mx ex (Z.min ex ey))).
  set (b := fst (shl_align my ey (Z.min ex ey))).
  change (- Z.pos a + - Z.pos b) with (Z.neg (a + b)).
  change (Z.pos a + Z.pos b) with (Z.pos (a + b)).
  unfold binary_normalize, binary_round.
  destruct (shl_align (a + b) _ _) as [mz ez].
  apply binary_round_aux_opp.
Qed.

Lemma int64_of_float64_opp (f : float64) :
  0 <= int64_of_float64 f ->
  int64_of_float64 (SFopp f) = - int64_of_float64 f.
Proof.
  assert (Hmin : minInt64 < 0) by reflexivity.
  assert (Hmax : 0 < maxInt64) by reflexivity.
  assert (Hrel : minInt64 <= - maxInt64) by (vm_compute; discriminate).
  destruct f as [s|s| |s m e]; cbn [SFopp int64_of_float64]; try lia.
  set (mag := if 0 <=? e then Z.pos m * 2 ^ e else Z.pos m / 2 ^ (- e)).
  assert (Hmag : 0 <= mag).
  { unfold mag. destruct (0 <=? e) eqn:He.
    - apply Z.leb_le in He. assert (0 < 2 ^ e) by (apply Z.pow_pos_nonneg; lia). lia.
    - apply Z.leb_gt in He. apply Z.div_pos; [lia|]. apply Z.pow_pos_nonneg; lia. }
  clearbody mag. destruct s; cbn [negb].
  - destruct (Z.leb_spec minInt64 (- mag)), (Z.leb_spec (- mag) maxInt64),
      (Z.leb_spec minInt64 mag), (Z.leb_spec mag maxInt64); cbn [andb]; lia.
  - destruct (Z.leb_spec minInt64 (- mag)), (Z.leb_spec (- mag) maxInt64),
      (Z.leb_spec minInt64 mag), (Z.leb_spec mag maxInt64); cbn [andb]; lia.
Qed.

Lemma Duration_Seconds_opp (d : Duration) :
  0 < d <= maxDuration ->
  Duration_Seconds (- d) = SFopp (Duration_Seconds d).
Proof.
  intros Hd. unfold maxDuration in Hd.
  change (2 ^ 63 - 1) with 9223372036854775807 in Hd.
  unfold Duration_Seconds.
  rewrite Z.quot_opp_l, Z.rem_opp_l by (unfold Second; lia).
  rewrite Z.quot_div_nonneg, Z.rem_mod_nonneg by (unfold Second; lia).
  pose proof (Z.div_mod d Second ltac:(unfold Second; lia)) as Hdm.
  pose proof (Z.mod_pos_bound d Second ltac:(unfold Second; lia)) as Hns.
  assert (Hsec : 0 <= d / Second < 2 ^ 53).
  { split; [apply Z.div_pos; unfold Second; lia|].
    apply Z.div_lt_upper_bound; unfold Second in *; [lia|].
    change (2 ^ 53) with 9007199254740992. lia. }
  set (sec := d / Second) in *. set (nsec := d mod Second) in *.
  unfold Second in Hns, Hdm.
  destruct (Z.eq_dec nsec 0) as [Hn0|Hn0]; destruct (Z.eq_dec sec 0) as [Hs0|Hs0].
  - exfalso. lia.
  - rewrite Hn0. cbn [Z.opp].
    destruct (float64_of_int_opp sec) as [->|]; [|lia].
    destruct (float64_of_int_exact sec) as (_ & _ & ->); [lia|]. reflexivity.
  - rewrite Hs0. cbn [Z.opp].
    destruct (float64_of_int_opp nsec) as [->|]; [|lia].
    destruct (float64_of_int_exact nsec) as (_ & _ & Hf);
      [change (2 ^ 53) with 9007199254740992; lia|].
    destruct (fraction_small nsec) as (my & ty & Hy & _); [lia|].
    rewrite Hf in *. rewrite float64_1e9_eq in *. cbn [SFopp].
    rewrite float64_div_opp, Hy. reflexivity.
  - destruct (float64_of_int_opp sec) as [->|]; [|lia].
    destruct (float64_of_int_opp nsec) as [->|]; [|lia].
    destruct (float64_of_int_exact sec) as (_ & _ & Hfs); [lia|].
    destruct (float64_of_int_exact nsec) as (_ & _ & Hfn);
      [change (2 ^ 53) with 9007199254740992; lia|].
    destruct (fraction_small nsec) as (my & ty & Hy & _); [lia|].
    rewrite Hfs, Hfn in *. rewrite float64_1e9_eq in *. cbn [SFopp].
    rewrite float64_div_opp, Hy. cbn [SFopp].
    apply float64_add_opp.
Qed.

(** X18. When the start time of the default backend is after the time of
    the query (by no more than the largest duration), [GetStatus] returns
    no error and an uptime that is not positive; it is negative once the
    start time is a second or more ahead; and while it is less than 2^24
    seconds ahead, the uptime is the elapsed time [now - start_time], a
    negative number of nanoseconds, truncated towards zero to whole
    seconds. *)
Theorem GetStatus_uptime_before_start (s : BaseServer.t) (ctx : context_Context)
    (now : Time) :
  abs_ns now < abs_ns (BaseServer.StartTime s) ->
  abs_ns (BaseServer.StartTime s) - abs_ns now <= maxDuration ->
  exists r : StatusResponse.t,
    BaseServer_GetStatus s ctx now = (Some r, None)
    /\ StatusResponse.UptimeSeconds r <= 0
    /\ (Second <= abs_ns (BaseServer.StartTime s) - abs_ns now ->
        StatusResponse.UptimeSeconds r < 0)
    /\ (abs_ns (BaseServer.StartTime s) - abs_ns now < 2 ^ 24 * Second ->
        StatusResponse.UptimeSeconds r
        = Z.quot (abs_ns now - abs_ns (BaseServer.StartTime s)) Second).
Proof.
  intros Hlt Hmax. unfold BaseServer_GetStatus, time_Since.
  eexists. split; [reflexivity|]. cbn [StatusResponse.UptimeSeconds].
  set (e := abs_ns (BaseServer.StartTime s) - abs_ns now) in *.
  assert (Hsub : Time_Sub now (BaseServer.StartTime s) = - e).
  { unfold Time_Sub, minDuration. unfold maxDuration in *.
    assert (H63 : 0 < 2 ^ 63) by reflexivity.
    destruct (Z.ltb_spec (abs_ns now - abs_ns (BaseServer.StartTime s)) (- 2 ^ 63));
      [lia|].
    destruct (Z.ltb_spec (2 ^ 63 - 1) (abs_ns now - abs_ns (BaseServer.StartTime s)));
      lia. }
  rewrite Hsub, Duration_Seconds_opp by lia.
  pose proof (Seconds_within_one e ltac:(lia)) as [Hlo Hhi].
  assert (Hq : 0 <= e / Second) by (apply Z.div_pos; unfold Second; lia).
  rewrite int64_of_float64_opp by lia.
  split; [lia|]. split.
  - intros Hsec.
    assert (1 <= e / Second)
      by (apply Z.div_le_lower_bound; unfold Second in *; lia).
    lia.
  - intros Hsmall.
    rewrite (Seconds_truncated e) by lia.
    replace (abs_ns now - abs_ns (BaseServer.StartTime s)) with (- e) by lia.
    rewrite Z.quot_opp_l by (unfold Second; lia).
    rewrite Z.quot_div_nonneg by (unfold Second; lia). reflexivity.
Qed.

Lemma GetStatus_uptime_before_start_witness :
  exists r : StatusResponse.t,
    BaseServer_GetStatus (NewBaseServer "svc" "1.0.0" "test" (mkTime 90500000000))
      context_Background (mkTime 0) = (Some r, None)
    /\ StatusResponse.UptimeSeconds r = -90.
Proof.
  destruct (GetStatus_uptime_before_start
              (NewBaseServer "svc" "1.0.0" "test" (mkTime 90500000000))
              context_Background (mkTime 0))
    as (r & Hr & _ & _ & Hup).
  - cbn. lia.
  - vm_compute. discriminate.
  - exists r. split; [exact Hr|]. apply Hup. reflexivity.
Defined.

(** *** Readiness and the order of the map *)

(** X19. Go hands out the entries of a map in an order that is not fixed.
    Whatever order the loop of [GetReadiness] sees the checks in, the ready
    flag it computes is the one of the response. *)
Theorem GetReadiness_order_independent (s : BaseServer.t) (ctx : context_Context)
    (now : Time) (f : context_Context -> GoMap) (entries : list (string * string)) :
  BaseServer.CheckFunc s = Some f ->
  entries ≡ₚ GoMap_range (f ctx) ->
  exists r : ReadinessResponse.t,
    BaseServer_GetReadiness s ctx now = (Some r, None)
    /\ ReadinessResponse.Ready r = readiness_loop entries true
    /\ ReadinessResponse.Checks r = f ctx.
Proof.
  intros Hf Hp. unfold BaseServer_GetReadiness. rewrite Hf.
  eexists. split; [reflexivity|]. split; [|reflexivity].
  cbn [ReadinessResponse.Ready]. symmetry.
  now apply readiness_loop_Permutation.
Qed.

(** *** The status of a backend as the constructor leaves it *)

Section FreshBackend.
Context {E : Env}.

(** X20. A backend as [NewBaseServer] returns it has no commit, build
    time, host name or dependencies, so the object written for GET /status
    has the five members without [omitempty] and no other; asked at the
    very time it was created, its uptime is 0. *)
Theorem NewBaseServer_status_answer (serviceName version environment : string)
    (t now : Time) (r : http_Request) :
  handleGetStatus
    (NewHTTPHandler (BaseServer_Server (NewBaseServer serviceName version environment t)))
    new_ResponseWriter r now
  = Returns (json_answer 200
      (JObject [ ("service_name", JString serviceName);
                 ("version", JString version);
                 ("start_time", marshal_Time t);
                 ("uptime_seconds",
                   JNumber (int64_of_float64 (Duration_Seconds (time_Since now t))));
                 ("environment", JString environment) ]))
  /\ int64_of_float64 (Duration_Seconds (time_Since t t)) = 0.
Proof.
  split.
  - unfold handleGetStatus. cbn [server NewHTTPHandler BaseServer_Server GetStatus].
    unfold BaseServer_GetStatus. now rewrite writeJSON_new.
  - unfold time_Since, Time_Sub. rewrite Z.sub_diag. reflexivity.
Qed.

End FreshBackend.

Lemma GetReadiness_order_independent_witness :
  exists r : ReadinessResponse.t,
    BaseServer_GetReadiness test_checked_BaseServer context_Background (mkTime 5)
    = (Some r, None)
    /\ ReadinessResponse.Ready r = false
    /\ ReadinessResponse.Checks r = test_checks.
Proof.
  refine (GetReadiness_order_independent test_checked_BaseServer context_Background
            (mkTime 5) (fun _ => test_checks)
            [("database", "connected"); ("cache", "down")]%string eq_refl _).
  vm_compute. first [reflexivity | apply perm_swap].
Defined.
